(** * cfileio.c: file names, the driver table and the life of a file handle

    A shallow embedding of the routines of cfileio.c that parse an input
    file name (ffiurl, ffourl, ffexts, ffbins and its helpers), keep the table
    of I/O drivers (fits_register_driver, urltype2driver) and open, share and
    close files (ffopen, ffreopen, ffinit, ffselect_table, ffextn, ffclos),
    followed by the properties that the specification states about them.

    Conventions.
    - A C string is the list of its characters up to the terminating NUL; a
      [char *] that may be NULL is an [option cstring].  The fixed sizes of the
      caller's buffers (FLEN_FILENAME and the like) are not modelled: strings
      are taken to fit.
    - A C [int] is a [Z]; the status word is passed in and handed back.
    - The constants of fitsio.h and fitsio2.h are the fields of [fitsio_h];
      nothing is assumed about their values unless a statement says so.
    - [double] is an abstract type with the few operations the file uses. *)

From Stdlib Require Import ZArith String Ascii List Lia Bool DecimalString.
From stdpp Require Import base option list strings.

Set Default Proof Using "Type".

(** ** C strings *)

Abbreviation cstring := (list ascii).

Definition cstr (s : string) : cstring := list_ascii_of_string s.

Definition chr (s : string) : ascii :=
  match s with String c _ => c | EmptyString => Ascii.zero end.

Definition SP : ascii := chr " ".

(** [strchr s c]: offset of the first [c] in [s]; [None] is the NULL result. *)
Fixpoint strchr (s : cstring) (c : ascii) : option nat :=
  match s with
  | [] => None
  | x :: t => if bool_decide (x = c) then Some 0%nat else S <$> strchr t c
  end.

(** [strncmp a b n == 0]. *)
Definition strncmp0 (a b : cstring) (n : nat) : bool :=
  bool_decide (take n a = take n b).

(** [strcmp a b == 0]. *)
Definition strcmp0 (a b : cstring) : bool := bool_decide (a = b).

Fixpoint starts_with (pat s : cstring) : bool :=
  match pat, s with
  | [], _ => true
  | p :: pat', x :: s' => bool_decide (p = x) && starts_with pat' s'
  | _ :: _, [] => false
  end.

(** [strstr s pat]: offset of the first occurrence of [pat] in [s]. *)
Fixpoint strstr (s pat : cstring) : option nat :=
  if starts_with pat s then Some 0%nat
  else match s with
       | [] => None
       | _ :: t => S <$> strstr t pat
       end.

Definition in_set (c : ascii) (set : cstring) : bool :=
  bool_decide (c ∈ set).

(** [strcspn s set]: length of the initial run of characters not in [set]. *)
Fixpoint strcspn (s set : cstring) : nat :=
  match s with
  | [] => 0
  | x :: t => if in_set x set then 0 else S (strcspn t set)
  end.

(** [strspn s set]: length of the initial run of characters in [set]. *)
Fixpoint strspn (s set : cstring) : nat :=
  match s with
  | [] => 0
  | x :: t => if in_set x set then S (strspn t set) else 0
  end.

(** ctype.h in the C locale. *)
Definition isdigit (c : ascii) : bool :=
  let n := nat_of_ascii c in (48 <=? n)%nat && (n <=? 57)%nat.

Definition tolower (c : ascii) : ascii :=
  let n := nat_of_ascii c in
  if (65 <=? n)%nat && (n <=? 90)%nat then ascii_of_nat (n + 32) else c.

Definition isspace (c : ascii) : bool :=
  let n := nat_of_ascii c in (n =? 32)%nat || ((9 <=? n)%nat && (n <=? 13)%nat).

(** Advance a pointer over blanks. *)
Fixpoint skip_blanks (s : cstring) : cstring :=
  match s with
  | x :: t => if bool_decide (x = SP) then skip_blanks t else s
  | [] => []
  end.

(** Character under a pointer; the terminating NUL past the end. *)
Definition peek (s : cstring) : ascii := hd Ascii.zero s.

(** Removal of every trailing blank. *)
Fixpoint drop_trailing_blanks (s : cstring) : cstring :=
  match s with
  | [] => []
  | x :: t =>
      match drop_trailing_blanks t with
      | [] => if bool_decide (x = SP) then [] else [x]
      | t' => x :: t'
      end
  end.

(** The loop
    [for (ii = slen - 1; ii > 0; ii--) if (s[ii] == ' ') s[ii] = 0; else break;]
    which never looks at the first character. *)
Definition strip_blanks (s : cstring) : cstring :=
  match s with
  | [] => []
  | x :: t => x :: drop_trailing_blanks t
  end.

(** Value of a run of decimal digits. *)
Definition digit_val (c : ascii) : Z := Z.of_nat (nat_of_ascii c) - 48.

Fixpoint digits_val (acc : Z) (s : cstring) : Z :=
  match s with
  | x :: t => if isdigit x then digits_val (10 * acc + digit_val x) t else acc
  | [] => acc
  end.

(** [sscanf(s, "%d", &v)]: white space, an optional sign, then at least one
    digit; [None] when no conversion is made.  The value is not reduced to the
    range of [int]. *)
Fixpoint skip_space (s : cstring) : cstring :=
  match s with
  | x :: t => if isspace x then skip_space t else s
  | [] => []
  end.

Definition sscanf_d (s : cstring) : option Z :=
  let s1 := skip_space s in
  let '(neg, s2) :=
    match s1 with
    | x :: t => if bool_decide (x = chr "-") then (true, t)
                else if bool_decide (x = chr "+") then (false, t)
                else (false, s1)
    | [] => (false, s1)
    end in
  if isdigit (peek s2)
  then Some (if neg then - digits_val 0 s2 else digits_val 0 s2)%Z
  else None.

(** A store through a pointer that may be NULL: [if (p) strcpy(p, s)]. *)
Definition put (p : option cstring) (s : cstring) : option cstring :=
  match p with Some _ => Some s | None => None end.

(** Contents of a buffer that the caller owns, the empty string for NULL. *)
Definition buf (p : option cstring) : cstring := default [] p.

(** ** Outcomes of code that can run into undefined behaviour *)

Inductive fault : Type :=
  | null_store        (* store through a null pointer *)
  | null_read         (* read through a null pointer *)
  | null_call         (* call through a null function pointer *)
  | dangling          (* access to a freed structure *)
  | out_of_table      (* driverTable index outside the table *)
  | stray_store       (* store in front of an allocated block or an array *)
  | no_return.        (* a loop that did not end within the steps allowed *)

Inductive res (A : Type) : Type :=
  | Done (a : A)
  | Crash (f : fault).
Arguments Done {A} a.
Arguments Crash {A} f.

(** An allocated block: its last contents, and whether it has been freed. *)
Record block (T : Type) : Type := { live : bool; content : T }.
Arguments live {T} _.
Arguments content {T} _.

(** ** Constants of the header files *)

Definition MAX_PREFIX_LEN : nat := 20.
Definition MAX_DRIVERS : Z := 15.

Record fitsio_h : Type := {
  (* status values *)
  FILE_NOT_OPENED : Z;
  FILE_NOT_CREATED : Z;
  END_OF_FILE : Z;
  FILE_NOT_CLOSED : Z;
  MEMORY_ALLOCATION : Z;
  BAD_FILEPTR : Z;
  NULL_INPUT_PTR : Z;
  BAD_URL_PREFIX : Z;
  TOO_MANY_DRIVERS : Z;
  NO_MATCHING_DRIVER : Z;
  URL_PARSE_ERROR : Z;
  UNKNOWN_REC : Z;
  (* kinds of HDU *)
  ANY_HDU : Z;
  IMAGE_HDU : Z;
  ASCII_TBL : Z;
  BINARY_TBL : Z;
  (* data type codes *)
  TBYTE : Z;
  TSHORT : Z;
  TINT : Z;
  TFLOAT : Z;
  TDOUBLE : Z;
  (* fitsio2.h *)
  NIOBUF : nat;
  VALIDSTRUC : Z;
  DATA_UNDEFINED : Z;
  REPORT_EOF : Z;
  IGNORE_EOF : Z;
  READONLY : Z
}.

(** The values these names have in the released header files; used where a
    statement is evaluated on a concrete input. *)
Definition released_h : fitsio_h := {|
  FILE_NOT_OPENED := 104; FILE_NOT_CREATED := 105; END_OF_FILE := 107;
  FILE_NOT_CLOSED := 110; MEMORY_ALLOCATION := 113; BAD_FILEPTR := 114;
  NULL_INPUT_PTR := 115; BAD_URL_PREFIX := 121; TOO_MANY_DRIVERS := 122;
  NO_MATCHING_DRIVER := 124; URL_PARSE_ERROR := 125; UNKNOWN_REC := 252;
  ANY_HDU := -1; IMAGE_HDU := 0; ASCII_TBL := 1; BINARY_TBL := 2;
  TBYTE := 11; TSHORT := 21; TINT := 31; TFLOAT := 42; TDOUBLE := 82;
  NIOBUF := 25; VALIDSTRUC := 555; DATA_UNDEFINED := -1;
  REPORT_EOF := 0; IGNORE_EOF := 1; READONLY := 0
|}.

(** ** ffiurl: parsing an input file name *)

(** The strings handed to ffiurl by the caller; [None] is a NULL argument,
    [Some s] a buffer that holds [s] on entry. *)
Record url_out : Type := {
  o_urltype : option cstring;
  o_infile : option cstring;
  o_outfile : option cstring;
  o_extspec : option cstring;
  o_rowfilter : option cstring;
  o_binspec : option cstring;
  o_colspec : option cstring
}.

Definition set_urltype (o : url_out) (v : option cstring) : url_out :=
  {| o_urltype := v; o_infile := o_infile o; o_outfile := o_outfile o;
     o_extspec := o_extspec o; o_rowfilter := o_rowfilter o;
     o_binspec := o_binspec o; o_colspec := o_colspec o |}.
Definition set_infile (o : url_out) (v : option cstring) : url_out :=
  {| o_urltype := o_urltype o; o_infile := v; o_outfile := o_outfile o;
     o_extspec := o_extspec o; o_rowfilter := o_rowfilter o;
     o_binspec := o_binspec o; o_colspec := o_colspec o |}.
Definition set_outfile (o : url_out) (v : option cstring) : url_out :=
  {| o_urltype := o_urltype o; o_infile := o_infile o; o_outfile := v;
     o_extspec := o_extspec o; o_rowfilter := o_rowfilter o;
     o_binspec := o_binspec o; o_colspec := o_colspec o |}.
Definition set_extspec (o : url_out) (v : option cstring) : url_out :=
  {| o_urltype := o_urltype o; o_infile := o_infile o; o_outfile := o_outfile o;
     o_extspec := v; o_rowfilter := o_rowfilter o;
     o_binspec := o_binspec o; o_colspec := o_colspec o |}.
Definition set_rowfilter (o : url_out) (v : option cstring) : url_out :=
  {| o_urltype := o_urltype o; o_infile := o_infile o; o_outfile := o_outfile o;
     o_extspec := o_extspec o; o_rowfilter := v;
     o_binspec := o_binspec o; o_colspec := o_colspec o |}.
Definition set_binspec (o : url_out) (v : option cstring) : url_out :=
  {| o_urltype := o_urltype o; o_infile := o_infile o; o_outfile := o_outfile o;
     o_extspec := o_extspec o; o_rowfilter := o_rowfilter o;
     o_binspec := v; o_colspec := o_colspec o |}.
Definition set_colspec (o : url_out) (v : option cstring) : url_out :=
  {| o_urltype := o_urltype o; o_infile := o_infile o; o_outfile := o_outfile o;
     o_extspec := o_extspec o; o_rowfilter := o_rowfilter o;
     o_binspec := o_binspec o; o_colspec := v |}.

(** Every receiver that is not NULL is set to the empty string
    (lines 1368-1382). *)
Definition clear_out (o : url_out) : url_out :=
  {| o_urltype := put (o_urltype o) []; o_infile := put (o_infile o) [];
     o_outfile := put (o_outfile o) []; o_extspec := put (o_extspec o) [];
     o_rowfilter := put (o_rowfilter o) []; o_binspec := put (o_binspec o) [];
     o_colspec := put (o_colspec o) [] |}.

(** Seven buffers, all empty: what a caller with seven local arrays passes. *)
Definition all_buffers : url_out :=
  {| o_urltype := Some []; o_infile := Some []; o_outfile := Some [];
     o_extspec := Some []; o_rowfilter := Some []; o_binspec := Some [];
     o_colspec := Some [] |}.

(** Lines 1403-1454: the type of the URL and the text that follows it. *)
Definition ffiurl_urltype (ptr1 : cstring) : cstring * cstring :=
  if bool_decide (peek ptr1 = chr "-") then (cstr "stdin://", drop 1 ptr1)
  else
    match strstr ptr1 (cstr "://") with
    | Some k => (take (k + 3) ptr1, drop (k + 3) ptr1)
    | None =>
        if strncmp0 ptr1 (cstr "ftp:") 4 then (cstr "ftp://", drop 4 ptr1)
        else if strncmp0 ptr1 (cstr "http:") 5 then (cstr "http://", drop 5 ptr1)
        else if strncmp0 ptr1 (cstr "mem:") 4 then (cstr "mem://", drop 4 ptr1)
        else if strncmp0 ptr1 (cstr "shmem:") 6 then (cstr "shmem://", drop 6 ptr1)
        else if strncmp0 ptr1 (cstr "file:") 5 then (cstr "file://", drop 5 ptr1)
        else (cstr "file://", ptr1)
    end.

(** Lines 1456-1497: the input name and the output name in parentheses.
    [ptr2] and [ptr3] are the offsets of the first '(' and '[' in [ptr1].
    [None]: the closing parenthesis is missing. *)
Definition ffiurl_names (ptr1 : cstring) : option (cstring * cstring) :=
  let ptr2 := strchr ptr1 (chr "(") in
  let ptr3 := strchr ptr1 (chr "[") in
  let with_paren (p2 : nat) :=
    let after := drop (S p2) ptr1 in
    match strchr after (chr ")") with
    | None => None
    | Some k => Some (take p2 ptr1, take k after)
    end in
  match ptr2, ptr3 with
  | None, None => Some (ptr1, [])
  | Some p2, None => with_paren p2
  | Some p2, Some p3 =>
      if (p2 <? p3)%nat then with_paren p2 else Some (take p3 ptr1, [])
  | None, Some p3 => Some (take p3 ptr1, [])
  end.

(** Offset of the last [c] in [s], or -1: the value of [ii] after
    [for (ii = jj - 1; ii >= 0; ii--) if (s[ii] == c) break;]. *)
Fixpoint last_index (s : cstring) (c : ascii) : option nat :=
  match s with
  | [] => None
  | x :: t =>
      match last_index t c with
      | Some k => Some (S k)
      | None => if bool_decide (x = c) then Some 0%nat else None
      end
  end.

Definition scan_back (s : cstring) (c : ascii) : Z :=
  match last_index s c with
  | Some k => Z.of_nat k
  | None => (-1)%Z
  end.

(** Lines 1526-1557: the 'filename+n' convention.  The result is
    [plus_ext], the digits copied to extspec, and the input name afterwards.
    When the name holds no '+', [ii] is -1; if the name is then a run of fewer
    than four digits (the empty name among them) the branch is taken with
    [infilelen = -1], and the store [infile[infilelen] = 0] falls one byte in
    front of the block that malloc returned: [None]. *)
Definition ffiurl_plus (infile : cstring) : option (bool * cstring * cstring) :=
  let jj := Z.of_nat (length infile) in
  let ii := scan_back infile (chr "+") in
  if negb (ii =? 0)%Z && (jj - ii <? 5)%Z then
    let infilelen := ii in
    let ptr1 := drop (Z.to_nat (ii + 1)) infile in
    if forallb isdigit ptr1
    then if (0 <=? infilelen)%Z
         then Some (true, ptr1, take (Z.to_nat infilelen) infile)
         else None
    else Some (false, [], infile)
  else Some (false, [], infile).

(** Lines 1560-1571: '*' as the output name stands for the root of the input
    name. *)
Definition ffiurl_star (outfile : option cstring) (infile : cstring)
  : option cstring :=
  match outfile with
  | Some out =>
      if bool_decide (peek out = chr "*") then
        match last_index infile (chr "/") with
        | Some k => Some (drop (S k) infile)
        | None => outfile
        end
      else outfile
  | None => None
  end.

(** Lines 1640-1651: where the binning specification starts in the filter. *)
Definition ffiurl_findbin (rowfilter : cstring) : option nat :=
  match strstr rowfilter (cstr "[bin") with
  | Some b =>
      let ptr2 := drop (b + 4) rowfilter in
      let ptr2 :=
        if in_set (peek ptr2) (cstr "bijrd") then drop 1 ptr2 else ptr2 in
      if negb (bool_decide (peek ptr2 = SP))
         && negb (bool_decide (peek ptr2 = chr "]"))
      then None else Some b
  | None => None
  end.

Inductive cut_result : Type :=
  | cut_ok (spec : option cstring) (rowfilter : cstring)
  | cut_unclosed
  | cut_crash.

(** Lines 1656-1680 and 1691-1715: the bracket that starts at offset [b] of
    the filter is copied without its '[' to [spec], cut at the ']' and
    relieved of one blank in front of it, then deleted from the filter.  With
    a NULL receiver and no ']' the deletion reads through a null pointer. *)
Definition ffiurl_cut (spec : option cstring) (rowfilter : cstring) (b : nat)
  : cut_result :=
  let copied :=
    match spec with
    | Some _ =>
        let s := drop (S b) rowfilter in
        match strchr s (chr "]") with
        | Some k =>
            let s1 := take k s in
            Some (Some (if bool_decide (s !! (k - 1)%nat = Some SP)
                        then take (k - 1) s else s1))
        | None => None
        end
    | None => Some None
    end in
  match copied with
  | None => cut_unclosed
  | Some spec' =>
      let ptr1 := drop b rowfilter in
      match strchr ptr1 (chr "]") with
      | Some k => cut_ok spec' (take b rowfilter ++ drop (S k) ptr1)
      | None => cut_crash
      end
  end.

Section Parsers.

Variable K : fitsio_h.

(** Lines 1640-1723, after the filter has been put in lower case. *)
Definition ffiurl_filters (o : url_out) (rowfilter : cstring) (status : Z)
  : res (url_out * Z * list cstring) :=
  let after_bin :=
    match ffiurl_findbin rowfilter with
    | Some b =>
        match ffiurl_cut (o_binspec o) rowfilter b with
        | cut_ok spec rf => inl (set_binspec o spec, rf)
        | cut_unclosed =>
            inr (Done (o, URL_PARSE_ERROR K,
                       [cstr "input file URL is missing closing bracket ']'";
                        rowfilter]))
        | cut_crash => inr (Crash null_read)
        end
    | None => inl (o, rowfilter)
    end in
  match after_bin with
  | inr r => r
  | inl (o, rowfilter) =>
      match strstr rowfilter (cstr "[col") with
      | Some c =>
          match ffiurl_cut (o_colspec o) rowfilter c with
          | cut_ok spec rf =>
              let o := set_colspec o spec in
              Done (set_rowfilter o (put (o_rowfilter o) rf), status, [])
          | cut_unclosed =>
              Done (o, URL_PARSE_ERROR K,
                    [cstr "input file URL is missing closing bracket ']'"])
          | cut_crash => Crash null_read
          end
      | None => Done (set_rowfilter o (put (o_rowfilter o) rowfilter), status, [])
      end
  end.

(** ffiurl (lines 1343-1724).  [malloc_ok] tells whether the one allocation
    of the routine succeeds; the block is released on every path.  The result
    holds the receivers, the status and the messages given to ffpmsg, or the
    fault in which the routine stops: the store in front of the block in the
    'filename+n' convention, or the read through a null pointer in the
    filter.  The filter is put in lower case character by character, which is
    what the loop over [ptr1] with tolower is meant to do. *)
Definition ffiurl (malloc_ok : bool) (url : cstring) (o : url_out) (status : Z)
  : res (url_out * Z * list cstring) :=
  if (0 <? status)%Z then Done (o, status, [])
  else
    let o := clear_out o in
    if bool_decide (length url = 0%nat) then Done (o, status, [])
    else if negb malloc_ok then Done (o, MEMORY_ALLOCATION K, [])
    else
      let '(ut, ptr1) := ffiurl_urltype url in
      let o := set_urltype o (put (o_urltype o) ut) in
      let ptr3 := strchr ptr1 (chr "[") in
      match ffiurl_names ptr1 with
      | None => Done (o, URL_PARSE_ERROR K, [])
      | Some (infile, out) =>
          let infile := strip_blanks infile in
          let o := set_outfile o (put (o_outfile o) (strip_blanks out)) in
          match ffiurl_plus infile with
          | None => Crash stray_store
          | Some (plus_ext, digits, infile) =>
              let o := if plus_ext then set_extspec o (put (o_extspec o) digits)
                       else o in
              let o := set_outfile o (ffiurl_star (o_outfile o) infile) in
              let o := set_infile o (put (o_infile o) infile) in
              match ptr3 with
              | None => Done (o, status, [])
              | Some p3 =>
                  let parsed :=
                    if negb plus_ext then
                      let ptr1' := drop (S p3) ptr1 in
                      match strchr ptr1' (chr "]") with
                      | None => None
                      | Some k =>
                          Some (set_extspec o (put (o_extspec o) (take k ptr1')),
                                drop (S k) ptr1')
                      end
                    else Some (o, drop p3 ptr1) in
                  match parsed with
                  | None =>
                      Done (o, URL_PARSE_ERROR K,
                            [cstr "input file URL is missing closing bracket ']'"])
                  | Some (o, rowfilter) =>
                      let rowfilter := strip_blanks rowfilter in
                      if bool_decide (length rowfilter = 0%nat)
                      then Done (o, status, [])
                      else ffiurl_filters o (map tolower rowfilter) status
                  end
              end
          end
      end.

(** ffourl (lines 1870-1909): the type and the name of an output file. *)
Definition ffourl (url : cstring) (urltype outfile : cstring) (status : Z)
  : cstring * cstring * Z :=
  if (0 <? status)%Z then (urltype, outfile, status)
  else if bool_decide (peek url = chr "-") then (cstr "stdout://", [], status)
  else
    match strstr url (cstr "://") with
    | Some k => (take (k + 3) url, drop (k + 3) url, status)
    | None => (cstr "file://", url, status)
    end.

End Parsers.

(** ** ffexts: the extension specifier *)

Section Extension.

Variable K : fitsio_h.

(** ffexts (lines 1911-1997).  The four results are reset before the status
    is looked at.  The result is (extnum, extname, extvers, hdutype), the
    status and the messages given to ffpmsg. *)
Definition ffexts (extspec : cstring) (status : Z)
  : (Z * cstring * Z * Z) * Z * list cstring :=
  if (0 <? status)%Z then ((0, [], 0, ANY_HDU K)%Z, status, [])
  else
    let ptr1 := skip_blanks extspec in
    if isdigit (peek ptr1) then
      let extnum := default 0%Z (sscanf_d ptr1) in
      if (extnum <? 0)%Z || (9999 <? extnum)%Z
      then ((0, [], 0, ANY_HDU K)%Z, URL_PARSE_ERROR K,
            [cstr "specified extension number is out of range:"; extspec])
      else ((extnum, [], 0%Z, ANY_HDU K), status, [])
    else
      let slen := strcspn ptr1 (cstr " ,:") in
      let extname := take slen ptr1 in
      let ptr1 := drop slen ptr1 in
      let ptr1 := drop (strspn ptr1 (cstr " ,:")) ptr1 in
      let slen := strcspn ptr1 (cstr " ,:") in
      if bool_decide (slen = 0%nat)
      then ((0%Z, extname, 0%Z, ANY_HDU K), status, [])
      else
        match sscanf_d ptr1 with
        | None =>
            ((0%Z, extname, 0%Z, ANY_HDU K), URL_PARSE_ERROR K,
             [cstr "illegal EXTVER value in input URL:"; extspec])
        | Some extvers =>
            let ptr1 := drop slen ptr1 in
            let ptr1 := drop (strspn ptr1 (cstr " ,:")) ptr1 in
            if bool_decide (length ptr1 = 0%nat)
            then ((0%Z, extname, extvers, ANY_HDU K), status, [])
            else if in_set (peek ptr1) (cstr "bB")
            then ((0%Z, extname, extvers, BINARY_TBL K), status, [])
            else if in_set (peek ptr1) (cstr "tTaA")
            then ((0%Z, extname, extvers, ASCII_TBL K), status, [])
            else if in_set (peek ptr1) (cstr "iI")
            then ((0%Z, extname, extvers, IMAGE_HDU K), status, [])
            else ((0%Z, extname, extvers, ANY_HDU K), URL_PARSE_ERROR K,
                  [cstr "unknown type of HDU in input URL:"; extspec])
        end.

End Extension.

(** ** ffbins: the binning specifier *)

(** [double] and what the file does with it.  DOUBLENULLVALUE and
    FLOATNULLVALUE are the two constants of fitsio.h, the second one as the
    [double] it is converted to in a comparison; [deq] is [==]. *)
Record c_double : Type := {
  D : Type;
  strtod : cstring -> D;
  d_one : D;
  DOUBLENULLVALUE : D;
  FLOATNULLVALUE : D;
  deq : D -> D -> bool
}.

(** fits_get_token (lines 2414-2450): the pointer after the token, the
    token, [isanumber] and the length.  [isanumber] keeps the value it had
    when the token is empty. *)
Definition fits_get_token (ptr delimiter : cstring) (isanumber : Z)
  : cstring * cstring * Z * nat :=
  let ptr := skip_blanks ptr in
  let slen := strcspn ptr delimiter in
  if bool_decide (slen = 0%nat) then (ptr, [], isanumber, slen)
  else
    let token := take slen ptr in
    let isnum (c : ascii) :=
      isdigit c || bool_decide (c = chr ".") || bool_decide (c = chr "-") in
    (drop slen ptr, token, (if forallb isnum token then 1 else 0)%Z, slen).

Section Binning.

Variable K : fitsio_h.
Variable F : c_double.

(** The cells that one call of ffbinr may write. *)
Record range : Type := {
  r_colname : cstring;
  r_minin : D F;
  r_maxin : D F;
  r_binsizein : D F;
  r_minname : cstring;
  r_maxname : cstring;
  r_binname : cstring
}.

Definition set_r_colname (r : range) (v : cstring) : range :=
  {| r_colname := v; r_minin := r_minin r; r_maxin := r_maxin r;
     r_binsizein := r_binsizein r; r_minname := r_minname r;
     r_maxname := r_maxname r; r_binname := r_binname r |}.
Definition set_r_min (r : range) (isanumber : Z) (token : cstring) : range :=
  if (isanumber =? 0)%Z
  then {| r_colname := r_colname r; r_minin := r_minin r; r_maxin := r_maxin r;
          r_binsizein := r_binsizein r; r_minname := token;
          r_maxname := r_maxname r; r_binname := r_binname r |}
  else {| r_colname := r_colname r; r_minin := strtod F token;
          r_maxin := r_maxin r; r_binsizein := r_binsizein r;
          r_minname := r_minname r; r_maxname := r_maxname r;
          r_binname := r_binname r |}.
Definition set_r_max (r : range) (isanumber : Z) (token : cstring) : range :=
  if (isanumber =? 0)%Z
  then {| r_colname := r_colname r; r_minin := r_minin r; r_maxin := r_maxin r;
          r_binsizein := r_binsizein r; r_minname := r_minname r;
          r_maxname := token; r_binname := r_binname r |}
  else {| r_colname := r_colname r; r_minin := r_minin r;
          r_maxin := strtod F token; r_binsizein := r_binsizein r;
          r_minname := r_minname r; r_maxname := r_maxname r;
          r_binname := r_binname r |}.
Definition set_r_bin (r : range) (isanumber : Z) (token : cstring) : range :=
  if (isanumber =? 0)%Z
  then {| r_colname := r_colname r; r_minin := r_minin r; r_maxin := r_maxin r;
          r_binsizein := r_binsizein r; r_minname := r_minname r;
          r_maxname := r_maxname r; r_binname := token |}
  else {| r_colname := r_colname r; r_minin := r_minin r;
          r_maxin := r_maxin r; r_binsizein := strtod F token;
          r_minname := r_minname r; r_maxname := r_maxname r;
          r_binname := r_binname r |}.

(** ffbinr (lines 2452-2548).  [junk] is the value that the local
    [isanumber] holds before it is first assigned.  The result is the pointer,
    the cells and the status. *)
Definition ffbinr (junk : Z) (ptr : cstring) (r : range) (status : Z)
  : cstring * range * Z :=
  if (0 <? status)%Z then (ptr, r, status)
  else
    let '(ptr, token, isanumber, slen) :=
      fits_get_token ptr (cstr " ,=:;") junk in
    if bool_decide (slen = 0%nat) && in_set (peek ptr) [Ascii.zero; chr ","; chr ";"]
    then (ptr, r, status)
    else
      (* the column name, when the token is not a number *)
      let named :=
        if (isanumber =? 0)%Z && negb (bool_decide (peek ptr = chr ":")) then
          let r :=
            set_r_colname r
              (if bool_decide (peek token = chr "#") && isdigit (peek (drop 1 token))
               then drop 1 token else token) in
          if negb (bool_decide (peek ptr = chr "=")) then inr (ptr, r)
          else
            let '(ptr, token, isanumber, slen) :=
              fits_get_token (drop 1 ptr) (cstr " ,:;") isanumber in
            inl (ptr, token, isanumber, slen, r)
        else inl (ptr, token, isanumber, slen, r) in
      match named with
      | inr (ptr, r) => (ptr, r, status)
      | inl (ptr, token, isanumber, slen, r) =>
          if negb (bool_decide (peek ptr = chr ":"))
          then (ptr, set_r_bin r isanumber token, status)
          else
            let r := if bool_decide (slen = 0%nat) then r
                     else set_r_min r isanumber token in
            let '(ptr, token, isanumber, slen) :=
              fits_get_token (drop 1 ptr) (cstr " ,:;") isanumber in
            let r := if bool_decide (slen = 0%nat) then r
                     else set_r_max r isanumber token in
            if negb (bool_decide (peek ptr = chr ":")) then (ptr, r, status)
            else
              let '(ptr, token, isanumber, slen) :=
                fits_get_token (drop 1 ptr) (cstr " ,:;") isanumber in
              let r := if bool_decide (slen = 0%nat) then r
                       else set_r_bin r isanumber token in
              (ptr, r, status)
      end.

(** The results of ffbins; the arrays have four elements. *)
Record bin_out : Type := {
  imagetype : Z;
  haxis : Z;
  colname : list cstring;
  minin : list (D F);
  maxin : list (D F);
  binsizein : list (D F);
  minname : list cstring;
  maxname : list cstring;
  binname : list cstring;
  weight : D F;
  wtname : cstring;
  recip : Z
}.

Definition set_imagetype (b : bin_out) (v : Z) : bin_out :=
  {| imagetype := v; haxis := haxis b; colname := colname b; minin := minin b;
     maxin := maxin b; binsizein := binsizein b; minname := minname b;
     maxname := maxname b; binname := binname b; weight := weight b;
     wtname := wtname b; recip := recip b |}.
Definition set_haxis (b : bin_out) (v : Z) : bin_out :=
  {| imagetype := imagetype b; haxis := v; colname := colname b;
     minin := minin b; maxin := maxin b; binsizein := binsizein b;
     minname := minname b; maxname := maxname b; binname := binname b;
     weight := weight b; wtname := wtname b; recip := recip b |}.
Definition set_colname (b : bin_out) (v : list cstring) : bin_out :=
  {| imagetype := imagetype b; haxis := haxis b; colname := v;
     minin := minin b; maxin := maxin b; binsizein := binsizein b;
     minname := minname b; maxname := maxname b; binname := binname b;
     weight := weight b; wtname := wtname b; recip := recip b |}.
Definition set_binsizein (b : bin_out) (v : list (D F)) : bin_out :=
  {| imagetype := imagetype b; haxis := haxis b; colname := colname b;
     minin := minin b; maxin := maxin b; binsizein := v;
     minname := minname b; maxname := maxname b; binname := binname b;
     weight := weight b; wtname := wtname b; recip := recip b |}.
Definition set_weight (b : bin_out) (w : D F) (name : cstring) : bin_out :=
  {| imagetype := imagetype b; haxis := haxis b; colname := colname b;
     minin := minin b; maxin := maxin b; binsizein := binsizein b;
     minname := minname b; maxname := maxname b; binname := binname b;
     weight := w; wtname := name; recip := recip b |}.

(** The cells of axis [ii], and the store of a range into them. *)
Definition axis (b : bin_out) (ii : nat) : range :=
  {| r_colname := default [] (colname b !! ii);
     r_minin := default (DOUBLENULLVALUE F) (minin b !! ii);
     r_maxin := default (DOUBLENULLVALUE F) (maxin b !! ii);
     r_binsizein := default (DOUBLENULLVALUE F) (binsizein b !! ii);
     r_minname := default [] (minname b !! ii);
     r_maxname := default [] (maxname b !! ii);
     r_binname := default [] (binname b !! ii) |}.

Definition set_axis (b : bin_out) (ii : nat) (name : bool) (r : range)
  : bin_out :=
  {| imagetype := imagetype b; haxis := haxis b;
     colname := if name then <[ii := r_colname r]> (colname b) else colname b;
     minin := <[ii := r_minin r]> (minin b);
     maxin := <[ii := r_maxin r]> (maxin b);
     binsizein := <[ii := r_binsizein r]> (binsizein b);
     minname := <[ii := r_minname r]> (minname b);
     maxname := <[ii := r_maxname r]> (maxname b);
     binname := <[ii := r_binname r]> (binname b);
     weight := weight b; wtname := wtname b; recip := recip b |}.

(** Lines 2148-2166: the defaults. *)
Definition ffbins_defaults : bin_out :=
  {| imagetype := TINT K; haxis := 2;
     colname := replicate 4 [];
     minin := replicate 4 (DOUBLENULLVALUE F);
     maxin := replicate 4 (DOUBLENULLVALUE F);
     binsizein := replicate 4 (DOUBLENULLVALUE F);
     minname := replicate 4 []; maxname := replicate 4 [];
     binname := replicate 4 [];
     weight := d_one F; wtname := []; recip := 0 |}.

Definition syntax_msgs (binspec : cstring) : list cstring :=
  [cstr "illegal binning specification in URL:"; binspec].

(** Lines 2369-2411, the label getweight.  The parameter [recip] is set to
    the null pointer by [recip = 0;], so that the store [*recip = 1] which
    follows a '/' goes through a null pointer. *)
Definition ffbins_getweight (junk : Z) (binspec ptr : cstring) (b : bin_out)
    (status : Z) : res (bin_out * Z * list cstring) :=
  let finish (ptr : cstring) (b : bin_out) (status : Z) :=
    let ptr := skip_blanks ptr in
    if bool_decide (length ptr = 0%nat) then Done (b, status, [])
    else Done (b, URL_PARSE_ERROR K, syntax_msgs binspec) in
  if bool_decide (peek ptr = chr ";") then
    let ptr := skip_blanks (drop 1 ptr) in
    if bool_decide (peek ptr = chr "/") then Crash null_store
    else
      let cells :=
        {| r_colname := wtname b; r_minin := DOUBLENULLVALUE F;
           r_maxin := DOUBLENULLVALUE F; r_binsizein := weight b;
           r_minname := []; r_maxname := []; r_binname := [] |} in
      let '(ptr, r, status) := ffbinr junk ptr cells status in
      let b := set_weight b (r_binsizein r) (r_colname r) in
      if (0 <? status)%Z then Done (b, status, syntax_msgs binspec)
      else finish ptr b status
  else finish ptr b status.

(** Lines 2220-2238: the names between the parentheses.  The flag tells
    whether a ')' was met before four names were read. *)
Fixpoint ffbins_names (n ii : nat) (ptr : cstring) (b : bin_out)
  : bool * cstring * bin_out :=
  match n with
  | O => (false, ptr, b)
  | S n' =>
      let ptr := skip_blanks (drop 1 ptr) in
      let slen := strcspn ptr (cstr " ,)") in
      let name := default [] (colname b !! ii) ++ take slen ptr in
      let b := set_colname b (<[ii := name]> (colname b)) in
      let ptr := skip_blanks (drop slen ptr) in
      if bool_decide (peek ptr = chr ")")
      then (true, ptr, set_haxis b (Z.of_nat ii + 1))
      else ffbins_names n' (S ii) ptr b
  end.

Inductive axes_result : Type :=
  | axes_end (ii : nat) (ptr : cstring) (b : bin_out)
  | axes_return (b : bin_out) (status : Z) (msgs : list cstring).

(** Lines 2310-2347: one range for each axis. *)
Fixpoint ffbins_axes (junk : Z) (binspec : cstring) (n ii : nat)
    (ptr : cstring) (b : bin_out) (status : Z) : axes_result :=
  match n with
  | O => axes_end ii ptr b
  | S n' =>
      let '(ptr, r, status) := ffbinr junk ptr (axis b ii) status in
      let b := set_axis b ii true r in
      if (0 <? status)%Z then axes_return b status (syntax_msgs binspec)
      else if in_set (peek ptr) [Ascii.zero; chr ";"] then axes_end ii ptr b
      else if bool_decide (peek ptr = SP) then
        let ptr := skip_blanks ptr in
        if in_set (peek ptr) [Ascii.zero; chr ";"] then axes_end ii ptr b
        else
          let ptr := if bool_decide (peek ptr = chr ",") then drop 1 ptr
                     else ptr in
          ffbins_axes junk binspec n' (S ii) ptr b status
      else if bool_decide (peek ptr = chr ",")
      then ffbins_axes junk binspec n' (S ii) (drop 1 ptr) b status
      else axes_return b (URL_PARSE_ERROR K) (syntax_msgs binspec)
  end.

(** ffbins (lines 2112-2412).  [b0] holds what the caller's variables
    contain on entry.  Characters after the end of the string read as NUL. *)
Definition ffbins (junk : Z) (binspec : cstring) (b0 : bin_out) (status : Z)
  : res (bin_out * Z * list cstring) :=
  if (0 <? status)%Z then Done (b0, status, [])
  else
    let b := ffbins_defaults in
    let ptr := drop 3 binspec in
    let '(b, ptr) :=
      if bool_decide (peek ptr = chr "i") then (set_imagetype b (TSHORT K), drop 1 ptr)
      else if bool_decide (peek ptr = chr "j") then (b, drop 1 ptr)
      else if bool_decide (peek ptr = chr "r") then (set_imagetype b (TFLOAT K), drop 1 ptr)
      else if bool_decide (peek ptr = chr "d") then (set_imagetype b (TDOUBLE K), drop 1 ptr)
      else if bool_decide (peek ptr = chr "b") then (set_imagetype b (TBYTE K), drop 1 ptr)
      else (b, ptr) in
    if bool_decide (length ptr = 0%nat) then Done (b, status, [])
    else if negb (bool_decide (peek ptr = SP))
    then Done (b, URL_PARSE_ERROR K,
               [cstr "binning specification syntax error:"; binspec])
    else
      let ptr := skip_blanks ptr in
      if bool_decide (length ptr = 0%nat) then Done (b, status, [])
      else if bool_decide (peek ptr = chr "(") then
        match ffbins_names 4 0 ptr b with
        | (false, _, b) =>
            Done (b, URL_PARSE_ERROR K,
                  [cstr "binning specification has too many column names or is missing closing ')':";
                   binspec])
        | (true, ptr, b) =>
            let ptr := skip_blanks (drop 1 ptr) in
            if bool_decide (length ptr = 0%nat) then Done (b, status, [])
            else if negb (bool_decide (peek ptr = chr "="))
            then Done (b, URL_PARSE_ERROR K,
                       [cstr "illegal binning specification in URL:";
                        cstr " an equals sign '=' must follow the column names";
                        binspec])
            else
              let ptr := skip_blanks (drop 1 ptr) in
              let '(ptr, r, status) := ffbinr junk ptr (axis b 0) status in
              let b := set_axis b 0 false r in
              if (0 <? status)%Z then Done (b, status, syntax_msgs binspec)
              else
                let b :=
                  foldl (fun b ii => set_axis b ii false (axis b 0)) b
                        (seq 1 (Z.to_nat (haxis b) - 1)) in
                let ptr := skip_blanks ptr in
                if bool_decide (peek ptr = chr ";")
                then ffbins_getweight junk binspec ptr b status
                else if negb (bool_decide (length ptr = 0%nat))
                then Done (b, URL_PARSE_ERROR K, syntax_msgs binspec)
                else Done (b, status, [])
        end
      else
        match ffbins_axes junk binspec 4 0 ptr b status with
        | axes_return b status msgs => Done (b, status, msgs)
        | axes_end ii ptr b =>
            if bool_decide (ii = 4%nat)
            then Done (b, URL_PARSE_ERROR K,
                       [cstr "illegal binning specification in URL:";
                        cstr "apparently too many histogram dimension (> 4)";
                        binspec])
            else
              let b := set_haxis b (Z.of_nat ii + 1) in
              let b :=
                if (haxis b =? 1)%Z
                   && bool_decide (length (r_colname (axis b 0)) = 0%nat)
                   && deq F (r_minin (axis b 0)) (FLOATNULLVALUE F)
                   && deq F (r_maxin (axis b 0)) (FLOATNULLVALUE F)
                then set_binsizein (set_haxis b 2)
                       (<[1%nat := r_binsizein (axis b 0)]> (binsizein b))
                else b in
              ffbins_getweight junk binspec ptr b status
        end.

End Binning.

(** ** The driver table and the open files *)

Section Files.

Variable K : fitsio_h.
Variable F : c_double.

(** [E] is the state that lives outside cfileio.c: what the drivers keep
    about their files and devices, the I/O buffers, the stack of messages. *)
Variable E : Type.

(** The structure fitsdriver (lines 21-39).  A null function pointer is
    [None]; a driver function is a transformer of [E]. *)
Record fitsdriver : Type := {
  d_prefix : cstring;
  d_init : option (E -> Z * E);
  d_shutdown : option (E -> Z * E);
  d_setoptions : option (Z -> E -> Z * E);
  d_getoptions : option (E -> Z * Z * E);
  d_getversion : option (E -> Z * Z * E);
  d_checkfile :
    option (cstring -> cstring -> cstring -> E
            -> Z * (cstring * cstring * cstring) * E);
  d_open : option (cstring -> Z -> E -> Z * Z * E);
  d_create : option (cstring -> E -> Z * Z * E);
  d_truncate : option (Z -> Z -> E -> Z * E);
  d_close : option (Z -> E -> Z * E);
  d_remove : option (cstring -> E -> Z * E);
  d_size : option (Z -> E -> Z * Z * E);
  d_flush : option (Z -> E -> Z * E);
  d_seek : option (Z -> Z -> E -> Z * E);
  d_read : option (Z -> Z -> E -> Z * E);
  d_write : option (Z -> Z -> E -> Z * E)
}.

(** An entry of the table before anything is registered in it. *)
Definition zero_driver : fitsdriver :=
  {| d_prefix := []; d_init := None; d_shutdown := None; d_setoptions := None;
     d_getoptions := None; d_getversion := None; d_checkfile := None;
     d_open := None; d_create := None; d_truncate := None; d_close := None;
     d_remove := None; d_size := None; d_flush := None; d_seek := None;
     d_read := None; d_write := None |}.

(** The fields of FITSfile that cfileio.c writes.  [filename] is the pointer
    to the separately allocated name. *)
Record FITSfile : Type := {
  filehandle : Z;
  driver : Z;
  filename : option cstring;
  filesize : Z;
  logfilesize : Z;
  writemode : Z;
  datastart : Z;
  curbuf : Z;
  open_count : Z;
  validcode : Z
}.

Record fitsfile : Type := {
  HDUposition : Z;
  Fptr : option nat
}.

(** What calloc returns. *)
Definition zero_FITSfile : FITSfile :=
  {| filehandle := 0; driver := 0; filename := None; filesize := 0;
     logfilesize := 0; writemode := 0; datastart := 0; curbuf := 0;
     open_count := 0; validcode := 0 |}.
Definition zero_fitsfile : fitsfile := {| HDUposition := 0; Fptr := None |}.

(** The state of the program.  [files] and [handles] hold every FITSfile and
    fitsfile allocated so far, at the offset that serves as its address.
    [alloc] gives the outcome of the allocations to come (success once the
    list is used up).  [closed] records the calls of a driver's close
    function, the latest first, as (driver number, driver handle). *)
Record world : Type := {
  need_to_initialize : Z;
  no_of_drivers : Z;
  driverTable : list fitsdriver;
  files : list (block FITSfile);
  handles : list (block fitsfile);
  alloc : list bool;
  closed : list (Z * Z);
  ext : E
}.

Definition with_registry (w : world) (n : Z) (t : list fitsdriver) : world :=
  {| need_to_initialize := need_to_initialize w; no_of_drivers := n;
     driverTable := t; files := files w; handles := handles w;
     alloc := alloc w; closed := closed w; ext := ext w |}.
Definition with_files (w : world) (v : list (block FITSfile)) : world :=
  {| need_to_initialize := need_to_initialize w;
     no_of_drivers := no_of_drivers w; driverTable := driverTable w;
     files := v; handles := handles w; alloc := alloc w; closed := closed w;
     ext := ext w |}.
Definition with_handles (w : world) (v : list (block fitsfile)) : world :=
  {| need_to_initialize := need_to_initialize w;
     no_of_drivers := no_of_drivers w; driverTable := driverTable w;
     files := files w; handles := v; alloc := alloc w; closed := closed w;
     ext := ext w |}.
Definition with_alloc (w : world) (v : list bool) : world :=
  {| need_to_initialize := need_to_initialize w;
     no_of_drivers := no_of_drivers w; driverTable := driverTable w;
     files := files w; handles := handles w; alloc := v; closed := closed w;
     ext := ext w |}.
Definition with_closed (w : world) (v : list (Z * Z)) : world :=
  {| need_to_initialize := need_to_initialize w;
     no_of_drivers := no_of_drivers w; driverTable := driverTable w;
     files := files w; handles := handles w; alloc := alloc w; closed := v;
     ext := ext w |}.
Definition with_ext (w : world) (v : E) : world :=
  {| need_to_initialize := need_to_initialize w;
     no_of_drivers := no_of_drivers w; driverTable := driverTable w;
     files := files w; handles := handles w; alloc := alloc w;
     closed := closed w; ext := v |}.

(** The program before its first call: the globals of lines 41-44. *)
Definition start (e : E) : world :=
  {| need_to_initialize := 1; no_of_drivers := 0;
     driverTable := replicate (Z.to_nat MAX_DRIVERS) zero_driver;
     files := []; handles := []; alloc := []; closed := []; ext := e |}.

(** *** Computations on the world that may stop in undefined behaviour *)

Definition M (A : Type) : Type := world -> res (A * world).

Definition ret {A} (a : A) : M A := fun w => Done (a, w).
Definition bind {A B} (m : M A) (k : A -> M B) : M B :=
  fun w => match m w with
           | Done (a, w') => k a w'
           | Crash f => Crash f
           end.
Definition crash {A} (f : fault) : M A := fun _ => Crash f.

Notation "x <- m ; k" := (bind m (fun x => k))
  (at level 20, m at level 100, k at level 200, only parsing).
Notation "' p <- m ; k" := (bind m (fun x => match x with p => k end))
  (at level 20, p pattern, m at level 100, k at level 200, only parsing).


(** A call of a collaborator that cannot fail to return. *)
Definition call {A} (f : world -> A * world) : M A := fun w => Done (f w).
Definition look {A} (f : world -> A) : M A := fun w => Done (f w, w).

(** A call of a driver function. *)
Definition drive {A} (f : E -> A * E) : M A :=
  fun w => let '(a, e) := f (ext w) in Done (a, with_ext w e).

(** [driverTable[d]]. *)
Definition driver_entry (d : Z) : M fitsdriver :=
  fun w =>
    if (0 <=? d)%Z && (d <? MAX_DRIVERS)%Z then
      match driverTable w !! Z.to_nat d with
      | Some e => Done (e, w)
      | None => Crash out_of_table
      end
    else Crash out_of_table.

(** The call of [driverTable[d].close] on a handle, without a test of the
    pointer. *)
Definition driver_close (d : Z) (handle : Z) : M Z :=
  e <- driver_entry d ;
  match d_close e with
  | Some f =>
      rc <- drive (f handle) ;
      fun w => Done (rc, with_closed w ((d, handle) :: closed w))
  | None => crash null_call
  end.

(** Reads and stores through a pointer to a fitsfile or a FITSfile. *)
Definition load_handle (p : option nat) : M fitsfile :=
  fun w =>
    match p with
    | None => Crash null_read
    | Some h =>
        match handles w !! h with
        | Some b => if live b then Done (content b, w) else Crash dangling
        | None => Crash dangling
        end
    end.

Definition load_file (p : option nat) : M FITSfile :=
  fun w =>
    match p with
    | None => Crash null_read
    | Some a =>
        match files w !! a with
        | Some b => if live b then Done (content b, w) else Crash dangling
        | None => Crash dangling
        end
    end.

Definition store_handle (h : nat) (v : fitsfile) : M unit :=
  fun w => Done (tt, with_handles w
                       (<[h := {| live := true; content := v |}]> (handles w))).

Definition store_file (a : nat) (v : FITSfile) : M unit :=
  fun w => Done (tt, with_files w
                       (<[a := {| live := true; content := v |}]> (files w))).

(** The file behind a handle: [fptr->Fptr] and what it points to. *)
Definition file_of (h : nat) : M (nat * FITSfile) :=
  hd <- load_handle (Some h) ;
  f <- load_file (Fptr hd) ;
  match Fptr hd with
  | Some a => ret (a, f)
  | None => crash null_read
  end.

(** The next allocation: does it succeed? *)
Definition next_alloc : M bool :=
  fun w => Done (hd true (alloc w), with_alloc w (tl (alloc w))).

(** [calloc(1, sizeof(fitsfile))] and [calloc(1, sizeof(FITSfile))]. *)
Definition calloc_fitsfile : M (option nat) :=
  ok <- next_alloc ;
  if ok : bool then
    fun w => Done (Some (length (handles w)),
                   with_handles w (handles w ++ [{| live := true;
                                                    content := zero_fitsfile |}]))
  else ret None.

Definition calloc_FITSfile : M (option nat) :=
  ok <- next_alloc ;
  if ok : bool then
    fun w => Done (Some (length (files w)),
                   with_files w (files w ++ [{| live := true;
                                                content := zero_FITSfile |}]))
  else ret None.

(** [free] of a fitsfile and of a FITSfile: the block keeps what it held. *)
Definition free_handle (h : nat) : M unit :=
  fun w =>
    match handles w !! h with
    | Some b => Done (tt, with_handles w
                            (<[h := {| live := false; content := content b |}]>
                               (handles w)))
    | None => Crash dangling
    end.

Definition free_file (a : nat) : M unit :=
  fun w =>
    match files w !! a with
    | Some b => Done (tt, with_files w
                            (<[a := {| live := false; content := content b |}]>
                               (files w)))
    | None => Crash dangling
    end.

Definition set_open_count (f : FITSfile) (n : Z) : FITSfile :=
  {| filehandle := filehandle f; driver := driver f; filename := filename f;
     filesize := filesize f; logfilesize := logfilesize f;
     writemode := writemode f; datastart := datastart f; curbuf := curbuf f;
     open_count := n; validcode := validcode f |}.

(** The two stores [filename = 0; validcode = 0] of ffclos. *)
Definition poison (f : FITSfile) : FITSfile :=
  {| filehandle := filehandle f; driver := driver f; filename := None;
     filesize := filesize f; logfilesize := logfilesize f;
     writemode := writemode f; datastart := datastart f; curbuf := curbuf f;
     open_count := open_count f; validcode := 0 |}.

(** *** The registry *)

(** fits_register_driver (lines 1282-1341). *)
Definition fits_register_driver (prefix : option cstring)
    (init shutdown : option (E -> Z * E))
    (setoptions : option (Z -> E -> Z * E))
    (getoptions getversion : option (E -> Z * Z * E))
    (checkfile : option (cstring -> cstring -> cstring -> E
                         -> Z * (cstring * cstring * cstring) * E))
    (open : option (cstring -> Z -> E -> Z * Z * E))
    (create : option (cstring -> E -> Z * Z * E))
    (truncate : option (Z -> Z -> E -> Z * E))
    (close : option (Z -> E -> Z * E))
    (fremove : option (cstring -> E -> Z * E))
    (size : option (Z -> E -> Z * Z * E))
    (flush : option (Z -> E -> Z * E))
    (seek : option (Z -> Z -> E -> Z * E))
    (read write : option (Z -> Z -> E -> Z * E)) : M Z :=
  n <- look no_of_drivers ;
  if (n + 1 =? MAX_DRIVERS)%Z then ret (TOO_MANY_DRIVERS K)
  else
    match prefix with
    | None => ret (BAD_URL_PREFIX K)
    | Some p =>
        status <- match init with
                  | Some f => drive f
                  | None => ret 0%Z
                  end ;
        if negb (status =? 0)%Z then ret status
        else
          (* strncpy(.., prefix, MAX_PREFIX_LEN) and a NUL in the last place *)
          let entry :=
            {| d_prefix := take (MAX_PREFIX_LEN - 1) p; d_init := init;
               d_shutdown := shutdown; d_setoptions := setoptions;
               d_getoptions := getoptions; d_getversion := getversion;
               d_checkfile := checkfile; d_open := open; d_create := create;
               d_truncate := truncate; d_close := close; d_remove := fremove;
               d_size := size; d_flush := flush; d_seek := seek;
               d_read := read; d_write := write |} in
          fun w =>
            if (0 <=? n)%Z && (n <? MAX_DRIVERS)%Z
            then Done (0%Z, with_registry w (n + 1)
                              (<[Z.to_nat n := entry]> (driverTable w)))
            else Crash out_of_table
    end.

(** The loop of urltype2driver: entries [n-1], ..., 0. *)
Fixpoint urltype2driver_scan (table : list fitsdriver) (urltype : cstring)
    (n : nat) : option nat :=
  match n with
  | O => None
  | S ii =>
      if strcmp0 (default [] (d_prefix <$> table !! ii)) urltype
      then Some ii
      else urltype2driver_scan table urltype ii
  end.

(** urltype2driver (lines 2550-2571): the status and the driver number;
    [driver0] is what the caller's variable holds. *)
Definition urltype2driver (urltype : cstring) (driver0 : Z) (w : world)
  : Z * Z :=
  match urltype2driver_scan (driverTable w) urltype
          (Z.to_nat (no_of_drivers w)) with
  | Some ii => (0%Z, Z.of_nat ii)
  | None => (NO_MATCHING_DRIVER K, driver0)
  end.

(** *** The routines of the other source files *)

(** The collaborators are transformers of the world: the error message
    stack (ffpmsg), the one-time initialisation that registers the built-in
    drivers (fits_init_cfitsio, whose driver functions are defined elsewhere),
    the I/O buffers (ffcurbuf, ffldrc, ffflsh), the HDU routines (ffrhdu,
    ffmahd alias fits_movabs_hdu, ffmnhd, ffchdu, ffghdn alias
    fits_get_hdu_num, ffrdef, fits_copy_hdu, fits_copy_header,
    fits_modify_key_lng), row selection and histograms.  A fitsfile pointer
    is passed as the address of the block; the status goes in and comes
    back. *)
Record collaborators : Type := {
  ffpmsg : cstring -> E -> E;
  fits_init_cfitsio : world -> Z * world;
  ffcurbuf : Z -> world -> option nat;
  ffldrc : nat -> Z -> Z -> Z -> world -> Z * world;
  ffrhdu : nat -> Z -> world -> Z * world;
  ffmahd : nat -> Z -> Z -> world -> Z * world;
  ffmnhd : nat -> Z -> cstring -> Z -> Z -> world -> Z * world;
  ffhist : option nat -> Z -> Z -> list cstring -> list (D F) -> list (D F)
           -> list (D F) -> Z -> world -> (option nat * Z) * world;
  ffchdu : nat -> Z -> world -> Z * world;
  ffflsh : nat -> Z -> Z -> world -> Z * world;
  ffghdn : nat -> world -> Z;
  fits_copy_hdu : nat -> nat -> Z -> Z -> world -> Z * world;
  fits_copy_header : nat -> nat -> Z -> world -> Z * world;
  fits_modify_key_lng : nat -> cstring -> Z -> Z -> world -> Z * world;
  ffrdef : nat -> Z -> world -> Z * world;
  fits_select_rows : nat -> nat -> cstring -> Z -> world -> Z * world
}.

Variable X : collaborators.

(** The value found in the uninitialised local [isanumber] of ffbinr. *)
Variable junk : Z.

Definition pmsg (msg : cstring) : M unit :=
  fun w => Done (tt, with_ext w (ffpmsg X msg (ext w))).

Fixpoint pmsgs (msgs : list cstring) : M unit :=
  match msgs with
  | [] => ret tt
  | m :: rest => _ <- pmsg m ; pmsgs rest
  end.

(** A dereferenced [*fptr] that must not be NULL. *)
Definition deref (fptr : option nat) : M nat :=
  match fptr with
  | Some h => ret h
  | None => crash null_read
  end.

(** ffiurl as a step of the program: the allocation it makes is drawn from
    the world and its messages go to ffpmsg. *)
Definition ffiurl_step (url : cstring) (o : url_out) (status : Z)
  : M (url_out * Z) :=
  ok <- (if (status <=? 0)%Z && negb (bool_decide (length url = 0%nat))
         then next_alloc else ret true) ;
  match ffiurl K ok url o status with
  | Done (o, status, msgs) => _ <- pmsgs msgs ; ret (o, status)
  | Crash f => crash f
  end.

(** *** Closing and reopening *)

(** ffclos (lines 2573-2613). *)
Definition ffclos (fptr : option nat) (status : Z) : M Z :=
  match fptr with
  | None => ret (NULL_INPUT_PTR K)
  | Some h =>
      '(_, f) <- file_of h ;
      if negb (validcode f =? VALIDSTRUC K)%Z then ret (BAD_FILEPTR K)
      else
        status <- call (ffchdu X h status) ;
        status <- call (ffflsh X h 1 status) ;
        '(a, f) <- file_of h ;
        let f := set_open_count f (open_count f - 1) in
        _ <- store_file a f ;
        if (open_count f =? 0)%Z then
          rc <- driver_close (driver f) (filehandle f) ;
          status <-
            (if negb (rc =? 0)%Z && (status <=? 0)%Z then
               _ <- pmsg (cstr "failed to close the following file: (ffclos)") ;
               _ <- pmsg (buf (filename f)) ;
               ret (FILE_NOT_CLOSED K)
             else ret status) ;
          _ <- store_file a (poison f) ;
          _ <- free_file a ;
          _ <- free_handle h ;
          ret status
        else ret status
  end.

(** ffreopen (lines 604-630).  The result of calloc is used without a
    test. *)
Definition ffreopen (openfptr newfptr : option nat) (status : Z)
  : M (option nat * Z) :=
  if (0 <? status)%Z then ret (newfptr, status)
  else
    match openfptr with
    | None => ret (newfptr, NULL_INPUT_PTR K)
    | Some h0 =>
        '(_, f) <- file_of h0 ;
        if negb (validcode f =? VALIDSTRUC K)%Z
        then ret (newfptr, BAD_FILEPTR K)
        else
          p <- calloc_fitsfile ;
          match p with
          | None => crash null_store
          | Some h =>
              '(a, _) <- file_of h0 ;
              _ <- store_handle h {| HDUposition := 0; Fptr := Some a |} ;
              '(a, f) <- file_of h ;
              _ <- store_file a (set_open_count f (open_count f + 1)) ;
              ret (Some h, status)
          end
    end.

(** *** Creating a file *)

(** The three allocations of ffopen (lines 443-479) and ffinit (lines
    809-845): the fitsfile, the FITSfile and the file name.  When one fails
    the driver closes the file, two messages are written and what was
    allocated is freed; the result is then the status, else the addresses of
    the two structures, the name still unset. *)
Definition allocate (driver handle : Z) (url : cstring)
    (no_struct no_name : cstring) (name_status : Z) : M (Z + nat * nat) :=
  p <- calloc_fitsfile ;
  match p with
  | None =>
      _ <- driver_close driver handle ;
      _ <- pmsgs [no_struct; url] ;
      ret (inl (MEMORY_ALLOCATION K))
  | Some h =>
      q <- calloc_FITSfile ;
      match q with
      | None =>
          _ <- driver_close driver handle ;
          _ <- pmsgs [no_struct; url] ;
          _ <- free_handle h ;
          ret (inl (MEMORY_ALLOCATION K))
      | Some a =>
          _ <- store_handle h {| HDUposition := 0; Fptr := Some a |} ;
          ok <- next_alloc ;
          if ok : bool then ret (inr (h, a))
          else
            _ <- driver_close driver handle ;
            _ <- pmsgs [no_name; url] ;
            _ <- free_file a ;
            _ <- free_handle h ;
            ret (inl name_status)
      end
  end.

(** [if (need_to_initialize) *status = fits_init_cfitsio();] *)
Definition initialize (status : Z) : M Z :=
  need <- look need_to_initialize ;
  if negb (need =? 0)%Z then call (fits_init_cfitsio X) else ret status.

(** ffinit (lines 720-861).  [fptr0] is what the caller's pointer holds.
    No store is made to open_count: it keeps the zero of calloc. *)
Definition ffinit (fptr0 : option nat) (name : cstring) (status : Z)
  : M (option nat * Z) :=
  if (0 <? status)%Z then ret (fptr0, status)
  else
    status <- initialize status ;
    if (0 <? status)%Z then ret (None, status)
    else
      let url := skip_blanks name in
      if bool_decide (length url = 0%nat) then
        _ <- pmsg (cstr "Name of file to create is blank. (ffinit)") ;
        ret (None, FILE_NOT_CREATED K)
      else
        let clobber := bool_decide (peek url = chr "!") in
        let url := if clobber then drop 1 url else url in
        let '(urltype, outfile, status) := ffourl url [] [] status in
        if (0 <? status)%Z then
          _ <- pmsgs [cstr "could not parse the output filename: (ffinit)"; url] ;
          ret (None, status)
        else
          '(status, driver) <- look (urltype2driver urltype 0) ;
          if negb (status =? 0)%Z then
            _ <- pmsgs [cstr "could not find driver for this file: (ffinit)"; url] ;
            ret (None, status)
          else
            e <- driver_entry driver ;
            _ <- (if clobber then
                    match d_remove e with
                    | Some f => _ <- drive (f outfile) ; ret tt
                    | None => ret tt
                    end
                  else ret tt) ;
            match d_create e with
            | None =>
                _ <- pmsgs [cstr "cannot create a new file of this type: (ffinit)"; url] ;
                ret (None, FILE_NOT_CREATED K)
            | Some f =>
                '(status, handle) <- drive (f outfile) ;
                if negb (status =? 0)%Z then
                  _ <- pmsgs [cstr "failed to create the following file: (ffinit)"; url] ;
                  ret (None, status)
                else
                  r <- allocate driver handle url
                         (cstr "failed to allocate structure for following file: (ffopen)")
                         (cstr "failed to allocate memory for filename: (ffinit)")
                         (FILE_NOT_CREATED K) ;
                  match r with
                  | inl status => ret (None, status)
                  | inr (h, a) =>
                      f0 <- load_file (Some a) ;
                      _ <- store_file a
                             {| filehandle := handle; driver := driver;
                                filename := Some url; filesize := 0;
                                logfilesize := 0; writemode := 1;
                                datastart := DATA_UNDEFINED K; curbuf := -1;
                                open_count := open_count f0;
                                validcode := VALIDSTRUC K |} ;
                      status <- call (ffldrc X h 0 (IGNORE_EOF K) status) ;
                      ret (Some h, status)
                  end
            end.

(** *** Row selection into a memory file *)

(** Lines 653-661: the HDUs in front of the current one. *)
Fixpoint copy_preceding (n : nat) (ii : Z) (h newh : nat) (status : Z)
  : M (bool * Z) :=
  match n with
  | O => ret (true, status)
  | S n' =>
      status <- call (ffmahd X h ii status) ;
      status <- call (fits_copy_hdu X h newh 0 status) ;
      if (0 <? status)%Z then
        status <- ffclos (Some newh) status ;
        ret (false, status)
      else copy_preceding n' (ii + 1) h newh status
  end.

(** Lines 693-699: the HDUs behind it, until a move fails.  The loop has no
    bound of its own; [fuel] is the number of rounds allowed. *)
Fixpoint copy_following (fuel : nat) (ii : Z) (h newh : nat) (status : Z)
  : M Z :=
  match fuel with
  | O => crash no_return
  | S fuel' =>
      status <- call (ffmahd X h ii status) ;
      if (0 <? status)%Z then ret status
      else
        status <- call (fits_copy_hdu X h newh 0 status) ;
        copy_following fuel' (ii + 1) h newh status
  end.

(** ffselect_table (lines 632-718): the caller's pointer and the status. *)
Definition ffselect_table (fuel : nat) (fptr : option nat) (expr : cstring)
    (status : Z) : M (option nat * Z) :=
  '(newptr, status) <- ffinit None (cstr "mem://") status ;
  if (0 <? status)%Z then
    _ <- pmsg (cstr "failed to create memory file for selected rows from input table") ;
    ret (fptr, status)
  else
    h <- deref fptr ;
    newh <- deref newptr ;
    hdunum <- look (ffghdn X h) ;
    '(ok, status) <- copy_preceding (Z.to_nat (hdunum - 1)) 1 h newh status ;
    if negb ok then ret (fptr, status)
    else
      status <- call (ffmahd X h hdunum status) ;
      status <- call (fits_copy_header X h newh status) ;
      if (0 <? status)%Z then
        status <- ffclos newptr status ; ret (fptr, status)
      else
        status <- call (fits_modify_key_lng X newh (cstr "NAXIS2") 0 status) ;
        status <- call (ffrdef X h status) ;
        if (0 <? status)%Z then
          status <- ffclos newptr status ; ret (fptr, status)
        else
          (* the expression without its brackets *)
          let cptr := removelast (drop 1 expr) in
          status <- call (fits_select_rows X h newh cptr status) ;
          if (0 <? status)%Z then
            status <- ffclos newptr status ; ret (fptr, status)
          else
            status <- copy_following fuel (hdunum + 1) h newh status ;
            if (status =? END_OF_FILE K)%Z || negb (0 <? status)%Z then
              let status := if (status =? END_OF_FILE K)%Z then 0%Z
                            else status in
              status <- ffclos fptr status ;
              status <- call (ffmahd X newh hdunum status) ;
              ret (newptr, status)
            else
              status <- ffclos newptr status ; ret (fptr, status).

(** *** Opening a file *)

Definition decimal (n : Z) : cstring := cstr (NilZero.string_of_int (Z.to_int n)).

Inductive reuse : Type :=
  | reuse_return (fptr : option nat) (status : Z)
  | reuse_found (h : nat) (extspec : cstring) (status : Z)
  | reuse_none (status : Z).

(** Lines 310-374: is the file open already?  Buffers [ii], [ii+1], ... are
    looked at, [n] of them.  A match ends in [goto move2hdu] with a new
    fitsfile on the old FITSfile, whose open_count is incremented. *)
Fixpoint ffopen_reuse (n : nat) (ii : Z) (url : cstring) (o : url_out)
    (status : Z) : M reuse :=
  match n with
  | O => ret (reuse_none status)
  | S n' =>
      oldFptr <- look (ffcurbuf X ii) ;
      match oldFptr with
      | None => ffopen_reuse n' (ii + 1) url o status
      | Some a =>
          f <- load_file (Some a) ;
          match filename f with
          | None => crash null_read
          | Some oldname =>
              '(old, status) <- ffiurl_step oldname all_buffers status ;
              if (0 <? status)%Z then
                _ <- pmsgs [cstr "could not parse the previously opened filename: (ffopen)";
                            oldname] ;
                ret (reuse_return None status)
              else if strcmp0 (buf (o_urltype o)) (buf (o_urltype old))
                      && strcmp0 (buf (o_infile o)) (buf (o_infile old))
              then
                if (bool_decide (buf (o_rowfilter o) = [])
                    && bool_decide (buf (o_rowfilter old) = [])
                    && bool_decide (buf (o_binspec o) = [])
                    && bool_decide (buf (o_binspec old) = [])
                    && bool_decide (buf (o_colspec o) = [])
                    && bool_decide (buf (o_colspec old) = []))
                   || (strcmp0 (buf (o_rowfilter o)) (buf (o_rowfilter old))
                       && strcmp0 (buf (o_binspec o)) (buf (o_binspec old))
                       && strcmp0 (buf (o_colspec o)) (buf (o_colspec old))
                       && strcmp0 (buf (o_extspec o)) (buf (o_extspec old)))
                then
                  p <- calloc_fitsfile ;
                  match p with
                  | None =>
                      _ <- pmsgs [cstr "failed to allocate structure for following file: (ffopen)";
                                  url] ;
                      ret (reuse_return None (MEMORY_ALLOCATION K))
                  | Some h =>
                      _ <- store_handle h {| HDUposition := 0; Fptr := Some a |} ;
                      '(a', f) <- file_of h ;
                      _ <- store_file a' (set_open_count f (open_count f + 1)) ;
                      ret (reuse_found h
                             (if bool_decide (buf (o_binspec o) = []) then buf (o_extspec o)
                              else [])
                             status)
                  end
                else ffopen_reuse n' (ii + 1) url o status
              else ffopen_reuse n' (ii + 1) url o status
          end
      end
  end.

(** Lines 376-507: the driver opens the file and the structures are set up.
    The result is either the return of ffopen or the new fitsfile. *)
Definition ffopen_fresh (url : cstring) (mode : Z) (o : url_out) (status : Z)
  : M ((option nat * Z) + nat) :=
  let urltype := buf (o_urltype o) in
  let infile := buf (o_infile o) in
  let outfile := buf (o_outfile o) in
  '(status, driver) <- look (urltype2driver urltype 0) ;
  if (0 <? status)%Z then
    _ <- pmsgs [cstr "could not find driver for this file: (ffopen)"; url] ;
    ret (inl (None, status))
  else
    e <- driver_entry driver ;
    r <- match d_checkfile e with
         | Some chk =>
             '(status, (urltype', infile', outfile')) <-
                drive (chk urltype infile outfile) ;
             if negb (status =? 0)%Z then
               _ <- pmsgs [cstr "checkfile failed for this file: (ffopen)"; url] ;
               ret (inl status)
             else if negb (strcmp0 urltype urltype') then
               '(status, driver) <- look (urltype2driver urltype' driver) ;
               if (0 <? status)%Z then
                 _ <- pmsgs [cstr "could not change driver for this file: (ffopen)";
                             url; urltype'] ;
                 ret (inl status)
               else ret (inr (driver, infile', status))
             else ret (inr (driver, infile', status))
         | None => ret (inr (driver, infile, status))
         end ;
    match r with
    | inl status => ret (inl (None, status))
    | inr (driver, infile, status) =>
        e <- driver_entry driver ;
        match d_open e with
        | None =>
            _ <- pmsgs [cstr "cannot open an existing file of this type: (ffopen)"; url] ;
            ret (inl (None, FILE_NOT_OPENED K))
        | Some opn =>
            '(status, handle) <- drive (opn infile mode) ;
            if (0 <? status)%Z then
              _ <- pmsgs [cstr "failed to find or open the following file: (ffopen)"; url] ;
              ret (inl (None, status))
            else
              match d_size e with
              | None => crash null_call
              | Some sz =>
                  '(status, filesize) <- drive (sz handle) ;
                  if (0 <? status)%Z then
                    _ <- driver_close driver handle ;
                    _ <- pmsgs [cstr "failed get the size of the following file: (ffopen)"; url] ;
                    ret (inl (None, status))
                  else
                    r <- allocate driver handle url
                           (cstr "failed to allocate structure for following file: (ffopen)")
                           (cstr "failed to allocate memory for filename: (ffopen)")
                           (MEMORY_ALLOCATION K) ;
                    match r with
                    | inl status => ret (inl (None, status))
                    | inr (h, a) =>
                        _ <- store_file a
                               {| filehandle := handle; driver := driver;
                                  filename := Some url; filesize := filesize;
                                  logfilesize := filesize; writemode := mode;
                                  datastart := DATA_UNDEFINED K; curbuf := -1;
                                  open_count := 1; validcode := VALIDSTRUC K |} ;
                        status <- call (ffldrc X h 0 (REPORT_EOF K) status) ;
                        status <- call (ffrhdu X h status) ;
                        if (0 <? status)%Z then
                          _ <- pmsgs [cstr "ffopen could not interpret primary array header of file: (ffopen)";
                                      url] ;
                          _ <- (if (status =? UNKNOWN_REC K)%Z
                                then pmsg (cstr "This does not look like a FITS file.")
                                else ret tt) ;
                          status <- ffclos (Some h) status ;
                          ret (inl (None, status))
                        else ret (inr h)
                    end
              end
        end
    end.

(** Lines 513-601, from the label move2hdu to the end. *)
Definition ffopen_move2hdu (fuel : nat) (fptr : option nat)
    (extspec rowfilter binspec : cstring) (status : Z) : M (option nat * Z) :=
  r <- (if negb (bool_decide (extspec = [])) then
          let '((extnum, extname, extvers, movetotype), status, msgs) :=
            ffexts K extspec status in
          _ <- pmsgs msgs ;
          if (0 <? status)%Z then ret (inl status)
          else
            status <-
              (if negb (extnum =? 0)%Z then
                 h <- deref fptr ; call (ffmahd X h (extnum + 1) status)
               else if negb (bool_decide (extname = [])) then
                 h <- deref fptr ;
                 call (ffmnhd X h movetotype extname extvers status)
               else ret status) ;
            if (0 <? status)%Z then
              _ <- pmsg (cstr "ffopen could not move to the specified extension:") ;
              _ <- (if (0 <? extnum)%Z then
                      pmsg (cstr " extension number " ++ decimal extnum
                            ++ cstr " doesn't exist or couldn't be opened.")
                    else
                      _ <- pmsg (cstr " extension with EXTNAME = " ++ extname
                                 ++ cstr ",") ;
                      _ <- (if negb (extvers =? 0)%Z then
                              pmsg (cstr "           and with EXTVERS = "
                                    ++ decimal extvers ++ cstr ",")
                            else ret tt) ;
                      _ <- (if negb (movetotype =? ANY_HDU K)%Z then
                              pmsg (cstr "           and with XTENSION = "
                                    ++ default []
                                         ([cstr "IMAGE"; cstr "TABLE"; cstr "BINTABLE"]
                                            !! Z.to_nat movetotype)
                                    ++ cstr ",")
                            else ret tt) ;
                      pmsg (cstr " doesn't exist or couldn't be opened.")) ;
              ret (inl status)
            else ret (inr status)
        else ret (inr status)) ;
  match r with
  | inl status => ret (fptr, status)
  | inr status =>
      r <- (if negb (bool_decide (rowfilter = [])) then
              '(fptr', status) <- ffselect_table fuel fptr rowfilter status ;
              if (0 <? status)%Z then
                _ <- pmsg (cstr "on-the-fly selection of rows in input table failed") ;
                ret (inl (fptr', status))
              else ret (inr (fptr', status))
            else ret (inr (fptr, status))) ;
      match r with
      | inl back => ret back
      | inr (fptr, status) =>
          if negb (bool_decide (binspec = [])) then
            match ffbins K F junk binspec (ffbins_defaults K F) status with
            | Crash f => crash f
            | Done (b, status, msgs) =>
                _ <- pmsgs msgs ;
                call (ffhist X fptr (imagetype F b) (haxis F b) (colname F b)
                        (minin F b) (maxin F b) (binsizein F b) status)
            end
          else ret (fptr, status)
      end
  end.

(** ffopen (lines 246-602).  [fptr0] is what the caller's pointer holds. *)
Definition ffopen (fuel : nat) (fptr0 : option nat) (name : cstring) (mode : Z)
    (status : Z) : M (option nat * Z) :=
  if (0 <? status)%Z then ret (fptr0, status)
  else
    status <- initialize status ;
    if (0 <? status)%Z then ret (None, status)
    else
      let url := skip_blanks name in
      if bool_decide (length url = 0%nat) then
        _ <- pmsg (cstr "Name of file to open is blank. (ffopen)") ;
        ret (None, FILE_NOT_OPENED K)
      else
        '(o, status) <- ffiurl_step url all_buffers status ;
        if (0 <? status)%Z then
          _ <- pmsgs [cstr "could not parse the input filename: (ffopen)"; url] ;
          ret (None, status)
        else
          r <- ffopen_reuse (NIOBUF K) 0 url o status ;
          match r with
          | reuse_return fptr status => ret (fptr, status)
          | reuse_found h extspec status =>
              ffopen_move2hdu fuel (Some h) extspec [] [] status
          | reuse_none status =>
              r <- ffopen_fresh url mode o status ;
              match r with
              | inl back => ret back
              | inr h =>
                  ffopen_move2hdu fuel (Some h) (buf (o_extspec o))
                    (buf (o_rowfilter o)) (buf (o_binspec o)) status
              end
          end.

(** *** The extension that a name selects *)

(** ffextn (lines 1999-2110): the extension number and the status;
    [extension_num] is what the caller's variable holds. *)
Definition ffextn (fuel : nat) (url : cstring) (extension_num : Z) (status : Z)
  : M (Z * Z) :=
  if (0 <? status)%Z then ret (extension_num, status)
  else
    '(o, status) <- ffiurl_step url all_buffers status ;
    if (0 <? status)%Z then ret (extension_num, status)
    else if negb (bool_decide (buf (o_binspec o) = [])) then ret (1%Z, status)
    else if negb (bool_decide (buf (o_extspec o) = [])) then
      let '((extnum, extname, extvers, hdutype), status, msgs) :=
        ffexts K (buf (o_extspec o)) status in
      _ <- pmsgs msgs ;
      if (0 <? status)%Z then ret (extension_num, status)
      else if negb (bool_decide (extname = [])) then
        if strcmp0 (buf (o_urltype o)) (cstr "stdin://")
        then ret (extension_num, URL_PARSE_ERROR K)
        else
          match strchr url (chr "]") with
          | None => ret (extension_num, URL_PARSE_ERROR K)
          | Some k =>
              let infile := take (S k) url in
              '(fptr, status) <- ffopen fuel None infile (READONLY K) status ;
              if (0 <? status)%Z then ret (extension_num, status)
              else
                h <- deref fptr ;
                extnum <- look (ffghdn X h) ;
                status <- ffclos fptr status ;
                ret (extnum, status)
          end
      else ret ((extnum + 1)%Z, status)
    else ret ((-99)%Z, status).

End Files.

Arguments d_prefix {E} _.
Arguments d_init {E} _.
Arguments d_shutdown {E} _.
Arguments d_setoptions {E} _.
Arguments d_getoptions {E} _.
Arguments d_getversion {E} _.
Arguments d_checkfile {E} _.
Arguments d_open {E} _.
Arguments d_create {E} _.
Arguments d_truncate {E} _.
Arguments d_close {E} _.
Arguments d_remove {E} _.
Arguments d_size {E} _.
Arguments d_flush {E} _.
Arguments d_seek {E} _.
Arguments d_read {E} _.
Arguments d_write {E} _.
Arguments zero_driver {E}.
Arguments need_to_initialize {E} _.
Arguments no_of_drivers {E} _.
Arguments driverTable {E} _.
Arguments files {E} _.
Arguments handles {E} _.
Arguments alloc {E} _.
Arguments closed {E} _.
Arguments ext {E} _.
Arguments with_registry {E} _ _ _.
Arguments with_files {E} _ _.
Arguments with_handles {E} _ _.
Arguments with_alloc {E} _ _.
Arguments with_closed {E} _ _.
Arguments with_ext {E} _ _.
Arguments start {E} _.
Arguments ret {E A} _ _.
Arguments bind {E A B} _ _ _.
Arguments crash {E A} _ _.
Arguments call {E A} _ _.
Arguments look {E A} _ _.
Arguments drive {E A} _ _.
Arguments driver_entry {E} _ _.
Arguments driver_close {E} _ _ _.
Arguments load_handle {E} _ _.
Arguments load_file {E} _ _.
Arguments store_handle {E} _ _ _.
Arguments store_file {E} _ _ _.
Arguments file_of {E} _ _.
Arguments next_alloc {E} _.
Arguments calloc_fitsfile {E} _.
Arguments calloc_FITSfile {E} _.
Arguments free_handle {E} _ _.
Arguments free_file {E} _ _.
Arguments fits_register_driver K {E} _ _ _ _ _ _ _ _ _ _ _ _ _ _ _ _ _ _.
Arguments urltype2driver_scan {E} _ _ _.
Arguments urltype2driver K {E} _ _ _.
Arguments ffpmsg {F E} _ _ _.
Arguments fits_init_cfitsio {F E} _ _.
Arguments ffcurbuf {F E} _ _ _.
Arguments ffldrc {F E} _ _ _ _ _ _.
Arguments ffrhdu {F E} _ _ _ _.
Arguments ffmahd {F E} _ _ _ _ _.
Arguments ffmnhd {F E} _ _ _ _ _ _ _.
Arguments ffhist {F E} _ _ _ _ _ _ _ _ _ _.
Arguments ffchdu {F E} _ _ _ _.
Arguments ffflsh {F E} _ _ _ _ _.
Arguments ffghdn {F E} _ _ _.
Arguments fits_copy_hdu {F E} _ _ _ _ _ _.
Arguments fits_copy_header {F E} _ _ _ _ _.
Arguments fits_modify_key_lng {F E} _ _ _ _ _ _.
Arguments ffrdef {F E} _ _ _ _.
Arguments fits_select_rows {F E} _ _ _ _ _ _.
Arguments pmsg {F E} X _ _.
Arguments pmsgs {F E} X _ _.
Arguments deref {E} _ _.
Arguments ffiurl_step K {F E} X _ _ _ _.
Arguments ffclos K {F E} X _ _ _.
Arguments ffreopen K {E} _ _ _ _.
Arguments allocate K {F E} X _ _ _ _ _ _ _.
Arguments initialize {F E} X _ _.
Arguments ffinit K {F E} X _ _ _ _.
Arguments copy_preceding K {F E} X _ _ _ _ _ _.
Arguments copy_following {F E} X _ _ _ _ _ _.
Arguments ffselect_table K {F E} X _ _ _ _ _.
Arguments ffopen_reuse K {F E} X _ _ _ _ _ _.
Arguments ffopen_fresh K {F E} X _ _ _ _ _.
Arguments ffopen_move2hdu K {F E} X junk _ _ _ _ _ _ _.
Arguments ffopen K {F E} X junk _ _ _ _ _ _.
Arguments ffextn K {F E} X junk _ _ _ _ _.

(** Registration of the functions of [d] under the prefix [p]. *)
Definition register_as {E} (K : fitsio_h) (p : option cstring)
    (d : fitsdriver E) : M E Z :=
  fits_register_driver K p (d_init d) (d_shutdown d) (d_setoptions d)
    (d_getoptions d) (d_getversion d) (d_checkfile d) (d_open d) (d_create d)
    (d_truncate d) (d_close d) (d_remove d) (d_size d) (d_flush d) (d_seek d)
    (d_read d) (d_write d).

(** The entry that a registration under [p] writes into the table. *)
Definition entry_of {E} (p : cstring) (d : fitsdriver E) : fitsdriver E :=
  {| d_prefix := take (MAX_PREFIX_LEN - 1) p; d_init := d_init d;
     d_shutdown := d_shutdown d; d_setoptions := d_setoptions d;
     d_getoptions := d_getoptions d; d_getversion := d_getversion d;
     d_checkfile := d_checkfile d; d_open := d_open d;
     d_create := d_create d; d_truncate := d_truncate d;
     d_close := d_close d; d_remove := d_remove d; d_size := d_size d;
     d_flush := d_flush d; d_seek := d_seek d; d_read := d_read d;
     d_write := d_write d |}.

(** Registrations one after the other, each under its prefix and without an
    init function: the statuses returned and the world at the end. *)
Fixpoint register_each {E} (K : fitsio_h) (ps : list cstring) (w : world E)
  : res (list Z * world E) :=
  match ps with
  | [] => Done ([], w)
  | p :: rest =>
      match register_as K (Some p) zero_driver w with
      | Done (status, w') =>
          match register_each K rest w' with
          | Done (l, w'') => Done (status :: l, w'')
          | Crash f => Crash f
          end
      | Crash f => Crash f
      end
  end.

(** ** A small environment on which the routines can be run

    The state outside cfileio.c is the stack of messages, the latest first.
    The sample driver opens and creates every file with handle 7, reports a
    size of 2880 bytes and closes without complaint.  The collaborators
    leave the world alone, except that files have three HDUs, so that a move
    beyond the third ends in END_OF_FILE, and that buffer [i] belongs to the
    FITSfile at address [i] for as long as that one is allocated. *)

Definition sample_double : c_double :=
  {| D := cstring; strtod := fun s => s; d_one := cstr "1.";
     DOUBLENULLVALUE := cstr "DOUBLENULLVALUE";
     FLOATNULLVALUE := cstr "FLOATNULLVALUE";
     deq := fun a b => bool_decide (a = b) |}.

(** The same with one value for the two null constants. *)
Definition sample_double_eq : c_double :=
  {| D := cstring; strtod := fun s => s; d_one := cstr "1.";
     DOUBLENULLVALUE := cstr "NULLVALUE";
     FLOATNULLVALUE := cstr "NULLVALUE";
     deq := fun a b => bool_decide (a = b) |}.

Definition sample_E : Type := list cstring.

Definition sample_driver : fitsdriver sample_E :=
  {| d_prefix := []; d_init := None; d_shutdown := None; d_setoptions := None;
     d_getoptions := None; d_getversion := None; d_checkfile := None;
     d_open := Some (fun _ _ e => (0%Z, 7%Z, e));
     d_create := Some (fun _ e => (0%Z, 7%Z, e));
     d_truncate := None;
     d_close := Some (fun _ e => (0%Z, e));
     d_remove := None;
     d_size := Some (fun _ e => (0%Z, 2880%Z, e));
     d_flush := None; d_seek := None; d_read := None; d_write := None |}.

Definition sample_init (w : world sample_E) : Z * world sample_E :=
  let w := {| need_to_initialize := 0; no_of_drivers := no_of_drivers w;
              driverTable := driverTable w; files := files w;
              handles := handles w; alloc := alloc w;
              closed := closed w; ext := ext w |} in
  match register_as released_h (Some (cstr "file://")) sample_driver w with
  | Done (0%Z, w1) =>
      match register_as released_h (Some (cstr "mem://")) sample_driver w1 with
      | Done (status, w2) => (status, w2)
      | Crash _ => (1%Z, w1)
      end
  | Done (status, w1) => (status, w1)
  | Crash _ => (1%Z, w)
  end.

Definition sample_X (A : c_double) : collaborators A sample_E :=
  {| ffpmsg := fun m e => m :: e;
     fits_init_cfitsio := sample_init;
     ffcurbuf := fun ii w =>
       match files w !! Z.to_nat ii with
       | Some b => if live b then Some (Z.to_nat ii) else None
       | None => None
       end;
     ffldrc := fun _ _ _ status w => (status, w);
     ffrhdu := fun _ status w => (status, w);
     ffmahd := fun _ hdunum status w =>
       (if (0 <? status)%Z then status
        else if (3 <? hdunum)%Z then END_OF_FILE released_h else status, w);
     ffmnhd := fun _ _ _ _ status w => (status, w);
     ffhist := fun fptr _ _ _ _ _ _ status w => ((fptr, status), w);
     ffchdu := fun _ status w => (status, w);
     ffflsh := fun _ _ status w => (status, w);
     ffghdn := fun _ _ => 2%Z;
     fits_copy_hdu := fun _ _ _ status w => (status, w);
     fits_copy_header := fun _ _ status w => (status, w);
     fits_modify_key_lng := fun _ _ _ status w => (status, w);
     ffrdef := fun _ status w => (status, w);
     fits_select_rows := fun _ _ _ status w => (status, w) |}.

Definition sample_start : world sample_E := start [].

(** The world in which a run ends; [w0] if it does not end well. *)
Definition final {A E} (r : res (A * world E)) (w0 : world E) : world E :=
  match r with
  | Done (_, w) => w
  | Crash _ => w0
  end.

(** The sample world once the two sample drivers are registered. *)
Definition sample_ready : world sample_E := snd (sample_init sample_start).

(** The sample world after ffopen of "t.fits": one FITSfile at address 0,
    used once, behind the fitsfile at address 0. *)
Definition sample_opened : world sample_E :=
  final (ffopen released_h (sample_X sample_double) 0 8 None (cstr "t.fits")
           0 0 sample_start) sample_start.

(** The receivers after the parse of a name that is nothing but a type, an
    input name and an extension number. *)
Definition plain_out (urltype infile extspec : cstring) : url_out :=
  {| o_urltype := Some urltype; o_infile := Some infile; o_outfile := Some [];
     o_extspec := Some extspec; o_rowfilter := Some []; o_binspec := Some [];
     o_colspec := Some [] |}.

(** A block that malloc or calloc returned and free has not seen. *)
Definition alive {T} (v : T) : block T := {| live := true; content := v |}.

(** The FITSfile at an address, allocated or freed. *)
Definition file_at {E} (w : world E) (a : nat) : option (block FITSfile) :=
  files w !! a.

(** The fitsfile at an address. *)
Definition handle_at {E} (w : world E) (h : nat) : option (block fitsfile) :=
  handles w !! h.

(** What cfileio.c alone decides about a FITSfile: whether the block is
    allocated, and the fields that no other source file writes. *)
Definition lifecycle (b : block FITSfile)
  : bool * Z * Z * Z * Z * option cstring :=
  (live b, open_count (content b), validcode (content b), driver (content b),
   filehandle (content b), filename (content b)).

(** A collaborator that leaves alone the table of drivers, the record of the
    driver closes, the fitsfile blocks and the fields above of every
    FITSfile. *)
Definition keeps_files {E} (f : world E -> Z * world E) : Prop :=
  forall w,
    driverTable (snd (f w)) = driverTable w
    /\ closed (snd (f w)) = closed w
    /\ handles (snd (f w)) = handles w
    /\ lifecycle <$> files (snd (f w)) = lifecycle <$> files w.

(** ** The transport prefix in the words of the specification *)

(** [occurs pat s]: the text [pat] stands somewhere in [s]. *)
Definition occurs (pat s : cstring) : Prop := exists a b, s = a ++ pat ++ b.

(** The transports that may be written with a colon alone. *)
Definition short_schemes : list cstring :=
  [cstr "ftp"; cstr "http"; cstr "mem"; cstr "shmem"; cstr "file"].

(** [transport s ut r]: the name [s] is a transport prefix that stands for
    the type [ut], followed by the text [r].  A leading '-' is the standard
    input.  Else the text up to and with the first "://" is the type.  Else
    one of the short forms, a scheme and a colon, stands for the scheme with
    "://".  Else there is no prefix and the name is that of a disk file. *)
Inductive transport : cstring -> cstring -> cstring -> Prop :=
  | transport_dash (r : cstring) :
      transport (chr "-" :: r) (cstr "stdin://") r
  | transport_url (t r : cstring) :
      peek (t ++ cstr "://" ++ r) <> chr "-" ->
      ~ occurs (cstr "://") (t ++ cstr ":/") ->
      transport (t ++ cstr "://" ++ r) (t ++ cstr "://") r
  | transport_short (sch r : cstring) :
      sch ∈ short_schemes ->
      ~ occurs (cstr "://") (sch ++ chr ":" :: r) ->
      transport (sch ++ chr ":" :: r) (sch ++ cstr "://") r
  | transport_none (s : cstring) :
      peek s <> chr "-" ->
      ~ occurs (cstr "://") s ->
      (forall sch r, sch ∈ short_schemes -> s <> sch ++ chr ":" :: r) ->
      transport s (cstr "file://") s.

(** ** ffrtnm: the root of a name *)

(** Lines 1747-1787: the type as it is put in front of the root name, and
    the text that follows it.  "-" stands for itself, a type that is written
    out is kept, the short forms ftp:, http:, mem: and shmem: are completed,
    and the name of a disk file gets no type. *)
Definition ffrtnm_urltype (ptr1 : cstring) : cstring * cstring :=
  if bool_decide (peek ptr1 = chr "-") then (cstr "-", drop 1 ptr1)
  else
    match strstr ptr1 (cstr "://") with
    | Some k => (take (k + 3) ptr1, drop (k + 3) ptr1)
    | None =>
        if strncmp0 ptr1 (cstr "ftp:") 4 then (cstr "ftp://", drop 4 ptr1)
        else if strncmp0 ptr1 (cstr "http:") 5 then (cstr "http://", drop 5 ptr1)
        else if strncmp0 ptr1 (cstr "mem:") 4 then (cstr "mem://", drop 4 ptr1)
        else if strncmp0 ptr1 (cstr "shmem:") 6 then (cstr "shmem://", drop 6 ptr1)
        else if strncmp0 ptr1 (cstr "file:") 5 then ([], drop 5 ptr1)
        else ([], ptr1)
    end.

(** Lines 1836-1862: the 'filename+n' convention on the local array
    [infile].  When the name holds no '+', [ii] is -1; if the name is then a
    run of fewer than four digits (the empty name is one), the store
    [infile[infilelen] = 0] is made with [infilelen = -1], in front of the
    array: the result is [None]. *)
Definition ffrtnm_plus (infile : cstring) : option cstring :=
  let jj := Z.of_nat (length infile) in
  let ii := scan_back infile (chr "+") in
  if negb (ii =? 0)%Z && (jj - ii <? 5)%Z then
    let infilelen := ii in
    if forallb isdigit (drop (Z.to_nat (ii + 1)) infile)
    then if (0 <=? infilelen)%Z then Some (take (Z.to_nat infilelen) infile)
         else None
    else Some infile
  else Some infile.

(** ffrtnm (lines 1726-1868): the root name and the status.  [rootname] is
    what the caller's buffer holds on entry.  Lines 1790-1819 are those of
    ffiurl (1457-1497) without the copy of the output name. *)
Definition ffrtnm (K : fitsio_h) (url rootname : cstring) (status : Z)
  : res (cstring * Z) :=
  if (0 <? status)%Z then Done (rootname, status)
  else
    let '(urltype, ptr1) := ffrtnm_urltype url in
    match ffiurl_names ptr1 with
    | None => Done ([], URL_PARSE_ERROR K)
    | Some (infile, _) =>
        match ffrtnm_plus (strip_blanks infile) with
        | Some infile => Done (urltype ++ infile, status)
        | None => Crash stray_store
        end
    end.

(** ** Deleting a file, memory files and the calls of the driver *)

Definition with_need_to_initialize {E} (w : world E) (v : Z) : world E :=
  {| need_to_initialize := v; no_of_drivers := no_of_drivers w;
     driverTable := driverTable w; files := files w; handles := handles w;
     alloc := alloc w; closed := closed w; ext := ext w |}.

(** The receivers of the call of ffiurl in ffdelt: every pointer is NULL but
    the one for the input name, whose buffer holds [s]. *)
Definition infile_only (s : cstring) : url_out :=
  {| o_urltype := None; o_infile := Some s; o_outfile := None;
     o_extspec := None; o_rowfilter := None; o_binspec := None;
     o_colspec := None |}.

Section MoreFiles.

Context {F : c_double} {E : Type}.
Variables (K : fitsio_h) (X : collaborators F E).

Notation "x <- m ; k" := (bind m (fun x => k))
  (at level 20, m at level 100, k at level 200, only parsing).
Notation "' p <- m ; k" := (bind m (fun x => match x with p => k end))
  (at level 20, p pattern, m at level 100, k at level 200, only parsing).

(** Lines 2645-2665 of ffdelt: the call of the driver's remove function on
    the base name of the file, when the driver has one.  [garbage] is what the
    block that malloc returns for [basename] holds; ffiurl leaves it there
    when it is entered with a positive status.  [inl]: the return after the
    failed malloc. *)
Definition ffdelt_remove (garbage : cstring) (e : fitsdriver E) (f : FITSfile)
    (status : Z) : M E (Z + Z) :=
  match d_remove e with
  | Some remove =>
      match filename f with
      | None => crash null_read
      | Some name =>
          ok <- next_alloc ;
          if negb ok then ret (inl (MEMORY_ALLOCATION K))
          else
            '(o, status) <- ffiurl_step K X name (infile_only garbage) status ;
            rc <- drive (remove (buf (o_infile o))) ;
            if negb (rc =? 0)%Z then
              _ <- pmsg X (cstr "failed to delete the following file: (ffdelt)") ;
              _ <- pmsg X name ;
              ret (inr (if (status =? 0)%Z then FILE_NOT_CLOSED K else status))
            else ret (inr status)
      end
  | None => ret (inr status)
  end.

(** Lines 2632-2673 of ffdelt, for the FITSfile [f] at address [a] behind
    the fitsfile [h]: the driver closes the file whatever the number of its
    users, the file is removed, and the structures are given up. *)
Definition ffdelt_finish (garbage : cstring) (h a : nat) (f : FITSfile)
    (status : Z) : M E Z :=
  rc <- driver_close (driver f) (filehandle f) ;
  status <-
    (if negb (rc =? 0)%Z && (status <=? 0)%Z then
       _ <- pmsg X (cstr "failed to close the following file: (ffdelt)") ;
       _ <- pmsg X (buf (filename f)) ;
       ret (FILE_NOT_CLOSED K)
     else ret status) ;
  e <- driver_entry (driver f) ;
  r <- ffdelt_remove garbage e f status ;
  match r with
  | inl status => ret status
  | inr status =>
      _ <- store_file a (poison f) ;
      _ <- free_file a ;
      _ <- free_handle h ;
      ret status
  end.

(** ffdelt (lines 2615-2674). *)
Definition ffdelt (garbage : cstring) (fptr : option nat) (status : Z)
  : M E Z :=
  match fptr with
  | None => ret (NULL_INPUT_PTR K)
  | Some h =>
      '(_, f) <- file_of h ;
      if negb (validcode f =? VALIDSTRUC K)%Z then ret (BAD_FILEPTR K)
      else
        status <- call (ffchdu X h status) ;
        status <- call (ffflsh X h 1 status) ;
        '(a, f) <- file_of h ;
        ffdelt_finish garbage h a f status
  end.


End MoreFiles.

(** ** fits_init_cfitsio: the drivers that are always there *)

(** The functions of the other source files that fits_init_cfitsio enters
    in the table, and printf. *)
Record builtin (E : Type) : Type := {
  printf : cstring -> E -> E;
  (* drvrfile.c *)
  file_init : E -> Z * E;
  file_shutdown : E -> Z * E;
  file_setoptions : Z -> E -> Z * E;
  file_getoptions : E -> Z * Z * E;
  file_getversion : E -> Z * Z * E;
  file_checkfile : cstring -> cstring -> cstring -> E
                   -> Z * (cstring * cstring * cstring) * E;
  file_open : cstring -> Z -> E -> Z * Z * E;
  file_create : cstring -> E -> Z * Z * E;
  file_truncate : Z -> Z -> E -> Z * E;
  file_close : Z -> E -> Z * E;
  file_remove : cstring -> E -> Z * E;
  file_size : Z -> E -> Z * Z * E;
  file_flush : Z -> E -> Z * E;
  file_seek : Z -> Z -> E -> Z * E;
  file_read : Z -> Z -> E -> Z * E;
  file_write : Z -> Z -> E -> Z * E;
  (* drvrmem.c *)
  mem_init : E -> Z * E;
  mem_shutdown : E -> Z * E;
  mem_setoptions : Z -> E -> Z * E;
  mem_getoptions : E -> Z * Z * E;
  mem_getversion : E -> Z * Z * E;
  mem_create : cstring -> E -> Z * Z * E;
  mem_truncate : Z -> Z -> E -> Z * E;
  mem_close_free : Z -> E -> Z * E;
  mem_close_keep : Z -> E -> Z * E;
  mem_size : Z -> E -> Z * Z * E;
  mem_seek : Z -> Z -> E -> Z * E;
  mem_read : Z -> Z -> E -> Z * E;
  mem_write : Z -> Z -> E -> Z * E;
  stdin_open : cstring -> Z -> E -> Z * Z * E;
  stdout_close : Z -> E -> Z * E;
  compress_open : cstring -> Z -> E -> Z * Z * E;
  (* drvrnet.c *)
  root_init : E -> Z * E;
  root_shutdown : E -> Z * E;
  root_setoptions : Z -> E -> Z * E;
  root_getoptions : E -> Z * Z * E;
  root_getversion : E -> Z * Z * E;
  root_open : cstring -> Z -> E -> Z * Z * E;
  root_create : cstring -> E -> Z * Z * E;
  root_close : Z -> E -> Z * E;
  root_size : Z -> E -> Z * Z * E;
  root_flush : Z -> E -> Z * E;
  root_seek : Z -> Z -> E -> Z * E;
  root_read : Z -> Z -> E -> Z * E;
  root_write : Z -> Z -> E -> Z * E;
  http_checkfile : cstring -> cstring -> cstring -> E
                   -> Z * (cstring * cstring * cstring) * E;
  http_open : cstring -> Z -> E -> Z * Z * E;
  http_file_open : cstring -> Z -> E -> Z * Z * E;
  http_compress_open : cstring -> Z -> E -> Z * Z * E;
  ftp_checkfile : cstring -> cstring -> cstring -> E
                  -> Z * (cstring * cstring * cstring) * E;
  ftp_open : cstring -> Z -> E -> Z * Z * E;
  ftp_file_open : cstring -> Z -> E -> Z * Z * E;
  ftp_compress_open : cstring -> Z -> E -> Z * Z * E;
  (* drvrsmem.c *)
  smem_init : E -> Z * E;
  smem_shutdown : E -> Z * E;
  smem_setoptions : Z -> E -> Z * E;
  smem_getoptions : E -> Z * Z * E;
  smem_getversion : E -> Z * Z * E;
  smem_open : cstring -> Z -> E -> Z * Z * E;
  smem_create : cstring -> E -> Z * Z * E;
  smem_close : Z -> E -> Z * E;
  smem_remove : cstring -> E -> Z * E;
  smem_size : Z -> E -> Z * Z * E;
  smem_flush : Z -> E -> Z * E;
  smem_seek : Z -> Z -> E -> Z * E;
  smem_read : Z -> Z -> E -> Z * E;
  smem_write : Z -> Z -> E -> Z * E
}.

(** What the preprocessor decides, and the byte order of the machine:
    [low_byte_first] tells whether [u.cval[0]] is 1 after [u.ival = 1]. *)
Record build : Type := {
  BYTESWAPPED : bool;
  HAVE_FTRUNCATE : bool;
  HAVE_NET_SERVICES : bool;
  HAVE_SHMEM_SERVICES : bool;
  low_byte_first : bool
}.

Module Init.
Section Init.

Context {F : c_double} {E : Type}.
Variables (K : fitsio_h) (X : collaborators F E) (C : build) (D : builtin E).

Notation "x <- m ; k" := (bind m (fun x => k))
  (at level 20, m at level 100, k at level 200, only parsing).

(** [status = fits_register_driver(...); if (status) { ffpmsg(msg);
    return(status); }] and what follows it. *)
Definition registered (msg : cstring) (m : M E Z) (k : Z -> M E Z) : M E Z :=
  status <- m ;
  if negb (status =? 0)%Z then _ <- pmsg X msg ; ret status
  else k status.

Definition truncate_of_file : option (Z -> Z -> E -> Z * E) :=
  if HAVE_FTRUNCATE C then Some (file_truncate E D) else None.

(** Lines 894-1048: the six drivers that are always registered. *)
Definition standard_drivers (k : Z -> M E Z) : M E Z :=
  registered (cstr "failed to register the file:// driver (init_cfitsio)")
    (fits_register_driver K (Some (cstr "file://"))
       (Some (file_init E D)) (Some (file_shutdown E D))
       (Some (file_setoptions E D)) (Some (file_getoptions E D))
       (Some (file_getversion E D)) (Some (file_checkfile E D))
       (Some (file_open E D)) (Some (file_create E D)) truncate_of_file
       (Some (file_close E D)) (Some (file_remove E D)) (Some (file_size E D))
       (Some (file_flush E D)) (Some (file_seek E D)) (Some (file_read E D))
       (Some (file_write E D))) (fun _ =>
  registered (cstr "failed to register the mem:// driver (init_cfitsio)")
    (fits_register_driver K (Some (cstr "mem://"))
       (Some (mem_init E D)) (Some (mem_shutdown E D))
       (Some (mem_setoptions E D)) (Some (mem_getoptions E D))
       (Some (mem_getversion E D)) None None (Some (mem_create E D))
       (Some (mem_truncate E D)) (Some (mem_close_free E D)) None
       (Some (mem_size E D)) None (Some (mem_seek E D)) (Some (mem_read E D))
       (Some (mem_write E D))) (fun _ =>
  registered (cstr "failed to register the memkeep:// driver (init_cfitsio)")
    (fits_register_driver K (Some (cstr "memkeep://"))
       (Some (mem_init E D)) (Some (mem_shutdown E D))
       (Some (mem_setoptions E D)) (Some (mem_getoptions E D))
       (Some (mem_getversion E D)) None None None
       (Some (mem_truncate E D)) (Some (mem_close_keep E D)) None
       (Some (mem_size E D)) None (Some (mem_seek E D)) (Some (mem_read E D))
       (Some (mem_write E D))) (fun _ =>
  registered (cstr "failed to register the stdin:// driver (init_cfitsio)")
    (fits_register_driver K (Some (cstr "stdin://"))
       (Some (mem_init E D)) (Some (mem_shutdown E D))
       (Some (mem_setoptions E D)) (Some (mem_getoptions E D))
       (Some (mem_getversion E D)) None (Some (stdin_open E D)) None
       (Some (mem_truncate E D)) (Some (mem_close_free E D)) None
       (Some (mem_size E D)) None (Some (mem_seek E D)) (Some (mem_read E D))
       (Some (mem_write E D))) (fun _ =>
  registered (cstr "failed to register the stdout:// driver (init_cfitsio)")
    (fits_register_driver K (Some (cstr "stdout://"))
       (Some (mem_init E D)) (Some (mem_shutdown E D))
       (Some (mem_setoptions E D)) (Some (mem_getoptions E D))
       (Some (mem_getversion E D)) None None (Some (mem_create E D))
       (Some (mem_truncate E D)) (Some (stdout_close E D)) None
       (Some (mem_size E D)) None (Some (mem_seek E D)) (Some (mem_read E D))
       (Some (mem_write E D))) (fun _ =>
  registered (cstr "failed to register the compress:// driver (init_cfitsio)")
    (fits_register_driver K (Some (cstr "compress://"))
       (Some (mem_init E D)) (Some (mem_shutdown E D))
       (Some (mem_setoptions E D)) (Some (mem_getoptions E D))
       (Some (mem_getversion E D)) None (Some (compress_open E D)) None
       (Some (mem_truncate E D)) (Some (mem_close_free E D)) None
       (Some (mem_size E D)) None (Some (mem_seek E D)) (Some (mem_read E D))
       (Some (mem_write E D))) k))))).

(** Lines 1053-1242: the drivers of the network, under HAVE_NET_SERVICES. *)
Definition net_drivers (status : Z) (k : Z -> M E Z) : M E Z :=
  if negb (HAVE_NET_SERVICES C) then k status
  else
  registered (cstr "failed to register the root:// driver (init_cfitsio)")
    (fits_register_driver K (Some (cstr "root://"))
       (Some (root_init E D)) (Some (root_shutdown E D))
       (Some (root_setoptions E D)) (Some (root_getoptions E D))
       (Some (root_getversion E D)) None (Some (root_open E D))
       (Some (root_create E D)) None (Some (root_close E D)) None
       (Some (root_size E D)) (Some (root_flush E D)) (Some (root_seek E D))
       (Some (root_read E D)) (Some (root_write E D))) (fun _ =>
  registered (cstr "failed to register the http:// driver (init_cfitsio)")
    (fits_register_driver K (Some (cstr "http://"))
       (Some (mem_init E D)) (Some (mem_shutdown E D))
       (Some (mem_setoptions E D)) (Some (mem_getoptions E D))
       (Some (mem_getversion E D)) (Some (http_checkfile E D))
       (Some (http_open E D)) None
       (Some (mem_truncate E D)) (Some (mem_close_free E D)) None
       (Some (mem_size E D)) None (Some (mem_seek E D)) (Some (mem_read E D))
       (Some (mem_write E D))) (fun _ =>
  registered (cstr "failed to register the httpfile:// driver (init_cfitsio)")
    (fits_register_driver K (Some (cstr "httpfile://"))
       (Some (file_init E D)) (Some (file_shutdown E D))
       (Some (file_setoptions E D)) (Some (file_getoptions E D))
       (Some (file_getversion E D)) None
       (Some (http_file_open E D)) (Some (file_create E D)) truncate_of_file
       (Some (file_close E D)) (Some (file_remove E D)) (Some (file_size E D))
       (Some (file_flush E D)) (Some (file_seek E D)) (Some (file_read E D))
       (Some (file_write E D))) (fun _ =>
  registered (cstr "failed to register the httpcompress:// driver (init_cfitsio)")
    (fits_register_driver K (Some (cstr "httpcompress://"))
       (Some (mem_init E D)) (Some (mem_shutdown E D))
       (Some (mem_setoptions E D)) (Some (mem_getoptions E D))
       (Some (mem_getversion E D)) None
       (Some (http_compress_open E D)) None
       (Some (mem_truncate E D)) (Some (mem_close_free E D)) None
       (Some (mem_size E D)) None (Some (mem_seek E D)) (Some (mem_read E D))
       (Some (mem_write E D))) (fun _ =>
  registered (cstr "failed to register the ftp:// driver (init_cfitsio)")
    (fits_register_driver K (Some (cstr "ftp://"))
       (Some (mem_init E D)) (Some (mem_shutdown E D))
       (Some (mem_setoptions E D)) (Some (mem_getoptions E D))
       (Some (mem_getversion E D)) (Some (ftp_checkfile E D))
       (Some (ftp_open E D)) None
       (Some (mem_truncate E D)) (Some (mem_close_free E D)) None
       (Some (mem_size E D)) None (Some (mem_seek E D)) (Some (mem_read E D))
       (Some (mem_write E D))) (fun _ =>
  registered (cstr "failed to register the ftpfile:// driver (init_cfitsio)")
    (fits_register_driver K (Some (cstr "ftpfile://"))
       (Some (file_init E D)) (Some (file_shutdown E D))
       (Some (file_setoptions E D)) (Some (file_getoptions E D))
       (Some (file_getversion E D)) None
       (Some (ftp_file_open E D)) (Some (file_create E D)) truncate_of_file
       (Some (file_close E D)) (Some (file_remove E D)) (Some (file_size E D))
       (Some (file_flush E D)) (Some (file_seek E D)) (Some (file_read E D))
       (Some (file_write E D))) (fun _ =>
  registered (cstr "failed to register the ftpcompress:// driver (init_cfitsio)")
    (fits_register_driver K (Some (cstr "ftpcompress://"))
       (Some (mem_init E D)) (Some (mem_shutdown E D))
       (Some (mem_setoptions E D)) (Some (mem_getoptions E D))
       (Some (mem_getversion E D)) None
       (Some (ftp_compress_open E D)) None
       (Some (mem_truncate E D)) (Some (mem_close_free E D)) None
       (Some (mem_size E D)) None (Some (mem_seek E D)) (Some (mem_read E D))
       (Some (mem_write E D))) k)))))).

(** Lines 1246-1273: the driver of shared memory, under
    HAVE_SHMEM_SERVICES. *)
Definition shmem_driver (status : Z) (k : Z -> M E Z) : M E Z :=
  if negb (HAVE_SHMEM_SERVICES C) then k status
  else
  registered (cstr "failed to register the shmem:// driver (init_cfitsio)")
    (fits_register_driver K (Some (cstr "shmem://"))
       (Some (smem_init E D)) (Some (smem_shutdown E D))
       (Some (smem_setoptions E D)) (Some (smem_getoptions E D))
       (Some (smem_getversion E D)) None (Some (smem_open E D))
       (Some (smem_create E D)) None (Some (smem_close E D))
       (Some (smem_remove E D)) (Some (smem_size E D))
       (Some (smem_flush E D)) (Some (smem_seek E D)) (Some (smem_read E D))
       (Some (smem_write E D))) k.

(** The character that ends a line of output. *)
Definition LF : ascii := ascii_of_nat 10.

(** The six lines that are printed when the byte order is not the one
    fitsio2.h was told. *)
Definition byteswap_report : list cstring :=
  [LF :: cstr "!!!!!!!!!!!!!!!!!!!!!!!!!!!!!!!!!!!!!!!!!!!!!!!!!!!!!!!!" ++ [LF];
   cstr " Byteswapping is not being done correctly on this system." ++ [LF];
   cstr " Check the MACHINE and BYTESWAPPED definitions in fitsio2.h" ++ [LF];
   cstr " Please report this problem to the author at" ++ [LF];
   cstr "     pence@tetra.gsfc.nasa.gov" ++ [LF];
   cstr "!!!!!!!!!!!!!!!!!!!!!!!!!!!!!!!!!!!!!!!!!!!!!!!!!!!!!!!!" ++ [LF]].

(** fits_init_cfitsio (lines 863-1280).  With [u.ival = 1] in a short of two
    bytes, [u.cval[0]] is 1 on a machine that stores the low byte first and
    [u.cval[1]] is 1 on the others. *)
Definition fits_init_cfitsio : M E Z :=
  _ <- (fun w => Done (tt, with_need_to_initialize w 0)) ;
  let cval0 := if low_byte_first C then 1%Z else 0%Z in
  let cval1 := if low_byte_first C then 0%Z else 1%Z in
  if (BYTESWAPPED C && negb (cval0 =? 1)%Z)
     || (negb (BYTESWAPPED C) && negb (cval1 =? 1)%Z)
  then
    _ <- (fun w => Done (tt, with_ext w (foldl (fun e s => printf E D s e)
                                               (ext w) byteswap_report))) ;
    ret 1%Z
  else
    standard_drivers (fun status =>
    net_drivers status (fun status =>
    shmem_driver status (fun status => ret status))).

End Init.
End Init.

(** ** More of the sample environment *)

(** A sample driver whose remove function records the name it is given on
    the stack of messages. *)
Definition sample_removing : fitsdriver sample_E :=
  {| d_prefix := []; d_init := None; d_shutdown := None; d_setoptions := None;
     d_getoptions := None; d_getversion := None; d_checkfile := None;
     d_open := Some (fun _ _ e => (0%Z, 7%Z, e));
     d_create := Some (fun _ e => (0%Z, 7%Z, e));
     d_truncate := None;
     d_close := Some (fun _ e => (0%Z, e));
     d_remove := Some (fun name e => (0%Z, (cstr "removed: " ++ name) :: e));
     d_size := Some (fun _ e => (0%Z, 2880%Z, e));
     d_flush := None; d_seek := None; d_read := None; d_write := None |}.

(** The sample world with one more driver, for the type rm://. *)
Definition sample_ready_rm : world sample_E :=
  final (register_as released_h (Some (cstr "rm://")) sample_removing
           sample_ready) sample_ready.

(** After ffopen of "rm://t.fits" in it: the FITSfile at address 0, used
    once, behind the fitsfile at address 0. *)
Definition sample_opened_rm : world sample_E :=
  final (ffopen released_h (sample_X sample_double) 0 8 None
           (cstr "rm://t.fits") 0 0 sample_ready_rm) sample_ready_rm.

(** The sample world after ffopen of "t.fits" and ffreopen of the handle:
    the FITSfile at address 0, used twice, behind the fitsfiles 0 and 1. *)
Definition sample_shared : world sample_E :=
  final (ffreopen released_h (Some 0%nat) None 0 sample_opened) sample_opened.

(** A world whose next allocations have the given outcomes. *)
Definition failing {E} (w : world E) (outcomes : list bool) : world E :=
  with_alloc w outcomes.

(** The FITSfile that the sample drivers and collaborators give for a file
    opened read-only under [name] by driver [d], with [n] users. *)
Definition sample_file (name : cstring) (d n : Z) : FITSfile :=
  {| filehandle := 7; driver := d; filename := Some name; filesize := 2880;
     logfilesize := 2880; writemode := 0; datastart := -1; curbuf := -1;
     open_count := n; validcode := 555 |}.



(** ** What a driver can do *)

Definition has {A : Type} (p : option A) : bool :=
  match p with Some _ => true | None => false end.

(** Which of the pointers checkfile, open, create, truncate, close, remove,
    size, flush, seek, read and write of an entry are not NULL. *)
Definition capabilities {E} (e : fitsdriver E) : list bool :=
  [has (d_checkfile e); has (d_open e); has (d_create e); has (d_truncate e);
   has (d_close e); has (d_remove e); has (d_size e); has (d_flush e);
   has (d_seek e); has (d_read e); has (d_write e)].

(** Sample driver functions for fits_init_cfitsio: every function returns 0
    and leaves the state alone, handles are 7 and sizes 2880. *)
Definition sample_builtin : builtin sample_E :=
  let init := fun e : sample_E => (0%Z, e) in
  let setoptions := fun (_ : Z) (e : sample_E) => (0%Z, e) in
  let getoptions := fun e : sample_E => (0%Z, 0%Z, e) in
  let checkfile := fun (u i o : cstring) (e : sample_E) => (0%Z, (u, i, o), e) in
  let open := fun (_ : cstring) (_ : Z) (e : sample_E) => (0%Z, 7%Z, e) in
  let create := fun (_ : cstring) (e : sample_E) => (0%Z, 7%Z, e) in
  let two := fun (_ _ : Z) (e : sample_E) => (0%Z, e) in
  let one := fun (_ : Z) (e : sample_E) => (0%Z, e) in
  let remove := fun (_ : cstring) (e : sample_E) => (0%Z, e) in
  let size := fun (_ : Z) (e : sample_E) => (0%Z, 2880%Z, e) in
  {| printf := fun s e => s :: e;
     file_init := init; file_shutdown := init; file_setoptions := setoptions;
     file_getoptions := getoptions; file_getversion := getoptions;
     file_checkfile := checkfile; file_open := open; file_create := create;
     file_truncate := two; file_close := one; file_remove := remove;
     file_size := size; file_flush := one; file_seek := two;
     file_read := two; file_write := two;
     mem_init := init; mem_shutdown := init; mem_setoptions := setoptions;
     mem_getoptions := getoptions; mem_getversion := getoptions;
     mem_create := create; mem_truncate := two; mem_close_free := one;
     mem_close_keep := one; mem_size := size; mem_seek := two;
     mem_read := two; mem_write := two;
     stdin_open := open; stdout_close := one; compress_open := open;
     root_init := init; root_shutdown := init; root_setoptions := setoptions;
     root_getoptions := getoptions; root_getversion := getoptions;
     root_open := open; root_create := create; root_close := one;
     root_size := size; root_flush := one; root_seek := two;
     root_read := two; root_write := two;
     http_checkfile := checkfile; http_open := open; http_file_open := open;
     http_compress_open := open; ftp_checkfile := checkfile; ftp_open := open;
     ftp_file_open := open; ftp_compress_open := open;
     smem_init := init; smem_shutdown := init; smem_setoptions := setoptions;
     smem_getoptions := getoptions; smem_getversion := getoptions;
     smem_open := open; smem_create := create; smem_close := one;
     smem_remove := remove; smem_size := size; smem_flush := one;
     smem_seek := two; smem_read := two; smem_write := two |}.

(** A build with every optional driver, on a machine that stores the low
    byte first and was built for it. *)
Definition sample_build : build :=
  {| BYTESWAPPED := true; HAVE_FTRUNCATE := true; HAVE_NET_SERVICES := true;
     HAVE_SHMEM_SERVICES := true; low_byte_first := true |}.


(** * Properties *)

(** ** The registry *)

Section RegistryFacts.

Context {E : Type}.
Variable K : fitsio_h.

Implicit Types (w : world E) (d : fitsdriver E) (p : cstring).

(** A registration in a table that holds 14 drivers is refused, whatever its
    arguments, and nothing changes. *)
Lemma register_as_full w (q : option cstring) d :
  no_of_drivers w = 14%Z ->
  register_as K q d w = Done (TOO_MANY_DRIVERS K, w).
Proof.
  intros Hn. unfold register_as, fits_register_driver, bind, look.
  rewrite Hn. reflexivity.
Qed.

(** A registration without an init function, in a table with room. *)
Lemma register_as_room w p d :
  (0 <= no_of_drivers w < 14)%Z ->
  d_init d = None ->
  register_as K (Some p) d w
  = Done (0%Z, with_registry w (no_of_drivers w + 1)
                 (<[Z.to_nat (no_of_drivers w) := entry_of p d]> (driverTable w))).
Proof.
  intros Hn Hi. unfold register_as, fits_register_driver, bind, look, ret, entry_of.
  rewrite Hi.
  destruct (Z.eqb_spec (no_of_drivers w + 1) MAX_DRIVERS) as [Heq | _].
  { unfold MAX_DRIVERS in Heq. lia. }
  cbn [negb Z.eqb].
  replace ((0 <=? no_of_drivers w)%Z && (no_of_drivers w <? MAX_DRIVERS)%Z)
    with true.
  - reflexivity.
  - symmetry. apply andb_true_intro. unfold MAX_DRIVERS.
    split; [apply Z.leb_le | apply Z.ltb_lt]; lia.
Qed.

Lemma register_each_room ps : forall w,
  (0 <= no_of_drivers w)%Z ->
  (no_of_drivers w + Z.of_nat (length ps) <= 14)%Z ->
  exists w',
    register_each K ps w = Done (replicate (length ps) 0%Z, w')
    /\ no_of_drivers w' = (no_of_drivers w + Z.of_nat (length ps))%Z
    /\ ext w' = ext w.
Proof.
  induction ps as [| p ps IH]; intros w H0 Hn; cbn [register_each length].
  - exists w. split; [reflexivity | split; [lia | reflexivity]].
  - cbn [length] in Hn.
    rewrite register_as_room by (try reflexivity; lia).
    set (w1 := with_registry w _ _).
    destruct (IH w1) as (w' & Hrun & Hcount & Hext).
    + cbn. lia.
    + cbn. lia.
    + exists w'. rewrite Hrun. cbn [replicate].
      split; [reflexivity |]. split; [| exact Hext].
      rewrite Hcount. cbn. lia.
Qed.

(** What a registration that returns 0 has done, when the table had room. *)
Lemma register_as_done w w1 p d :
  (0 <= no_of_drivers w < 14)%Z ->
  register_as K (Some p) d w = Done (0%Z, w1) ->
  no_of_drivers w1 = (no_of_drivers w + 1)%Z
  /\ driverTable w1
     = <[Z.to_nat (no_of_drivers w) := entry_of p d]> (driverTable w)
  /\ files w1 = files w /\ handles w1 = handles w /\ closed w1 = closed w.
Proof.
  intros Hn. unfold register_as, fits_register_driver, bind, look, ret, entry_of.
  destruct (Z.eqb_spec (no_of_drivers w + 1) MAX_DRIVERS) as [Heq | _].
  { unfold MAX_DRIVERS in Heq. lia. }
  replace ((0 <=? no_of_drivers w)%Z && (no_of_drivers w <? MAX_DRIVERS)%Z)
    with true
    by (symmetry; apply andb_true_intro; unfold MAX_DRIVERS;
        split; [apply Z.leb_le | apply Z.ltb_lt]; lia).
  destruct (d_init d) as [f |]; unfold drive.
  - destruct (f (ext w)) as [st e].
    destruct (Z.eqb_spec st 0) as [-> | Hst]; cbn [negb].
    + intros [= <-]. cbn. auto.
    + intros [= Hz _]. contradiction.
  - cbn [negb Z.eqb]. intros [= <-]. cbn. auto.
Qed.

(** *** Looking a prefix up *)

(** The scan returns the last of the first [n] entries whose prefix is the
    one asked for. *)
Lemma scan_found (table : list (fitsdriver E)) urltype n ii :
  urltype2driver_scan table urltype n = Some ii ->
  (ii < n)%nat
  /\ default [] (d_prefix <$> table !! ii) = urltype
  /\ forall j, (ii < j < n)%nat ->
       default [] (d_prefix <$> table !! j) <> urltype.
Proof.
  induction n as [| n IH]; cbn [urltype2driver_scan]; [discriminate |].
  unfold strcmp0. case_bool_decide as Heq.
  - intros [= <-]. split; [lia |]. split; [exact Heq |]. intros j Hj. lia.
  - intros Hscan. destruct (IH Hscan) as (Hlt & Hpre & Hlater).
    split; [lia |]. split; [exact Hpre |].
    intros j Hj. destruct (decide (j = n)) as [-> | Hne]; [exact Heq |].
    apply Hlater. lia.
Qed.

Lemma scan_none (table : list (fitsdriver E)) urltype n :
  urltype2driver_scan table urltype n = None <->
  forall j, (j < n)%nat -> default [] (d_prefix <$> table !! j) <> urltype.
Proof.
  induction n as [| n IH]; cbn [urltype2driver_scan].
  - split; [intros _ j Hj; lia | reflexivity].
  - unfold strcmp0. case_bool_decide as Heq.
    + split; [discriminate |]. intros H. exfalso. apply (H n); [lia | exact Heq].
    + rewrite IH. split; intros H j Hj.
      * destruct (decide (j = n)) as [-> | Hne]; [exact Heq | apply H; lia].
      * apply H. lia.
Qed.

Lemma scan_last (table : list (fitsdriver E)) urltype n :
  default [] (d_prefix <$> table !! n) = urltype ->
  urltype2driver_scan table urltype (S n) = Some n.
Proof.
  intros H. cbn [urltype2driver_scan]. unfold strcmp0.
  rewrite bool_decide_eq_true_2 by exact H. reflexivity.
Qed.

End RegistryFacts.

(** C2 (evaluated on the code).  From the empty registry, fourteen
    registrations with a prefix and no init function succeed; the fifteenth
    call, whatever its arguments, returns TOO_MANY_DRIVERS and leaves the table
    and the count as they were: the table never holds a fifteenth driver. *)
Theorem fifteenth_registration_refused {E} (K : fitsio_h) (e : E)
    (ps : list cstring) (q : option cstring) (d : fitsdriver E) :
  length ps = 14%nat ->
  exists w14,
    register_each K ps (start e) = Done (replicate 14 0%Z, w14)
    /\ no_of_drivers w14 = 14%Z
    /\ register_as K q d w14 = Done (TOO_MANY_DRIVERS K, w14).
Proof.
  intros Hlen.
  destruct (register_each_room K ps (start e)) as (w14 & Hrun & Hcount & _).
  - cbn. lia.
  - cbn. lia.
  - exists w14. rewrite Hlen in Hrun, Hcount. cbn in Hcount.
    split; [exact Hrun |]. split; [exact Hcount |].
    apply register_as_full. exact Hcount.
Qed.

Lemma fifteenth_registration_refused_witness :
  length (replicate 14 (cstr "x://")) = 14%nat
  /\ exists w14,
       register_each released_h (replicate 14 (cstr "x://")) sample_start
       = Done (replicate 14 0%Z, w14)
       /\ no_of_drivers w14 = 14%Z
       /\ register_as released_h (Some (cstr "x://")) sample_driver w14
          = Done (TOO_MANY_DRIVERS released_h, w14).
Proof.
  split; [reflexivity |].
  apply (fifteenth_registration_refused released_h [] (replicate 14 (cstr "x://"))).
  reflexivity.
Defined.

(** C4.  urltype2driver compares the whole prefix and looks at the latest
    entry first: (1) when some registered prefix equals the query it returns
    status 0 and the largest index whose prefix is the query; (2) when none
    does it returns NO_MATCHING_DRIVER and leaves the caller's driver number
    alone; (3) after two successful registrations of one prefix (shorter than
    MAX_PREFIX_LEN), first with the functions of [dA] and then with those of
    [dB], the lookup of that prefix returns the index at which [dB] was
    entered. *)
Theorem urltype2driver_most_recent {E} (K : fitsio_h) (w w1 w2 : world E)
    (urltype p : cstring) (dA dB : fitsdriver E) (driver0 : Z) :
  let prefix_at (w : world E) (j : nat) :=
    default [] (d_prefix <$> driverTable w !! j) in
  let n := Z.to_nat (no_of_drivers w) in
  ((exists j, (j < n)%nat /\ prefix_at w j = urltype) ->
   exists ii : nat,
     urltype2driver K urltype driver0 w = (0%Z, Z.of_nat ii)
     /\ (ii < n)%nat /\ prefix_at w ii = urltype
     /\ forall j, (ii < j < n)%nat -> prefix_at w j <> urltype)
  /\ ((forall j, (j < n)%nat -> prefix_at w j <> urltype) ->
      urltype2driver K urltype driver0 w = (NO_MATCHING_DRIVER K, driver0))
  /\ (length (driverTable w) = Z.to_nat MAX_DRIVERS ->
      (0 <= no_of_drivers w <= 12)%Z ->
      (length p < MAX_PREFIX_LEN)%nat ->
      register_as K (Some p) dA w = Done (0%Z, w1) ->
      register_as K (Some p) dB w1 = Done (0%Z, w2) ->
      urltype2driver K p driver0 w2 = (0%Z, no_of_drivers w + 1)%Z
      /\ driverTable w2 !! Z.to_nat (no_of_drivers w + 1) = Some (entry_of p dB)
      /\ driverTable w2 !! Z.to_nat (no_of_drivers w) = Some (entry_of p dA)).
Proof.
  intros prefix_at n. split; [| split].
  - intros (j & Hj & Hpre). unfold urltype2driver. fold n.
    destruct (urltype2driver_scan (driverTable w) urltype n) as [ii |] eqn:Hscan.
    + exists ii. split; [reflexivity |]. apply (scan_found _ _ _ _ Hscan).
    + exfalso. apply (proj1 (scan_none _ _ _) Hscan j Hj). exact Hpre.
  - intros Hnone. unfold urltype2driver. fold n.
    rewrite (proj2 (scan_none _ _ _) Hnone). reflexivity.
  - intros Hlen Hn Hp HA HB.
    destruct (register_as_done K w w1 p dA) as (Hn1 & Ht1 & _); [lia | exact HA |].
    destruct (register_as_done K w1 w2 p dB) as (Hn2 & Ht2 & _); [lia | exact HB |].
    assert (Hpre : take (MAX_PREFIX_LEN - 1) p = p).
    { apply take_ge. unfold MAX_PREFIX_LEN in *. lia. }
    assert (HtB : driverTable w2 !! Z.to_nat (no_of_drivers w + 1)
                  = Some (entry_of p dB)).
    { rewrite Ht2, Hn1. apply list_lookup_insert_eq.
      rewrite Ht1, length_insert, Hlen. unfold MAX_DRIVERS. lia. }
    split; [| split; [exact HtB |]].
    + unfold urltype2driver. rewrite Hn2, Hn1.
      replace (Z.to_nat (no_of_drivers w + 1 + 1))
        with (S (Z.to_nat (no_of_drivers w + 1))) by lia.
      rewrite scan_last.
      * f_equal. lia.
      * rewrite HtB. cbn. exact Hpre.
    + rewrite Ht2, Hn1, list_lookup_insert_ne by lia.
      rewrite Ht1. apply list_lookup_insert_eq. rewrite Hlen.
      unfold MAX_DRIVERS. lia.
Qed.

Lemma urltype2driver_most_recent_witness :
  let w1 := final (register_as released_h (Some (cstr "x://")) sample_driver
                     sample_start) sample_start in
  let w2 := final (register_as released_h (Some (cstr "x://")) zero_driver w1)
              w1 in
  urltype2driver released_h (cstr "x://") 0 w2 = (0%Z, 1%Z)
  /\ driverTable w2 !! 1%nat = Some (entry_of (cstr "x://") zero_driver)
  /\ driverTable w2 !! 0%nat = Some (entry_of (cstr "x://") sample_driver)
  /\ urltype2driver released_h (cstr "y://") 0 w2
     = (NO_MATCHING_DRIVER released_h, 0%Z).
Proof.
  intros w1 w2.
  destruct (urltype2driver_most_recent released_h sample_start w1 w2
              (cstr "x://") (cstr "x://") sample_driver zero_driver 0)
    as (_ & _ & Hlast).
  destruct (urltype2driver_most_recent released_h w2 w1 w2
              (cstr "y://") (cstr "x://") sample_driver zero_driver 0)
    as (_ & Hnone & _).
  split; [| split; [| split]].
  - apply Hlast; [reflexivity | vm_compute; split; discriminate | vm_compute; lia | reflexivity | reflexivity].
  - apply Hlast; [reflexivity | vm_compute; split; discriminate | vm_compute; lia | reflexivity | reflexivity].
  - apply Hlast; [reflexivity | vm_compute; split; discriminate | vm_compute; lia | reflexivity | reflexivity].
  - apply Hnone. intros j Hj.
    destruct j as [| [| j]]; [discriminate | discriminate |].
    vm_compute in Hj. lia.
Defined.

(** ** The parser of input names *)

Lemma strchr_None (s : cstring) (c : ascii) : strchr s c = None <-> c ∉ s.
Proof.
  induction s as [| x s IH]; cbn [strchr].
  - split; [intros _; apply not_elem_of_nil | reflexivity].
  - rewrite not_elem_of_cons. case_bool_decide as Hx.
    + split; [discriminate | intros [Hne _]; congruence].
    + destruct (strchr s c); cbn.
      * split; [discriminate |]. intros [_ Hin]. apply IH in Hin. discriminate.
      * split; [| reflexivity]. intros _. split; [congruence | apply IH; reflexivity].
Qed.

Lemma last_index_None (s : cstring) (c : ascii) :
  last_index s c = None <-> c ∉ s.
Proof.
  induction s as [| x s IH]; cbn [last_index].
  - split; [intros _; apply not_elem_of_nil | reflexivity].
  - rewrite not_elem_of_cons. destruct (last_index s c).
    + split; [discriminate |]. intros [_ Hin]. apply IH in Hin. discriminate.
    + case_bool_decide as Hx.
      * split; [discriminate | intros [Hne _]; congruence].
      * split; [| reflexivity]. intros _. split; [congruence | apply IH; reflexivity].
Qed.

Lemma starts_with_elem (pat s : cstring) (c : ascii) :
  starts_with pat s = true -> c ∈ pat -> c ∈ s.
Proof.
  revert s. induction pat as [| p pat IH]; intros s Hs Hc.
  - apply elem_of_nil in Hc. contradiction.
  - destruct s as [| x s]; cbn in Hs; [discriminate |].
    apply andb_true_iff in Hs as [Hpx Hrest].
    apply bool_decide_eq_true in Hpx. subst x.
    apply elem_of_cons in Hc as [-> | Hc].
    + apply elem_of_cons. left. reflexivity.
    + apply elem_of_cons. right. apply IH; assumption.
Qed.

Lemma strstr_None (s pat : cstring) (c : ascii) :
  c ∈ pat -> c ∉ s -> strstr s pat = None.
Proof.
  intros Hc. induction s as [| x s IH]; intros Hs.
  - cbn. destruct (starts_with pat []) eqn:Hsw; [| reflexivity].
    exfalso. apply Hs. apply (starts_with_elem pat); assumption.
  - cbn [strstr]. destruct (starts_with pat (x :: s)) eqn:Hsw.
    + exfalso. apply Hs. apply (starts_with_elem pat); assumption.
    + apply not_elem_of_cons in Hs as [_ Hs]. rewrite (IH Hs). reflexivity.
Qed.

Lemma strncmp0_elem (s lit : cstring) (n : nat) (c : ascii) :
  strncmp0 s lit n = true -> c ∈ take n lit -> c ∈ s.
Proof.
  unfold strncmp0. intros H Hc. apply bool_decide_eq_true in H.
  rewrite <- H in Hc. apply (subseteq_take n s). exact Hc.
Qed.

(** The text after the type of the URL is an end of the URL. *)
Lemma ffiurl_urltype_drop (s : cstring) :
  exists k, snd (ffiurl_urltype s) = drop k s.
Proof.
  unfold ffiurl_urltype.
  repeat match goal with
         | |- context [if ?b then _ else _] => destruct b
         | |- context [match ?o with Some _ => _ | None => _ end] => destruct o
         end; cbn [snd]; try (eexists; reflexivity).
  exists 0%nat. reflexivity.
Qed.

Lemma ffiurl_urltype_elem (s : cstring) (c : ascii) :
  c ∉ s -> c ∉ snd (ffiurl_urltype s).
Proof.
  intros Hc Hin. destruct (ffiurl_urltype_drop s) as [k Hk].
  rewrite Hk in Hin. apply Hc. apply (subseteq_drop k s). exact Hin.
Qed.

(** A name without a colon and without a leading '-' is a disk file. *)
Lemma ffiurl_urltype_file (s : cstring) :
  chr ":" ∉ s -> peek s <> chr "-" ->
  ffiurl_urltype s = (cstr "file://", s).
Proof.
  intros Hc Hm. unfold ffiurl_urltype.
  rewrite bool_decide_eq_false_2 by exact Hm.
  rewrite (strstr_None s (cstr "://") (chr ":")); [| | exact Hc].
  2:{ apply elem_of_cons. left. reflexivity. }
  assert (Hno : forall lit n, chr ":" ∈ take n lit -> strncmp0 s lit n = false).
  { intros lit n Hin. destruct (strncmp0 s lit n) eqn:He; [| reflexivity].
    exfalso. apply Hc. apply (strncmp0_elem s lit n); assumption. }
  rewrite !Hno; [reflexivity | ..]; cbn;
    repeat (first [apply list_elem_of_here | apply list_elem_of_further]).
Qed.

Lemma ffiurl_names_plain (ptr1 : cstring) :
  chr "(" ∉ ptr1 -> chr "[" ∉ ptr1 -> ffiurl_names ptr1 = Some (ptr1, []).
Proof.
  intros Hp Hb. unfold ffiurl_names.
  rewrite (proj2 (strchr_None ptr1 (chr "(")) Hp).
  rewrite (proj2 (strchr_None ptr1 (chr "[")) Hb). reflexivity.
Qed.

Lemma drop_trailing_blanks_id (s : cstring) :
  last s <> Some SP -> drop_trailing_blanks s = s.
Proof.
  induction s as [| x s IH]; intros Hl; [reflexivity |].
  cbn [drop_trailing_blanks]. destruct s as [| y s].
  - cbn. cbn in Hl. rewrite bool_decide_eq_false_2; [reflexivity | congruence].
  - rewrite last_cons_cons in Hl. rewrite (IH Hl). reflexivity.
Qed.

Lemma strip_blanks_id (s : cstring) :
  last s <> Some SP -> strip_blanks s = s.
Proof.
  destruct s as [| x s]; [reflexivity |]. intros Hl. cbn [strip_blanks].
  destruct s as [| y s]; [reflexivity |].
  rewrite last_cons_cons in Hl. rewrite drop_trailing_blanks_id by exact Hl.
  reflexivity.
Qed.

Lemma strip_blanks_elem (s : cstring) (c : ascii) :
  c ∉ s -> c ∉ strip_blanks s.
Proof.
  assert (H : forall t, drop_trailing_blanks t ⊆ t).
  { induction t as [| x t IH]; [done |]. cbn [drop_trailing_blanks].
    destruct (drop_trailing_blanks t) as [| y t'] eqn:Ht.
    - case_bool_decide; [apply list_subseteq_nil |].
      intros z Hz. apply elem_of_cons. left.
      apply list_elem_of_singleton in Hz. exact Hz.
    - intros z Hz. apply elem_of_cons in Hz as [-> | Hz];
        apply elem_of_cons; [left; reflexivity | right; apply IH; exact Hz]. }
  destruct s as [| x s]; [done |]. cbn [strip_blanks]. intros Hc Hin.
  apply Hc. apply elem_of_cons in Hin as [-> | Hin];
    apply elem_of_cons; [left; reflexivity | right; apply H; exact Hin].
Qed.

(** *** The 'filename+n' block *)







(** *** Trailing blanks *)

Lemma drop_trailing_blanks_app (t blanks : cstring) :
  Forall (fun c => c = SP) blanks ->
  drop_trailing_blanks (t ++ blanks) = drop_trailing_blanks t.
Proof.
  intros Hb. induction t as [| x t IH]; cbn [app drop_trailing_blanks].
  - induction Hb as [| c blanks Hc _ IHb]; [reflexivity |].
    cbn [drop_trailing_blanks]. rewrite IHb.
    rewrite bool_decide_eq_true_2 by exact Hc. reflexivity.
  - rewrite IH. reflexivity.
Qed.

(** A name followed by blanks loses them, if it does not itself end in a
    blank behind its first character. *)
Lemma strip_blanks_app (name blanks : cstring) :
  Forall (fun c => c = SP) blanks ->
  (name = [] -> blanks = []) ->
  ((1 < length name)%nat -> last name <> Some SP) ->
  strip_blanks (name ++ blanks) = name.
Proof.
  intros Hb Hnil Hlast. destruct name as [| x t].
  - rewrite (Hnil eq_refl). reflexivity.
  - cbn [app strip_blanks]. rewrite drop_trailing_blanks_app by exact Hb.
    destruct t as [| y t]; [reflexivity |].
    rewrite drop_trailing_blanks_id; [reflexivity |].
    rewrite <- (last_cons_cons x y t). apply Hlast. cbn. lia.
Qed.

Lemma drop_trailing_blanks_split (t : cstring) :
  exists blanks,
    t = drop_trailing_blanks t ++ blanks
    /\ Forall (fun c => c = SP) blanks
    /\ last (drop_trailing_blanks t) <> Some SP.
Proof.
  induction t as [| x t (blanks & Heq & Hb & Hl)]; cbn [drop_trailing_blanks].
  - exists []. split; [reflexivity |]. split; [constructor | discriminate].
  - destruct (drop_trailing_blanks t) as [| y t'] eqn:Hd.
    + cbn [app] in Heq. subst t. case_bool_decide as Hx.
      * exists (x :: blanks).
        split; [reflexivity |]. split; [constructor; assumption | discriminate].
      * exists blanks.
        split; [reflexivity |]. split; [exact Hb |].
        change (Some x <> Some SP). intros [= Hc]. contradiction.
    + exists blanks. rewrite Heq at 1.
      split; [reflexivity |]. split; [exact Hb |].
      rewrite last_cons_cons. exact Hl.
Qed.

(** Every text is in one way a name and the blanks that the parser drops. *)
Lemma strip_blanks_split (r : cstring) :
  exists blanks,
    r = strip_blanks r ++ blanks
    /\ Forall (fun c => c = SP) blanks
    /\ (strip_blanks r = [] -> blanks = [])
    /\ ((1 < length (strip_blanks r))%nat -> last (strip_blanks r) <> Some SP).
Proof.
  destruct r as [| x t]; cbn [strip_blanks].
  - exists []. repeat split; [constructor | cbn; lia].
  - destruct (drop_trailing_blanks_split t) as (blanks & Heq & Hb & Hl).
    exists blanks. cbn [app]. rewrite <- Heq.
    split; [reflexivity |]. split; [exact Hb |]. split; [discriminate |].
    intros Hlen. destruct (drop_trailing_blanks t) as [| y t'];
      [cbn in Hlen; lia |]. rewrite last_cons_cons. exact Hl.
Qed.

(** *** The transport prefix *)

Lemma starts_with_app (pat b : cstring) : starts_with pat (pat ++ b) = true.
Proof.
  induction pat as [| p pat IH]; [reflexivity |]. cbn [app starts_with].
  rewrite bool_decide_eq_true_2 by reflexivity. exact IH.
Qed.

Lemma starts_with_split (pat s : cstring) :
  starts_with pat s = true -> s = pat ++ drop (length pat) s.
Proof.
  revert s. induction pat as [| p pat IH]; intros s; [reflexivity |].
  destruct s as [| x s]; cbn [starts_with]; [discriminate |].
  intros H. apply andb_true_iff in H as [Hx Hrest].
  apply bool_decide_eq_true in Hx. subst x. cbn [length drop app].
  f_equal. apply IH. exact Hrest.
Qed.

(** strstr finds a text exactly when it occurs. *)
Lemma strstr_occurs (s pat : cstring) :
  occurs pat s <-> strstr s pat <> None.
Proof.
  split.
  - intros (a & b & ->). induction a as [| x a IH].
    + cbn [app]. destruct (pat ++ b) eqn:Hpb; cbn [strstr];
        rewrite <- Hpb, starts_with_app; discriminate.
    + cbn [app strstr]. destruct (starts_with pat (x :: a ++ pat ++ b));
        [discriminate |].
      destruct (strstr (a ++ pat ++ b) pat); [discriminate | contradiction].
  - induction s as [| x s IH]; cbn [strstr].
    + destruct (starts_with pat []) eqn:Hs; [| congruence].
      intros _. exists [], (drop (length pat) []).
      apply (starts_with_split _ _ Hs).
    + destruct (starts_with pat (x :: s)) eqn:Hs.
      * intros _. exists [], (drop (length pat) (x :: s)).
        apply (starts_with_split _ _ Hs).
      * destruct (strstr s pat) eqn:Hj; [| intros H; contradiction H; reflexivity].
        intros _. destruct IH as (a & b & ->); [discriminate |].
        exists (x :: a), b. reflexivity.
Qed.

Lemma strstr_not_occurs (s pat : cstring) :
  ~ occurs pat s <-> strstr s pat = None.
Proof.
  rewrite strstr_occurs. destruct (strstr s pat); split; intros H;
    first [reflexivity | discriminate | contradiction H; discriminate
          | intros H'; contradiction H'; reflexivity ].
Qed.

(** No "://" starts in front of offset k: the search stops at k. *)
Lemma strstr_first (t r : cstring) :
  ~ occurs (cstr "://") (t ++ cstr ":/") ->
  strstr (t ++ cstr "://" ++ r) (cstr "://") = Some (length t).
Proof.
  induction t as [| x t IH]; intros Hno; [reflexivity |].
  cbn [app strstr length].
  destruct (starts_with (cstr "://") (x :: t ++ cstr "://" ++ r)) eqn:Hs.
  - exfalso. apply starts_with_split in Hs. cbn [length drop] in Hs.
    destruct t as [| y [| z t]]; cbn in Hs; try discriminate Hs.
    injection Hs as -> -> ->. apply Hno.
    exists [], (t ++ cstr ":/"). reflexivity.
  - rewrite IH; [reflexivity |]. intros (a & b & Heq). apply Hno.
    exists (x :: a), b. cbn [app]. f_equal. exact Heq.
Qed.

Lemma strstr_before (s pat : cstring) : forall k a b,
  strstr s pat = Some k -> s = a ++ pat ++ b -> (k <= length a)%nat.
Proof.
  induction s as [| x s IH]; intros k a b; cbn [strstr].
  - destruct (starts_with pat []); [intros [= <-] _; lia | discriminate].
  - destruct (starts_with pat (x :: s)) eqn:Hs; [intros [= <-] _; lia |].
    destruct (strstr s pat) as [j |] eqn:Hj; [| discriminate].
    intros [= <-] Heq. destruct a as [| y a].
    + cbn [app] in Heq. rewrite Heq, starts_with_app in Hs. discriminate.
    + cbn [app length] in *. injection Heq as _ Heq.
      specialize (IH j a b eq_refl Heq). lia.
Qed.

Lemma strstr_split (s pat : cstring) : forall k,
  strstr s pat = Some k ->
  s = take k s ++ pat ++ drop (k + length pat) s.
Proof.
  induction s as [| x s IH]; intros k; cbn [strstr].
  - destruct (starts_with pat []) eqn:Hs; [| discriminate].
    intros [= <-]. apply (starts_with_split _ _ Hs).
  - destruct (starts_with pat (x :: s)) eqn:Hs.
    + intros [= <-]. apply (starts_with_split _ _ Hs).
    + destruct (strstr s pat) as [j |] eqn:Hj; [| discriminate].
      intros [= <-]. cbn [take Nat.add drop app]. f_equal.
      apply IH. reflexivity.
Qed.

Lemma strncmp0_split (s lit : cstring) :
  strncmp0 s lit (length lit) = true -> s = lit ++ drop (length lit) s.
Proof.
  unfold strncmp0. intros H. apply bool_decide_eq_true in H.
  rewrite firstn_all in H.
  rewrite <- (take_drop (length lit) s) at 1. rewrite H. reflexivity.
Qed.

Lemma strncmp0_app (lit r : cstring) :
  strncmp0 (lit ++ r) lit (length lit) = true.
Proof.
  unfold strncmp0. apply bool_decide_eq_true.
  rewrite take_app_length, firstn_all. reflexivity.
Qed.

(** The type and the rest that the code finds are those of the
    specification. *)
Lemma transport_urltype (s ut r : cstring) :
  transport s ut r -> ffiurl_urltype s = (ut, r).
Proof.
  intros H. destruct H as [r | t r Hdash Hfirst | sch r Hsch Hno | s Hdash Hno Hsch];
    unfold ffiurl_urltype.
  - rewrite bool_decide_eq_true_2 by reflexivity. reflexivity.
  - rewrite bool_decide_eq_false_2 by exact Hdash.
    rewrite (strstr_first t r Hfirst).
    change (t ++ cstr "://" ++ r) with (t ++ [chr ":"; chr "/"; chr "/"] ++ r).
    rewrite app_assoc.
    rewrite take_app_length', drop_app_length'; [reflexivity | |];
      rewrite length_app; cbn; lia.
  - assert (Hd : peek (sch ++ chr ":" :: r) <> chr "-").
    { unfold short_schemes in Hsch.
      repeat (apply elem_of_cons in Hsch as [-> | Hsch]; [cbn; discriminate |]).
      apply elem_of_nil in Hsch. contradiction. }
    rewrite bool_decide_eq_false_2 by exact Hd.
    rewrite (proj1 (strstr_not_occurs _ _) Hno).
    unfold short_schemes in Hsch.
    repeat (apply elem_of_cons in Hsch as [-> | Hsch]; [reflexivity |]).
    apply elem_of_nil in Hsch. contradiction.
  - rewrite bool_decide_eq_false_2 by exact Hdash.
    rewrite (proj1 (strstr_not_occurs _ _) Hno).
    assert (Hlit : forall sch, sch ∈ short_schemes ->
              strncmp0 s (sch ++ [chr ":"]) (length (sch ++ [chr ":"])) = false).
    { intros sch Hin. destruct (strncmp0 s _ _) eqn:Hc; [| reflexivity].
      exfalso. apply strncmp0_split in Hc.
      apply (Hsch sch (drop (length (sch ++ [chr ":"])) s) Hin).
      rewrite Hc at 1. rewrite <- app_assoc. reflexivity. }
    assert (H1 : strncmp0 s (cstr "ftp:") 4 = false)
      by (apply (Hlit (cstr "ftp")); unfold short_schemes;
          repeat (first [apply list_elem_of_here | apply list_elem_of_further])).
    assert (H2 : strncmp0 s (cstr "http:") 5 = false)
      by (apply (Hlit (cstr "http")); unfold short_schemes;
          repeat (first [apply list_elem_of_here | apply list_elem_of_further])).
    assert (H3 : strncmp0 s (cstr "mem:") 4 = false)
      by (apply (Hlit (cstr "mem")); unfold short_schemes;
          repeat (first [apply list_elem_of_here | apply list_elem_of_further])).
    assert (H4 : strncmp0 s (cstr "shmem:") 6 = false)
      by (apply (Hlit (cstr "shmem")); unfold short_schemes;
          repeat (first [apply list_elem_of_here | apply list_elem_of_further])).
    assert (H5 : strncmp0 s (cstr "file:") 5 = false)
      by (apply (Hlit (cstr "file")); unfold short_schemes;
          repeat (first [apply list_elem_of_here | apply list_elem_of_further])).
    rewrite H1, H2, H3, H4, H5. reflexivity.
Qed.

(** Every name has a transport prefix in the sense of the specification:
    the one the code finds. *)
Lemma urltype_transport (s : cstring) :
  transport s (fst (ffiurl_urltype s)) (snd (ffiurl_urltype s)).
Proof.
  unfold ffiurl_urltype. case_bool_decide as Hdash.
  { destruct s as [| x s]; [discriminate Hdash |]. cbn in Hdash. subst x.
    cbn [fst snd drop]. rewrite drop_0. apply transport_dash. }
  destruct (strstr s (cstr "://")) as [k |] eqn:Hk.
  { cbn [fst snd]. pose proof (strstr_split _ _ _ Hk) as Heq.
    change (length (cstr "://")) with 3%nat in Heq.
    assert (Hlen : (k + 3 <= length s)%nat).
    { apply (f_equal length) in Heq. rewrite !length_app, length_take in Heq.
      change (length (cstr "://")) with 3%nat in Heq. lia. }
    assert (Htake : take (k + 3) s = take k s ++ cstr "://").
    { rewrite Heq at 1.
      change (take k s ++ cstr "://" ++ drop (k + 3) s)
        with (take k s ++ [chr ":"; chr "/"; chr "/"] ++ drop (k + 3) s).
      rewrite app_assoc. apply take_app_length'.
      rewrite length_app, length_take. cbn. lia. }
    rewrite Htake.
    assert (Hs : transport (take k s ++ cstr "://" ++ drop (k + 3) s)
                   (take k s ++ cstr "://") (drop (k + 3) s)).
    { apply transport_url.
      - rewrite <- Heq. exact Hdash.
      - intros (a & b & Hocc).
        assert (Hla : (length a < k)%nat).
        { apply (f_equal length) in Hocc. rewrite !length_app, length_take in Hocc.
          change (length (cstr "://")) with 3%nat in Hocc.
          change (length (cstr ":/")) with 2%nat in Hocc. lia. }
        assert (Hin : s = a ++ cstr "://" ++ (b ++ chr "/" :: drop (k + 3) s)).
        { rewrite Heq at 1.
          change (take k s ++ cstr "://" ++ drop (k + 3) s)
            with (take k s ++ cstr ":/" ++ chr "/" :: drop (k + 3) s).
          rewrite app_assoc, Hocc. rewrite <- !app_assoc. reflexivity. }
        pose proof (strstr_before _ _ _ _ _ Hk Hin). lia. }
    rewrite <- Heq in Hs. exact Hs. }
  apply strstr_not_occurs in Hk.
  assert (Hshort : forall sch, sch ∈ short_schemes ->
            strncmp0 s (sch ++ [chr ":"]) (length (sch ++ [chr ":"])) = true ->
            transport s (sch ++ cstr "://") (drop (length (sch ++ [chr ":"])) s)).
  { intros sch Hin Hc. apply strncmp0_split in Hc.
    rewrite <- app_assoc in Hc. cbn [app] in Hc.
    rewrite Hc at 1. apply transport_short; [exact Hin |].
    rewrite <- Hc. exact Hk. }
  assert (Hin : forall sch, sch ∈ [cstr "ftp"; cstr "http"; cstr "mem";
                                    cstr "shmem"; cstr "file"] ->
            sch ∈ short_schemes) by (intros sch H; exact H).
  destruct (strncmp0 s (cstr "ftp:") 4) eqn:H1.
  { apply (Hshort (cstr "ftp")); [| exact H1].
    repeat (first [apply list_elem_of_here | apply list_elem_of_further]). }
  destruct (strncmp0 s (cstr "http:") 5) eqn:H2.
  { apply (Hshort (cstr "http")); [| exact H2].
    repeat (first [apply list_elem_of_here | apply list_elem_of_further]). }
  destruct (strncmp0 s (cstr "mem:") 4) eqn:H3.
  { apply (Hshort (cstr "mem")); [| exact H3].
    repeat (first [apply list_elem_of_here | apply list_elem_of_further]). }
  destruct (strncmp0 s (cstr "shmem:") 6) eqn:H4.
  { apply (Hshort (cstr "shmem")); [| exact H4].
    repeat (first [apply list_elem_of_here | apply list_elem_of_further]). }
  destruct (strncmp0 s (cstr "file:") 5) eqn:H5.
  { apply (Hshort (cstr "file")); [| exact H5].
    repeat (first [apply list_elem_of_here | apply list_elem_of_further]). }
  cbn [fst snd]. apply transport_none; [exact Hdash | exact Hk |].
  intros sch r Hsch ->. unfold short_schemes in Hsch.
  repeat (apply elem_of_cons in Hsch as [-> | Hsch];
          [cbn in H1, H2, H3, H4, H5; discriminate |]).
  apply elem_of_nil in Hsch. contradiction.
Qed.

(** *** Names without brackets *)

(** The parse of a name without '[' and '(' that is not empty, in terms of
    the steps of the code: the type and the text behind it, the removal of
    trailing blanks, the 'filename+n' block. *)
Lemma ffiurl_plain (K : fitsio_h) (s : cstring) (o0 : url_out) (st : Z) :
  (st <= 0)%Z -> chr "[" ∉ s -> chr "(" ∉ s -> s <> [] ->
  match ffiurl_plus (strip_blanks (snd (ffiurl_urltype s))) with
  | None => ffiurl K true s o0 st = Crash stray_store
  | Some (pe, ds, inf) =>
      exists o,
        ffiurl K true s o0 st = Done (o, st, [])
        /\ o_urltype o = put (o_urltype o0) (fst (ffiurl_urltype s))
        /\ o_infile o = put (o_infile o0) inf
        /\ o_extspec o = put (o_extspec o0) (if pe : bool then ds else [])
        /\ o_outfile o = put (o_outfile o0) []
        /\ o_rowfilter o = put (o_rowfilter o0) []
        /\ o_binspec o = put (o_binspec o0) []
        /\ o_colspec o = put (o_colspec o0) []
  end.
Proof.
  intros Hst Hb Hp Hs. unfold ffiurl.
  replace (0 <? st)%Z with false by (symmetry; apply Z.ltb_ge; lia).
  rewrite (bool_decide_eq_false_2 (length s = 0%nat))
    by (destruct s; [congruence | cbn; lia]).
  cbn [negb].
  pose proof (ffiurl_urltype_elem s _ Hb) as Hb'.
  pose proof (ffiurl_urltype_elem s _ Hp) as Hp'.
  destruct (ffiurl_urltype s) as [ut ptr1]. cbn [fst snd] in *.
  rewrite (proj2 (strchr_None ptr1 (chr "[")) Hb').
  rewrite ffiurl_names_plain by assumption.
  destruct (ffiurl_plus (strip_blanks ptr1)) as [[[pe ds] inf] |];
    [| reflexivity].
  eexists. split; [reflexivity |].
  destruct o0 as [u i o e r b c]; destruct u, i, o, e, r, b, c, pe;
    cbn; repeat split; reflexivity.
Qed.

(** A name that is empty behind its type, alone or followed by a
    bracket: the 'filename+n' block finds no '+' and no character that is
    not a digit in it, and stores in front of the block. *)
Lemma ffiurl_empty_name (K : fitsio_h) (url : cstring) (o0 : url_out)
    (st : Z) :
  (st <= 0)%Z -> url <> [] ->
  snd (ffiurl_urltype url) = []
  \/ peek (snd (ffiurl_urltype url)) = chr "[" ->
  ffiurl K true url o0 st = Crash stray_store.
Proof.
  intros Hst Hurl Htail. unfold ffiurl.
  replace (0 <? st)%Z with false by (symmetry; apply Z.ltb_ge; lia).
  rewrite (bool_decide_eq_false_2 (length url = 0%nat))
    by (destruct url; [congruence | cbn; lia]).
  cbn [negb]. destruct (ffiurl_urltype url) as [ut tail]. cbn [snd] in Htail.
  assert (Hnames : ffiurl_names tail = Some ([], [])).
  { destruct Htail as [-> | Hpeek]; [reflexivity |].
    destruct tail as [| c rest]; [discriminate Hpeek |].
    cbn in Hpeek. subst c. unfold ffiurl_names. cbn [strchr].
    rewrite bool_decide_eq_false_2 by discriminate.
    rewrite bool_decide_eq_true_2 by reflexivity.
    destruct (strchr rest (chr "(")); reflexivity. }
  rewrite Hnames. reflexivity.
Qed.




(** C3 (evaluated on the code).  A suffix of '+' and four digits stays in
    the input name and extspec stays empty, while "x.fits+3" is split into
    the name "x.fits" and the extension "3", with an empty filter. *)
Theorem plus_extension_four_digits (K : fitsio_h) :
  ffiurl K true (cstr "x.fits+1234") all_buffers 0
  = Done (plain_out (cstr "file://") (cstr "x.fits+1234") [], 0%Z, [])
  /\ ffiurl K true (cstr "x.fits+3") all_buffers 0
     = Done (plain_out (cstr "file://") (cstr "x.fits") (cstr "3"), 0%Z, []).
Proof. split; reflexivity. Qed.

(** ** Blank names *)

Lemma skip_blanks_blank (name : cstring) :
  Forall (fun c => c = SP) name -> skip_blanks name = [].
Proof.
  induction 1 as [| c name Hc _ IH]; [reflexivity |].
  cbn [skip_blanks]. rewrite bool_decide_eq_true_2 by exact Hc. exact IH.
Qed.

Lemma blank_not_elem (name : cstring) (c : ascii) :
  Forall (fun c => c = SP) name -> c <> SP -> c ∉ name.
Proof.
  intros Hall Hc Hin. rewrite Forall_forall in Hall.
  apply Hc. apply Hall. exact Hin.
Qed.

Section BlankName.

Context {F : c_double} {E : Type}.
Variables (K : fitsio_h) (X : collaborators F E) (junk : Z) (fuel : nat).

Lemma initialize_done (st : Z) (w : world E) :
  exists st1 w1, initialize X st w = Done (st1, w1).
Proof.
  unfold initialize, bind, look.
  destruct (negb (need_to_initialize w =? 0)%Z).
  - unfold call. destruct (fits_init_cfitsio X w) as [st1 w1].
    exists st1, w1. reflexivity.
  - exists st, w. reflexivity.
Qed.

(** C10.  (1) On the empty string ffiurl returns at once with status 0 and
    without a message; each of the seven receivers holds the empty string
    afterwards if it was not NULL, whatever it held before, and is NULL as
    before otherwise.  (2) A name made of blanks only is parsed without an
    error.  (3) It is ffopen that answers FILE_NOT_OPENED to a name that is
    empty once its leading blanks are skipped, after the initialisation,
    with one message and a null file pointer; (4) ffinit answers
    FILE_NOT_CREATED in the same way. *)
Theorem blank_name_rejected_by_open_and_create
    (ok : bool) (o : url_out) (name : cstring) (fptr0 : option nat)
    (mode st st1 : Z) (w w1 : world E) :
  (let emptied (p q : option cstring) :=
     match p with Some _ => q = Some [] | None => q = None end in
   exists o',
     ffiurl K ok [] o 0 = Done (o', 0%Z, [])
     /\ emptied (o_urltype o) (o_urltype o')
     /\ emptied (o_infile o) (o_infile o')
     /\ emptied (o_outfile o) (o_outfile o')
     /\ emptied (o_extspec o) (o_extspec o')
     /\ emptied (o_rowfilter o) (o_rowfilter o')
     /\ emptied (o_binspec o) (o_binspec o')
     /\ emptied (o_colspec o) (o_colspec o'))
  /\ (Forall (fun c => c = SP) name -> (st <= 0)%Z ->
      (exists o', ffiurl K true name all_buffers st = Done (o', st, []))
      /\ (initialize X st w = Done (st1, w1) -> (st1 <= 0)%Z ->
          ffopen K X junk fuel fptr0 name mode st w
          = Done ((None, FILE_NOT_OPENED K),
                  with_ext w1
                    (ffpmsg X (cstr "Name of file to open is blank. (ffopen)")
                       (ext w1)))
          /\ ffinit K X fptr0 name st w
             = Done ((None, FILE_NOT_CREATED K),
                     with_ext w1
                       (ffpmsg X (cstr "Name of file to create is blank. (ffinit)")
                          (ext w1))))).
Proof.
  split.
  { eexists. split; [reflexivity |].
    destruct o as [u i ou e r b c]; destruct u, i, ou, e, r, b, c;
      cbn; repeat split; reflexivity. }
  intros Hblank Hst. split.
  - destruct name as [| c name]; [eexists; unfold ffiurl;
      replace (0 <? st)%Z with false by (symmetry; apply Z.ltb_ge; lia);
      reflexivity |].
    assert (Hc : c = SP) by (inversion Hblank; assumption).
    assert (Hrest : Forall (fun c => c = SP) name)
      by (inversion Hblank; assumption).
    subst c.
    assert (Hb : chr "[" ∉ SP :: name)
      by (apply blank_not_elem; [exact Hblank | discriminate]).
    assert (Hp : chr "(" ∉ SP :: name)
      by (apply blank_not_elem; [exact Hblank | discriminate]).
    assert (Hcolon : chr ":" ∉ SP :: name)
      by (apply blank_not_elem; [exact Hblank | discriminate]).
    assert (Hs : SP :: name <> []) by discriminate.
    pose proof (ffiurl_plain K (SP :: name) all_buffers st Hst Hb Hp Hs) as Hrun.
    rewrite (ffiurl_urltype_file _ Hcolon) in Hrun by discriminate.
    cbn [snd fst] in Hrun.
    change (SP :: name) with ([SP] ++ name) in Hrun at 1.
    rewrite (strip_blanks_app [SP] name Hrest) in Hrun.
    2:{ discriminate. }
    2:{ cbn. lia. }
    change (ffiurl_plus [SP]) with (Some (false, @nil ascii, [SP])) in Hrun.
    destruct Hrun as (o' & Hrun & _). exists o'. exact Hrun.
  - intros Hinit Hst1.
    assert (Hneg : (0 <? st)%Z = false) by (apply Z.ltb_ge; lia).
    assert (Hneg1 : (0 <? st1)%Z = false) by (apply Z.ltb_ge; lia).
    split.
    + unfold ffopen. rewrite Hneg. unfold bind at 1.
      rewrite Hinit, Hneg1, (skip_blanks_blank name Hblank). reflexivity.
    + unfold ffinit. rewrite Hneg. unfold bind at 1.
      rewrite Hinit, Hneg1, (skip_blanks_blank name Hblank). reflexivity.
Qed.

End BlankName.

Lemma blank_name_rejected_by_open_and_create_witness :
  let o0 := {| o_urltype := Some (cstr "file://"); o_infile := Some (cstr "a");
               o_outfile := None; o_extspec := Some (cstr "2");
               o_rowfilter := Some (cstr "x>5"); o_binspec := None;
               o_colspec := Some (cstr "col y") |} in
  Forall (fun c => c = SP) (cstr "  ") /\ (0 <= 0)%Z
  /\ initialize (sample_X sample_double) 0 sample_start
     = Done (0%Z, sample_ready)
  /\ ffiurl released_h true [] o0 0
     = Done ({| o_urltype := Some []; o_infile := Some [];
                o_outfile := None; o_extspec := Some [];
                o_rowfilter := Some []; o_binspec := None;
                o_colspec := Some [] |}, 0%Z, [])
  /\ ffopen released_h (sample_X sample_double) 0 8 None (cstr "  ") 0 0
       sample_start
     = Done ((None, FILE_NOT_OPENED released_h),
             with_ext sample_ready
               [cstr "Name of file to open is blank. (ffopen)"])
  /\ ffinit released_h (sample_X sample_double) None (cstr "  ") 0 sample_start
     = Done ((None, FILE_NOT_CREATED released_h),
             with_ext sample_ready
               [cstr "Name of file to create is blank. (ffinit)"]).
Proof.
  intros o0.
  assert (Hblank : Forall (fun c => c = SP) (cstr "  "))
    by (repeat constructor).
  assert (H0 : (0 <= 0)%Z) by lia.
  assert (Hinit : initialize (sample_X sample_double) 0 sample_start
                  = Done (0%Z, sample_ready)) by reflexivity.
  destruct (blank_name_rejected_by_open_and_create released_h
              (sample_X sample_double) 0 8 true o0 (cstr "  ") None
              0 0 0 sample_start sample_ready) as (Hnil & Hrest).
  destruct Hnil as (o' & Hrun & H1 & H2 & H3 & H4 & H5 & H6 & H7).
  destruct (Hrest Hblank H0) as (_ & Hopen).
  destruct (Hopen Hinit H0) as (Ho & Hc).
  repeat (split; [assumption |]).
  split; [| split; [exact Ho | exact Hc]].
  rewrite Hrun. destruct o'. cbn in H1, H2, H3, H4, H5, H6, H7. subst.
  reflexivity.
Defined.

(** ** The binning specifier *)

(** C5 (evaluated on the code).  For "bin 4" the minimum and maximum of the
    first axis hold DOUBLENULLVALUE when the special case is tested, and the
    test compares them with FLOATNULLVALUE.  Where the two constants are not
    equal as doubles the test fails: haxis is 1, and binsize[1] is still
    undefined. *)
Theorem bin_single_number_one_axis (K : fitsio_h) (F : c_double) (junk : Z)
    (b0 : bin_out F) :
  deq F (DOUBLENULLVALUE F) (FLOATNULLVALUE F) = false ->
  exists b,
    ffbins K F junk (cstr "bin 4") b0 0 = Done (b, 0%Z, [])
    /\ haxis F b = 1%Z
    /\ colname F b !! 0%nat = Some []
    /\ binsizein F b !! 0%nat = Some (strtod F (cstr "4"))
    /\ binsizein F b !! 1%nat = Some (DOUBLENULLVALUE F).
Proof.
  destruct F as [D0 strtod0 one0 DN FN deq0].
  cbn [deq DOUBLENULLVALUE FLOATNULLVALUE strtod].
  intros Hne. eexists. split.
  - vm_compute. rewrite Hne. reflexivity.
  - repeat split; reflexivity.
Qed.

Lemma bin_single_number_one_axis_witness :
  deq sample_double (DOUBLENULLVALUE sample_double)
    (FLOATNULLVALUE sample_double) = false
  /\ exists b,
       ffbins released_h sample_double 0 (cstr "bin 4")
         (ffbins_defaults released_h sample_double) 0 = Done (b, 0%Z, [])
       /\ haxis sample_double b = 1%Z
       /\ colname sample_double b !! 0%nat = Some []
       /\ binsizein sample_double b !! 0%nat = Some (cstr "4")
       /\ binsizein sample_double b !! 1%nat = Some (cstr "DOUBLENULLVALUE").
Proof.
  split; [reflexivity |].
  apply (bin_single_number_one_axis released_h sample_double 0).
  reflexivity.
Defined.

(** Where the two constants are equal as doubles, the special case applies:
    two axes with the one bin size. *)
Lemma bin_single_number_two_axes (K : fitsio_h) (F : c_double) (junk : Z)
    (b0 : bin_out F) :
  deq F (DOUBLENULLVALUE F) (FLOATNULLVALUE F) = true ->
  exists b,
    ffbins K F junk (cstr "bin 4") b0 0 = Done (b, 0%Z, [])
    /\ haxis F b = 2%Z
    /\ binsizein F b !! 0%nat = Some (strtod F (cstr "4"))
    /\ binsizein F b !! 1%nat = Some (strtod F (cstr "4")).
Proof.
  destruct F as [D0 strtod0 one0 DN FN deq0].
  cbn [deq DOUBLENULLVALUE FLOATNULLVALUE strtod].
  intros Heq. eexists. split.
  - vm_compute. rewrite Heq. reflexivity.
  - repeat split; reflexivity.
Qed.

(** The weight clause in general: a '/' in front of the weight ends in the
    store through the null pointer, and without it the flag is not written. *)
Lemma getweight_reciprocal (K : fitsio_h) (F : c_double) (junk : Z)
    (binspec rest : cstring) (b : bin_out F) (st : Z) :
  peek (skip_blanks rest) = chr "/" ->
  ffbins_getweight K F junk binspec (chr ";" :: rest) b st = Crash null_store.
Proof.
  intros Hslash. unfold ffbins_getweight. cbn [peek hd drop].
  rewrite bool_decide_eq_true_2 by reflexivity.
  rewrite bool_decide_eq_true_2 by exact Hslash. reflexivity.
Qed.

Lemma getweight_keeps_recip (K : fitsio_h) (F : c_double) (junk : Z)
    (binspec ptr : cstring) (b b' : bin_out F) (st st' : Z)
    (msgs : list cstring) :
  ffbins_getweight K F junk binspec ptr b st = Done (b', st', msgs) ->
  recip F b' = recip F b.
Proof.
  unfold ffbins_getweight. intros H.
  repeat case_match; try discriminate; inversion H; subst; reflexivity.
Qed.

(** C6 (evaluated on the code).  In the weight clause the assignment
    [recip = 0] makes the parameter a null pointer, so that a '/' in front of
    the weight ends in a store through it: the flag of the caller is never
    set to 1.  Without '/' the flag keeps the 0 of the defaults, a numeric
    token becomes the weight and any other token the name. *)
Theorem bin_weight_reciprocal (K : fitsio_h) (F : c_double) (junk : Z)
    (b0 : bin_out F) :
  ffbins K F junk (cstr "bin x;/w") b0 0 = Crash null_store
  /\ ffbins K F junk (cstr "bin x; /2.5") b0 0 = Crash null_store
  /\ (exists b,
        ffbins K F junk (cstr "bin x;w") b0 0 = Done (b, 0%Z, [])
        /\ recip F b = 0%Z /\ wtname F b = cstr "w" /\ weight F b = d_one F)
  /\ (exists b,
        ffbins K F junk (cstr "bin x;2.5") b0 0 = Done (b, 0%Z, [])
        /\ recip F b = 0%Z /\ wtname F b = []
        /\ weight F b = strtod F (cstr "2.5")).
Proof.
  split; [reflexivity |]. split; [reflexivity |].
  split; eexists; (split; [reflexivity | repeat split; reflexivity]).
Qed.

(** ** The extension that a name selects *)

Lemma isdigit_plain (c : ascii) :
  isdigit c = true ->
  isspace c = false /\ c <> SP /\ c <> chr "-" /\ c <> chr "+".
Proof.
  destruct c as [[] [] [] [] [] [] [] []]; cbn; intros H;
    try discriminate H; repeat split; discriminate.
Qed.

Lemma sscanf_d_digits (s : cstring) :
  isdigit (peek s) = true -> sscanf_d s = Some (digits_val 0 s).
Proof.
  destruct s as [| c s]; [discriminate |]. cbn [peek hd]. intros Hc.
  destruct (isdigit_plain c Hc) as (Hsp & _ & Hm & Hp).
  unfold sscanf_d. cbn [skip_space]. rewrite Hsp.
  rewrite (bool_decide_eq_false_2 _ Hm), (bool_decide_eq_false_2 _ Hp).
  cbn [peek hd]. rewrite Hc. reflexivity.
Qed.

Lemma digits_val_nonneg (s : cstring) : forall acc,
  (0 <= acc)%Z -> (0 <= digits_val acc s)%Z.
Proof.
  induction s as [| c s IH]; intros acc Hacc; cbn [digits_val]; [exact Hacc |].
  destruct (isdigit c) eqn:Hc; [| exact Hacc]. apply IH.
  assert (0 <= digit_val c)%Z.
  { unfold digit_val. unfold isdigit in Hc. apply andb_true_iff in Hc as [Hlo _].
    apply Nat.leb_le in Hlo. lia. }
  lia.
Qed.

(** ffexts on a specifier that starts with a digit. *)
Lemma ffexts_number (K : fitsio_h) (extspec : cstring) (st : Z) :
  (st <= 0)%Z -> isdigit (peek extspec) = true ->
  (digits_val 0 extspec <= 9999)%Z ->
  ffexts K extspec st
  = ((digits_val 0 extspec, [], 0%Z, ANY_HDU K), st, []).
Proof.
  intros Hst Hd Hmax. unfold ffexts.
  replace (0 <? st)%Z with false by (symmetry; apply Z.ltb_ge; lia).
  destruct extspec as [| c s]; [discriminate |]. cbn [peek hd] in Hd.
  destruct (isdigit_plain c Hd) as (_ & Hsp & _).
  cbn [skip_blanks]. rewrite (bool_decide_eq_false_2 _ Hsp).
  cbn [peek hd]. rewrite Hd.
  rewrite sscanf_d_digits by exact Hd. cbn [from_option]. unfold id.
  pose proof (digits_val_nonneg (c :: s) 0 ltac:(lia)) as H0.
  replace (digits_val 0 (c :: s) <? 0)%Z with false
    by (symmetry; apply Z.ltb_ge; lia).
  replace (9999 <? digits_val 0 (c :: s))%Z with false
    by (symmetry; apply Z.ltb_ge; lia).
  reflexivity.
Qed.

(** The status of ffexts is the one that came in or URL_PARSE_ERROR. *)
Lemma ffexts_status (K : fitsio_h) (extspec : cstring) (st : Z) :
  snd (fst (ffexts K extspec st)) = st
  \/ snd (fst (ffexts K extspec st)) = URL_PARSE_ERROR K.
Proof.
  unfold ffexts.
  repeat match goal with
         | |- context [if ?b then _ else _] => destruct b
         | |- context [match ?o with Some _ => _ | None => _ end] => destruct o
         end; cbn [fst snd]; auto.
Qed.

Section Extn.

Context {F : c_double} {E : Type}.
Variables (K : fitsio_h) (X : collaborators F E) (junk : Z) (fuel : nat).

Lemma pmsgs_done (msgs : list cstring) : forall w : world E,
  exists w', pmsgs X msgs w = Done (tt, w').
Proof.
  induction msgs as [| m msgs IH]; intros w; cbn [pmsgs].
  - exists w. reflexivity.
  - unfold bind, pmsg. apply IH.
Qed.

Lemma ffiurl_nil (ok : bool) (o : url_out) (st : Z) :
  ffiurl K ok [] o st = ffiurl K true [] o st.
Proof. unfold ffiurl. destruct (0 <? st)%Z; reflexivity. Qed.

(** The step of the program that runs ffiurl returns what ffiurl returns
    when the allocation has the outcome that the world holds ready. *)
Lemma ffiurl_step_done (url : cstring) (o0 o : url_out) (st st' : Z)
    (msgs : list cstring) (w : world E) :
  (st <= 0)%Z ->
  ffiurl K (hd true (alloc w)) url o0 st = Done (o, st', msgs) ->
  exists w', ffiurl_step K X url o0 st w = Done ((o, st'), w').
Proof.
  intros Hst Hrun. unfold ffiurl_step.
  replace (st <=? 0)%Z with true by (symmetry; apply Z.leb_le; lia).
  cbn [andb]. case_bool_decide as Hlen; cbn [negb]; unfold bind.
  - destruct url; [| discriminate Hlen]. rewrite ffiurl_nil in Hrun.
    unfold ret at 1. rewrite Hrun.
    destruct (pmsgs_done msgs w) as [w' Hw']. rewrite Hw'.
    exists w'. reflexivity.
  - unfold next_alloc. rewrite Hrun.
    destruct (pmsgs_done msgs (with_alloc w (tl (alloc w)))) as [w' Hw'].
    rewrite Hw'. exists w'. reflexivity.
Qed.

(** The cases of ffextn, in terms of what ffiurl has put in the receivers
    [o] when it has parsed the URL without an error.  (1) With a binning
    specifier the extension number is 1.  (2) Without one, and with an
    extension specifier that is a number n of at most 9999, it is n + 1.
    (3) Without one, and with an extension specifier that names an
    extension, a URL of type stdin:// gives URL_PARSE_ERROR.  (4) Without
    either specifier the result is -99.  In (1), (2) and (4) the status is
    the one that came in. *)
Lemma ffextn_cases (url : cstring) (ext0 st st' : Z) (w : world E)
    (o : url_out) (msgs : list cstring) :
  (st <= 0)%Z ->
  ffiurl K (hd true (alloc w)) url all_buffers st = Done (o, st', msgs) ->
  (st' <= 0)%Z ->
  let extspec := buf (o_extspec o) in
  let extname := snd (fst (fst (fst (fst (ffexts K extspec st'))))) in
  (buf (o_binspec o) <> [] ->
   exists w', ffextn K X junk fuel url ext0 st w = Done ((1%Z, st'), w'))
  /\ (buf (o_binspec o) = [] ->
      isdigit (peek extspec) = true -> (digits_val 0 extspec <= 9999)%Z ->
      exists w',
        ffextn K X junk fuel url ext0 st w
        = Done ((digits_val 0 extspec + 1, st')%Z, w'))
  /\ (buf (o_binspec o) = [] -> extspec <> [] -> extname <> [] ->
      buf (o_urltype o) = cstr "stdin://" ->
      exists w',
        ffextn K X junk fuel url ext0 st w
        = Done ((ext0, URL_PARSE_ERROR K), w'))
  /\ (buf (o_binspec o) = [] -> extspec = [] ->
      exists w', ffextn K X junk fuel url ext0 st w = Done ((-99, st')%Z, w')).
Proof.
  intros Hst Hrun Hst' extspec extname.
  destruct (ffiurl_step_done url all_buffers o st st' msgs w Hst Hrun)
    as [w1 Hstep].
  assert (Hneg : (0 <? st)%Z = false) by (apply Z.ltb_ge; lia).
  assert (Hneg' : (0 <? st')%Z = false) by (apply Z.ltb_ge; lia).
  split; [| split; [| split]];
    unfold ffextn; rewrite Hneg; unfold bind at 1; rewrite Hstep, Hneg'.
  - intros Hbin. rewrite bool_decide_eq_false_2 by exact Hbin.
    exists w1. reflexivity.
  - intros Hbin Hd Hmax. rewrite bool_decide_eq_true_2 by exact Hbin.
    cbn [negb]. fold extspec.
    rewrite bool_decide_eq_false_2.
    2:{ intros Hnil. rewrite Hnil in Hd. discriminate Hd. }
    cbn [negb]. rewrite (ffexts_number K extspec st' Hst' Hd Hmax).
    unfold bind. cbn [pmsgs]. unfold ret at 1. rewrite Hneg'.
    rewrite bool_decide_eq_true_2 by reflexivity. exists w1. reflexivity.
  - intros Hbin Hext Hname Htype. rewrite bool_decide_eq_true_2 by exact Hbin.
    cbn [negb]. fold extspec. rewrite bool_decide_eq_false_2 by exact Hext.
    cbn [negb]. subst extname.
    pose proof (ffexts_status K extspec st') as Hstatus.
    destruct (ffexts K extspec st') as [[[[[extnum name] extvers] hdutype] st2] msgs2].
    cbn [fst snd] in *. unfold bind.
    destruct (pmsgs_done msgs2 w1) as [w2 Hw2]. rewrite Hw2.
    destruct (0 <? st2)%Z eqn:Hpos.
    + destruct Hstatus as [-> | ->]; [congruence |]. exists w2. reflexivity.
    + rewrite bool_decide_eq_false_2 by exact Hname. cbn [negb].
      unfold strcmp0. rewrite bool_decide_eq_true_2 by exact Htype.
      exists w2. reflexivity.
  - intros Hbin Hext. rewrite bool_decide_eq_true_2 by exact Hbin.
    cbn [negb]. fold extspec. rewrite bool_decide_eq_true_2 by exact Hext.
    exists w1. reflexivity.
Qed.

(** C7.  The standard input is named by "-" or by "stdin://" with nothing
    behind it.  For such a URL, alone or followed by a bracket as in
    "-[EVENTS]", "stdin://[EVENTS]" and "-[2]", ffextn does not return
    URL_PARSE_ERROR, nor 3 for "-[2]", nor -99 for "-": the input name is
    empty, and ffiurl stores in front of its block before it looks at the
    bracket. *)
Theorem ffextn_stdin_without_name (url tail : cstring) (ext0 st : Z)
    (w : world E) :
  (st <= 0)%Z -> hd true (alloc w) = true ->
  url = chr "-" :: tail \/ url = cstr "stdin://" ++ tail ->
  tail = [] \/ peek tail = chr "[" ->
  ffextn K X junk fuel url ext0 st w = Crash stray_store.
Proof.
  intros Hst Hok Hurl Htail.
  assert (Hparse : ffiurl K true url all_buffers st = Crash stray_store).
  { apply ffiurl_empty_name; [exact Hst | |].
    - destruct Hurl as [-> | ->]; discriminate.
    - assert (Htype : ffiurl_urltype url = (cstr "stdin://", tail)).
      { apply transport_urltype. destruct Hurl as [-> | ->].
        - apply transport_dash.
        - apply (transport_url (cstr "stdin") tail); [discriminate |].
          apply strstr_not_occurs. reflexivity. }
      rewrite Htype. exact Htail. }
  unfold ffextn.
  replace (0 <? st)%Z with false by (symmetry; apply Z.ltb_ge; lia).
  unfold bind at 1. unfold ffiurl_step.
  replace (st <=? 0)%Z with true by (symmetry; apply Z.leb_le; lia).
  rewrite (bool_decide_eq_false_2 (length url = 0%nat))
    by (destruct Hurl as [-> | ->]; discriminate).
  cbn [andb negb]. unfold bind at 1, next_alloc.
  rewrite Hok, Hparse. reflexivity.
Qed.

End Extn.

Lemma ffextn_cases_witness :
  let X := sample_X sample_double in
  (exists w', ffextn released_h X 0 8 (cstr "data.fits[1][bin x]") 0 0
                sample_start = Done ((1%Z, 0%Z), w'))
  /\ (exists w', ffextn released_h X 0 8 (cstr "data.fits+12") 0 0
                   sample_start = Done ((13%Z, 0%Z), w'))
  /\ (exists w', ffextn released_h X 0 8 (cstr "-x[EVENTS]") 5 0
                   sample_start
                 = Done ((5%Z, URL_PARSE_ERROR released_h), w'))
  /\ (exists w', ffextn released_h X 0 8 (cstr "data.fits") 0 0
                   sample_start = Done ((-99)%Z, 0%Z, w')).
Proof.
  intros X.
  assert (H0 : (0 <= 0)%Z) by lia.
  split; [| split; [| split]].
  - eapply (ffextn_cases released_h X 0 8 (cstr "data.fits[1][bin x]") 0 0 0
              sample_start _ _ H0 eq_refl H0).
    discriminate.
  - eapply (ffextn_cases released_h X 0 8 (cstr "data.fits+12") 0 0 0
              sample_start _ _ H0 eq_refl H0);
      [reflexivity | reflexivity | vm_compute; discriminate].
  - eapply (ffextn_cases released_h X 0 8 (cstr "-x[EVENTS]") 5 0 0
              sample_start _ _ H0 eq_refl H0);
      [reflexivity | discriminate | discriminate | reflexivity].
  - eapply (ffextn_cases released_h X 0 8 (cstr "data.fits") 0 0 0
              sample_start _ _ H0 eq_refl H0); reflexivity.
Defined.

Lemma ffextn_stdin_without_name_witness :
  let X := sample_X sample_double in
  ffextn released_h X 0 8 (cstr "-[EVENTS]") 0 0 sample_start
  = Crash stray_store
  /\ ffextn released_h X 0 8 (cstr "stdin://[EVENTS]") 0 0 sample_start
     = Crash stray_store
  /\ ffextn released_h X 0 8 (cstr "-[2]") 0 0 sample_start
     = Crash stray_store
  /\ ffextn released_h X 0 8 (cstr "-") 0 0 sample_start
     = Crash stray_store.
Proof.
  intros X.
  assert (H0 : (0 <= 0)%Z) by lia.
  split; [| split; [| split]].
  - apply (ffextn_stdin_without_name released_h X 0 8 (cstr "-[EVENTS]")
             (cstr "[EVENTS]") 0 0 sample_start H0 eq_refl);
      [left; reflexivity | right; reflexivity].
  - apply (ffextn_stdin_without_name released_h X 0 8 (cstr "stdin://[EVENTS]")
             (cstr "[EVENTS]") 0 0 sample_start H0 eq_refl);
      [right; reflexivity | right; reflexivity].
  - apply (ffextn_stdin_without_name released_h X 0 8 (cstr "-[2]")
             (cstr "[2]") 0 0 sample_start H0 eq_refl);
      [left; reflexivity | right; reflexivity].
  - apply (ffextn_stdin_without_name released_h X 0 8 (cstr "-")
             [] 0 0 sample_start H0 eq_refl);
      [left; reflexivity | left; reflexivity].
Defined.

(** ** The status on entry *)




(** ** The number of users of a FITSfile *)

(** C1 (evaluated on the code).  ffinit makes no store to open_count, unlike
    ffopen: a FITSfile that it sets up has the 0 that calloc left.  So the
    file that ffopen returns for a name with a row filter, which is the
    memory file that ffselect_table has created with ffinit, has open_count 0
    after this one successful open.  ffclos on it returns 0 with open_count
    now -1: no driver close is called for it, the structures are not freed
    and validcode is not reset.  The same holds for a file that is created
    and closed. *)
Theorem open_count_of_created_file :
  let X := sample_X sample_double in
  (exists h a w1 w2 f1 f2,
     ffopen released_h X 0 8 None (cstr "t.fits[1][x>5]") 0 0 sample_start
     = Done ((Some h, 0%Z), w1)
     /\ handle_at w1 h
        = Some {| live := true;
                  content := {| HDUposition := 0; Fptr := Some a |} |}
     /\ file_at w1 a = Some {| live := true; content := f1 |}
     /\ filename f1 = Some (cstr "mem://") /\ validcode f1 = VALIDSTRUC released_h
     /\ open_count f1 = 0%Z
     /\ ffclos released_h X (Some h) 0 w1 = Done (0%Z, w2)
     /\ file_at w2 a = Some {| live := true; content := f2 |}
     /\ open_count f2 = (-1)%Z /\ validcode f2 = VALIDSTRUC released_h
     /\ filename f2 = Some (cstr "mem://")
     /\ live <$> handle_at w2 h = Some true
     /\ closed w2 = closed w1)
  /\ (exists h a w1 w2 f1 f2,
        ffinit released_h X None (cstr "new.fits") 0 sample_start
        = Done ((Some h, 0%Z), w1)
        /\ handle_at w1 h
           = Some {| live := true;
                     content := {| HDUposition := 0; Fptr := Some a |} |}
        /\ file_at w1 a = Some {| live := true; content := f1 |}
        /\ open_count f1 = 0%Z
        /\ ffclos released_h X (Some h) 0 w1 = Done (0%Z, w2)
        /\ file_at w2 a = Some {| live := true; content := f2 |}
        /\ open_count f2 = (-1)%Z
        /\ closed w1 = [] /\ closed w2 = []).
Proof.
  cbn zeta. split.
  - do 6 eexists. split; [vm_compute; reflexivity |].
    split; [vm_compute; reflexivity |].
    split; [vm_compute; reflexivity |].
    repeat (split; [reflexivity |]).
    split; [vm_compute; reflexivity |].
    split; [vm_compute; reflexivity |].
    repeat (split; [reflexivity |]). reflexivity.
  - do 6 eexists. split; [vm_compute; reflexivity |].
    split; [vm_compute; reflexivity |].
    split; [vm_compute; reflexivity |].
    repeat (split; [reflexivity |]).
    split; [vm_compute; reflexivity |].
    split; [vm_compute; reflexivity |].
    repeat (split; [reflexivity |]). reflexivity.
Qed.

(** ** What holds of the count for files that ffopen itself sets up *)

Section Counting.

Context {F : c_double} {E : Type}.
Variables (K : fitsio_h) (X : collaborators F E).

Implicit Types (w : world E) (f : FITSfile) (b : block FITSfile).

Lemma file_of_live w (h a : nat) f (hp : Z) :
  handle_at w h = Some (alive {| HDUposition := hp; Fptr := Some a |}) ->
  file_at w a = Some (alive f) ->
  file_of h w = Done ((a, f), w).
Proof.
  unfold handle_at, file_at, file_of, bind, load_handle, load_file.
  intros -> . cbn. intros ->. reflexivity.
Qed.

(** ffreopen on a handle of a valid FITSfile: a new fitsfile on the same
    FITSfile, whose open_count is one more; nothing is closed. *)
Lemma ffreopen_counts w (h0 a : nat) f (hp : Z) (nf : option nat) (st : Z) :
  (st <= 0)%Z -> hd true (alloc w) = true ->
  handle_at w h0 = Some (alive {| HDUposition := hp; Fptr := Some a |}) ->
  file_at w a = Some (alive f) ->
  validcode f = VALIDSTRUC K ->
  exists w',
    ffreopen K (Some h0) nf st w = Done ((Some (length (handles w)), st), w')
    /\ handle_at w' (length (handles w))
       = Some (alive {| HDUposition := 0; Fptr := Some a |})
    /\ file_at w' a = Some (alive (set_open_count f (open_count f + 1)))
    /\ closed w' = closed w
    /\ driverTable w' = driverTable w
    /\ (forall h', (h' < length (handles w))%nat ->
                   handle_at w' h' = handle_at w h')
    /\ (forall a', a' <> a -> file_at w' a' = file_at w a').
Proof.
  intros Hst Halloc Hh Ha Hvalid.
  assert (Hlt : (h0 < length (handles w))%nat).
  { apply (lookup_lt_Some _ _ _ Hh). }
  assert (Halt : (a < length (files w))%nat).
  { apply (lookup_lt_Some _ _ _ Ha). }
  set (h := length (handles w)).
  set (w1 := with_handles (with_alloc w (tl (alloc w)))
               (handles w ++ [alive zero_fitsfile])).
  set (w2 := with_handles w1
               (<[h := alive {| HDUposition := 0; Fptr := Some a |}]>
                  (handles w1))).
  assert (Hh1 : handle_at w1 h0
                = Some (alive {| HDUposition := hp; Fptr := Some a |})).
  { unfold handle_at, w1. cbn. rewrite lookup_app_l by exact Hlt. exact Hh. }
  assert (Hh2 : handle_at w2 h
                = Some (alive {| HDUposition := 0; Fptr := Some a |})).
  { unfold handle_at, w2. cbn. apply list_lookup_insert_eq.
    rewrite length_app. cbn. subst h. lia. }
  exists (with_files w2
            (<[a := alive (set_open_count f (open_count f + 1))]> (files w2))).
  split.
  - unfold ffreopen.
    replace (0 <? st)%Z with false by (symmetry; apply Z.ltb_ge; lia).
    unfold bind at 1. rewrite (file_of_live w h0 a f hp Hh Ha).
    rewrite Hvalid, Z.eqb_refl. cbn [negb].
    unfold bind at 1. unfold calloc_fitsfile, bind at 1, next_alloc.
    rewrite Halloc.
    change (handles (with_alloc w (tail (alloc w)))) with (handles w).
    change (with_handles (with_alloc w (tail (alloc w)))
              (handles w ++ [{| live := true; content := zero_fitsfile |}]))
      with w1.
    fold h.
    unfold bind at 1. rewrite (file_of_live w1 h0 a f hp Hh1 Ha).
    unfold bind at 1, store_handle.
    change (with_handles w1
              (<[h:={| live := true;
                       content := {| HDUposition := 0; Fptr := Some a |} |}]>
                 (handles w1))) with w2.
    unfold bind at 1. rewrite (file_of_live w2 h a f 0 Hh2 Ha).
    reflexivity.
  - split; [exact Hh2 |]. split.
    { unfold file_at. cbn. apply list_lookup_insert_eq. exact Halt. }
    split; [reflexivity |]. split; [reflexivity |]. split.
    + intros h' Hh'. unfold handle_at. cbn.
      rewrite list_lookup_insert_ne by (subst h; lia).
      apply lookup_app_l. exact Hh'.
    + intros a' Hne. unfold file_at. cbn.
      apply list_lookup_insert_ne. congruence.
Qed.

Lemma keeps_lookup (g : world E -> Z * world E) w (a : nat) f :
  keeps_files g -> file_at w a = Some (alive f) ->
  exists f1,
    file_at (snd (g w)) a = Some (alive f1)
    /\ open_count f1 = open_count f /\ validcode f1 = validcode f
    /\ driver f1 = driver f /\ filehandle f1 = filehandle f
    /\ filename f1 = filename f.
Proof.
  intros Hk Ha. destruct (Hk w) as (_ & _ & _ & Hfiles).
  apply (f_equal (fun l => l !! a)) in Hfiles.
  rewrite !list_lookup_fmap in Hfiles. unfold file_at in *.
  rewrite Ha in Hfiles. cbn in Hfiles.
  destruct (files (snd (g w)) !! a) as [[l1 f1] |]; [| discriminate Hfiles].
  cbn in Hfiles. injection Hfiles as -> Hc Hv Hd Hf Hn.
  exists f1. repeat split; assumption.
Qed.

(** The state in which ffclos takes its decision: after the two
    collaborators, with the count decremented. *)
Lemma ffclos_decrement w (h a : nat) f (hp st : Z) :
  keeps_files (ffchdu X h st) ->
  (forall st1, keeps_files (ffflsh X h 1 st1)) ->
  handle_at w h = Some (alive {| HDUposition := hp; Fptr := Some a |}) ->
  file_at w a = Some (alive f) ->
  validcode f = VALIDSTRUC K ->
  exists st2 w2 f2,
    open_count f2 = (open_count f - 1)%Z /\ validcode f2 = validcode f
    /\ driver f2 = driver f /\ filehandle f2 = filehandle f
    /\ filename f2 = filename f
    /\ driverTable w2 = driverTable w /\ closed w2 = closed w
    /\ handles w2 = handles w /\ (a < length (files w2))%nat
    /\ ffclos K X (Some h) st w
       = (if (open_count f2 =? 0)%Z then
            bind (driver_close (driver f2) (filehandle f2))
              (fun rc =>
                 bind (if negb (rc =? 0)%Z && (st2 <=? 0)%Z then
                         bind (pmsg X (cstr "failed to close the following file: (ffclos)"))
                           (fun _ => bind (pmsg X (buf (filename f2)))
                                       (fun _ => ret (FILE_NOT_CLOSED K)))
                       else ret st2)
                   (fun status =>
                      bind (store_file a (poison f2))
                        (fun _ => bind (free_file a)
                                    (fun _ => bind (free_handle h)
                                                (fun _ => ret status)))))
          else ret st2)
           (with_files w2 (<[a := alive f2]> (files w2))).
Proof.
  intros Hk1 Hk2 Hh Ha Hvalid.
  destruct (ffchdu X h st w) as [st1 w1] eqn:Hc1.
  destruct (ffflsh X h 1 st1 w1) as [st2 w2] eqn:Hc2.
  destruct (keeps_lookup _ w a f Hk1 Ha) as (f1 & Ha1 & Hc & Hv & Hd & Hf & Hn).
  destruct (Hk1 w) as (Ht1 & Hcl1 & Hh1 & _).
  rewrite Hc1 in Ha1, Ht1, Hcl1, Hh1. cbn [snd] in *.
  destruct (keeps_lookup _ w1 a f1 (Hk2 st1) Ha1)
    as (f2 & Ha2 & Hc' & Hv' & Hd' & Hf' & Hn').
  destruct (Hk2 st1 w1) as (Ht2 & Hcl2 & Hh2 & _).
  rewrite Hc2 in Ha2, Ht2, Hcl2, Hh2. cbn [snd] in *.
  exists st2, w2, (set_open_count f2 (open_count f2 - 1)).
  cbn [set_open_count open_count validcode driver filehandle filename].
  repeat split; try congruence.
  - apply (lookup_lt_Some _ _ _ Ha2).
  - unfold ffclos. unfold bind at 1.
    rewrite (file_of_live w h a f hp Hh Ha), Hvalid, Z.eqb_refl. cbn [negb].
    unfold bind at 1, call at 1. rewrite Hc1.
    unfold bind at 1, call at 1. rewrite Hc2.
    assert (Hh' : handle_at w2 h
                  = Some (alive {| HDUposition := hp; Fptr := Some a |})).
    { unfold handle_at in *. congruence. }
    unfold bind at 1. rewrite (file_of_live w2 h a f2 hp Hh' Ha2).
    unfold bind at 1, store_file at 1. reflexivity.
Qed.

(** A close that leaves other users: the count goes down by one, the
    driver's close is not called, nothing is freed and validcode stays. *)
Lemma ffclos_counts_down w (h a : nat) f (hp st : Z) :
  keeps_files (ffchdu X h st) ->
  (forall st1, keeps_files (ffflsh X h 1 st1)) ->
  handle_at w h = Some (alive {| HDUposition := hp; Fptr := Some a |}) ->
  file_at w a = Some (alive f) ->
  validcode f = VALIDSTRUC K ->
  open_count f <> 1%Z ->
  exists st' w' f',
    ffclos K X (Some h) st w = Done (st', w')
    /\ file_at w' a = Some (alive f')
    /\ open_count f' = (open_count f - 1)%Z
    /\ validcode f' = VALIDSTRUC K /\ filename f' = filename f
    /\ closed w' = closed w /\ handles w' = handles w.
Proof.
  intros Hk1 Hk2 Hh Ha Hvalid Hcount.
  destruct (ffclos_decrement w h a f hp st Hk1 Hk2 Hh Ha Hvalid)
    as (st2 & w2 & f2 & Hc & Hv & _ & _ & Hn & _ & Hcl & Hhs & Hlen & Hrun).
  rewrite Hrun.
  replace (open_count f2 =? 0)%Z with false
    by (symmetry; apply Z.eqb_neq; lia).
  eexists _, _, f2. split; [reflexivity |].
  split; [unfold file_at; cbn; apply list_lookup_insert_eq; exact Hlen |].
  repeat split; try assumption; congruence.
Qed.

(** The close by the last user: the driver's close is called once, on the
    handle of the file; the name is given up, validcode is reset and both
    structures are freed. *)
Lemma ffclos_last w (h a : nat) f (hp st : Z) (e : fitsdriver E)
    (cl : Z -> E -> Z * E) :
  keeps_files (ffchdu X h st) ->
  (forall st1, keeps_files (ffflsh X h 1 st1)) ->
  handle_at w h = Some (alive {| HDUposition := hp; Fptr := Some a |}) ->
  file_at w a = Some (alive f) ->
  validcode f = VALIDSTRUC K ->
  open_count f = 1%Z ->
  (0 <= driver f < MAX_DRIVERS)%Z ->
  driverTable w !! Z.to_nat (driver f) = Some e ->
  d_close e = Some cl ->
  exists st' w' f',
    ffclos K X (Some h) st w = Done (st', w')
    /\ closed w' = (driver f, filehandle f) :: closed w
    /\ file_at w' a = Some {| live := false; content := f' |}
    /\ open_count f' = 0%Z /\ validcode f' = 0%Z /\ filename f' = None
    /\ live <$> handle_at w' h = Some false.
Proof.
  intros Hk1 Hk2 Hh Ha Hvalid Hcount Hrange Hentry Hclose.
  destruct (ffclos_decrement w h a f hp st Hk1 Hk2 Hh Ha Hvalid)
    as (st2 & w2 & f2 & Hc & Hv & Hd & Hf & Hn & Ht & Hcl & Hhs & Hlen & Hrun).
  rewrite Hrun.
  replace (open_count f2 =? 0)%Z with true by (symmetry; apply Z.eqb_eq; lia).
  set (w3 := with_files w2 (<[a := alive f2]> (files w2))).
  assert (Hlook : handles w2 !! h
                  = Some (alive {| HDUposition := hp; Fptr := Some a |})).
  { rewrite Hhs. exact Hh. }
  unfold bind at 1, driver_close, bind at 1, driver_entry.
  rewrite Hd.
  replace ((0 <=? driver f)%Z && (driver f <? MAX_DRIVERS)%Z) with true
    by (symmetry; apply andb_true_intro;
        split; [apply Z.leb_le | apply Z.ltb_lt]; lia).
  change (driverTable w3) with (driverTable w2). rewrite Ht, Hentry, Hclose.
  unfold bind at 1, drive. destruct (cl (filehandle f2) (ext w3)) as [rc e'].
  unfold bind at 1.
  set (w4 := with_closed (with_ext w3 e') _).
  assert (Hstatus : exists st' w5,
    (if negb (rc =? 0)%Z && (st2 <=? 0)%Z then
       bind (pmsg X (cstr "failed to close the following file: (ffclos)"))
         (fun _ => bind (pmsg X (buf (filename f2)))
                     (fun _ => ret (FILE_NOT_CLOSED K)))
     else ret st2) w4 = Done (st', w5)
    /\ files w5 = files w4 /\ handles w5 = handles w4
    /\ closed w5 = closed w4).
  { destruct (negb (rc =? 0)%Z && (st2 <=? 0)%Z).
    - eexists _, _. split; [reflexivity |]. repeat split.
    - eexists _, _. split; [reflexivity |]. repeat split. }
  destruct Hstatus as (st' & w5 & Hs & Hfiles5 & Hhandles5 & Hclosed5).
  rewrite Hs. unfold bind at 1, store_file at 1.
  unfold bind at 1, free_file at 1. cbn [files with_files].
  rewrite list_lookup_insert_eq
    by (rewrite Hfiles5; cbn; rewrite length_insert; exact Hlen).
  unfold bind at 1, free_handle at 1.
  cbn [handles with_files with_handles content].
  rewrite Hhandles5. cbn [handles w4 with_closed with_ext w3 with_files].
  rewrite Hlook.
  eexists _, _, (poison f2). split; [reflexivity |].
  cbn [closed with_handles with_files poison open_count validcode filename].
  split; [rewrite Hclosed5; cbn; congruence |].
  split.
  { unfold file_at. cbn. apply list_lookup_insert_eq.
    rewrite length_insert, Hfiles5. cbn. rewrite length_insert. exact Hlen. }
  split; [lia |]. split; [reflexivity |]. split; [reflexivity |].
  unfold handle_at. cbn. rewrite list_lookup_insert_eq; [reflexivity |].
  apply (lookup_lt_Some _ _ _ Hlook).
Qed.

(** *** Files set up by ffinit *)

Lemma pmsgs_world (msgs : list cstring) : forall w,
  exists e, pmsgs X msgs w = Done (tt, with_ext w e).
Proof.
  induction msgs as [| m msgs IH]; intros w; cbn [pmsgs].
  - exists (ext w). destruct w; reflexivity.
  - unfold bind, pmsg. destruct (IH (with_ext w (ffpmsg X m (ext w)))) as [e He].
    exists e. rewrite He. reflexivity.
Qed.

(** The allocations, when they succeed: a fitsfile that points to a
    FITSfile full of zeros. *)
Lemma allocate_done w w' (d fh : Z) (url m1 m2 : cstring) (st : Z)
    (h a : nat) :
  allocate K X d fh url m1 m2 st w = Done (inr (h, a), w') ->
  handle_at w' h = Some (alive {| HDUposition := 0; Fptr := Some a |})
  /\ file_at w' a = Some (alive zero_FITSfile).
Proof.
  unfold allocate, calloc_fitsfile, calloc_FITSfile, next_alloc, bind,
    store_handle, ret.
  destruct (hd true (alloc w)).
  2:{ destruct (driver_close d fh _) as [[rc w1] |]; [| discriminate].
      destruct (pmsgs_world [m1; url] w1) as [e ->]. discriminate. }
  cbn [alloc with_alloc with_handles tl].
  destruct (hd true (tail (alloc w))).
  2:{ destruct (driver_close d fh _) as [[rc w1] |]; [| discriminate].
      destruct (pmsgs_world [m1; url] w1) as [e ->].
      destruct (free_handle _ _) as [[u w2] |]; discriminate. }
  cbn [alloc with_alloc with_handles with_files tl handles files].
  destruct (hd true (tail (tail (alloc w)))).
  2:{ destruct (driver_close d fh _) as [[rc w1] |]; [| discriminate].
      destruct (pmsgs_world [m2; url] w1) as [e ->].
      destruct (free_file _ _) as [[u w2] |]; [| discriminate].
      destruct (free_handle _ _) as [[u' w3] |]; discriminate. }
  intros [= <- <- <-]. unfold handle_at, file_at. cbn. split.
  - apply list_lookup_insert_eq. rewrite length_app. cbn. lia.
  - apply list_lookup_middle. reflexivity.
Qed.

(** A file that ffinit has set up has the open_count that calloc gave it,
    zero, whatever the drivers and the collaborators do, as long as ffldrc
    leaves the structures alone. *)
Lemma ffinit_leaves_count w w' (fptr0 : option nat) (name : cstring)
    (st st' : Z) (h : nat) :
  (forall hh r m s, keeps_files (ffldrc X hh r m s)) ->
  (st <= 0)%Z ->
  ffinit K X fptr0 name st w = Done ((Some h, st'), w') ->
  exists a f,
    handle_at w' h = Some (alive {| HDUposition := 0; Fptr := Some a |})
    /\ file_at w' a = Some (alive f)
    /\ open_count f = 0%Z /\ validcode f = VALIDSTRUC K.
Proof.
  intros Hk Hst. unfold ffinit.
  replace (0 <? st)%Z with false by (symmetry; apply Z.ltb_ge; lia).
  unfold bind at 1.
  destruct (initialize X st w) as [[st1 w1] |]; [| discriminate].
  destruct (0 <? st1)%Z; [discriminate |].
  case_bool_decide; [unfold bind, pmsg, ret; discriminate |].
  set (url := if bool_decide (peek (skip_blanks name) = chr "!")
              then drop 1 (skip_blanks name) else skip_blanks name).
  destruct (ffourl url [] [] st1) as [[urltype outfile] st2].
  destruct (0 <? st2)%Z.
  { unfold bind at 1. destruct (pmsgs_world
      [cstr "could not parse the output filename: (ffinit)"; url] w1) as [e ->].
    discriminate. }
  unfold bind at 1, look at 1.
  destruct (urltype2driver K urltype 0 w1) as [st3 d].
  destruct (negb (st3 =? 0)%Z).
  { unfold bind at 1. destruct (pmsgs_world
      [cstr "could not find driver for this file: (ffinit)"; url] w1) as [e ->].
    discriminate. }
  unfold bind at 1.
  destruct (driver_entry d w1) as [[en w2] |]; [| discriminate].
  unfold bind at 1.
  destruct ((if bool_decide (peek (skip_blanks name) = chr "!")
             then match d_remove en with
                  | Some f => bind (drive (f outfile)) (fun _ => ret ())
                  | None => ret ()
                  end
             else ret ()) w2) as [[u w3] |]; [| discriminate].
  destruct (d_create en) as [cr |].
  2:{ unfold bind at 1. destruct (pmsgs_world
        [cstr "cannot create a new file of this type: (ffinit)"; url] w3)
        as [e ->]. discriminate. }
  unfold bind at 1, drive at 1.
  destruct (cr outfile (ext w3)) as [[st4 fh] e4].
  destruct (negb (st4 =? 0)%Z).
  { unfold bind at 1. destruct (pmsgs_world
      [cstr "failed to create the following file: (ffinit)"; url]
      (with_ext w3 e4)) as [e ->]. discriminate. }
  unfold bind at 1.
  destruct (allocate K X d fh url _ _ _ (with_ext w3 e4))
    as [[[st5 | [h5 a5]] w5] |] eqn:Halloc; [discriminate | | discriminate].
  destruct (allocate_done _ _ _ _ _ _ _ _ _ _ Halloc) as (Hh5 & Ha5).
  unfold bind at 1, load_file at 1. unfold file_at in Ha5. rewrite Ha5.
  cbn [live alive content].
  unfold bind at 1, store_file at 1.
  unfold bind at 1, call at 1.
  set (f6 := {| filehandle := fh; driver := d; filename := Some url;
                filesize := 0; logfilesize := 0; writemode := 1;
                datastart := DATA_UNDEFINED K; curbuf := -1;
                open_count := open_count zero_FITSfile;
                validcode := VALIDSTRUC K |}).
  set (w6 := with_files w5 _).
  destruct (ffldrc X h5 0 (IGNORE_EOF K) st4 w6) as [st7 w7] eqn:Hld.
  intros [= <- <- <-].
  assert (Ha6 : file_at w6 a5 = Some (alive f6)).
  { unfold file_at, w6. cbn. apply list_lookup_insert_eq.
    apply (lookup_lt_Some _ _ _ Ha5). }
  destruct (keeps_lookup _ w6 a5 f6 (Hk h5 0%Z (IGNORE_EOF K) st4) Ha6)
    as (f7 & Ha7 & Hc & Hv & _).
  destruct (Hk h5 0%Z (IGNORE_EOF K) st4 w6) as (_ & _ & Hh7 & _).
  rewrite Hld in Ha7, Hh7. cbn [snd] in *.
  exists a5, f7. split.
  - unfold handle_at in *. rewrite Hh7. exact Hh5.
  - split; [exact Ha7 |]. split; [rewrite Hc; reflexivity | rewrite Hv; reflexivity].
Qed.

(** *** Files set up and found again by ffopen *)

(** A file that the driver has opened for ffopen starts with open_count 1. *)
Lemma ffopen_fresh_counts w w' (url : cstring) (mode : Z) (o : url_out)
    (st : Z) (h : nat) :
  (forall hh r m s, keeps_files (ffldrc X hh r m s)) ->
  (forall hh s, keeps_files (ffrhdu X hh s)) ->
  ffopen_fresh K X url mode o st w = Done (inr h, w') ->
  exists a f,
    handle_at w' h = Some (alive {| HDUposition := 0; Fptr := Some a |})
    /\ file_at w' a = Some (alive f)
    /\ open_count f = 1%Z /\ validcode f = VALIDSTRUC K.
Proof.
  intros Hk1 Hk2. unfold ffopen_fresh.
  unfold bind at 1, look at 1.
  destruct (urltype2driver K (buf (o_urltype o)) 0 w) as [st1 d].
  destruct (0 <? st1)%Z.
  { unfold bind at 1. destruct (pmsgs_world
      [cstr "could not find driver for this file: (ffopen)"; url] w) as [e ->].
    discriminate. }
  unfold bind at 1.
  destruct (driver_entry d w) as [[en w1] |]; [| discriminate].
  unfold bind at 1.
  match goal with
  | |- match ?m w1 with _ => _ end = _ -> _ =>
      destruct (m w1) as [[[st2 | [[d2 infile] st2]] w2] |];
        [discriminate | | discriminate]
  end.
  unfold bind at 1.
  destruct (driver_entry d2 w2) as [[en2 w3] |]; [| discriminate].
  destruct (d_open en2) as [opn |].
  2:{ unfold bind at 1. destruct (pmsgs_world
        [cstr "cannot open an existing file of this type: (ffopen)"; url] w3)
        as [e ->]. discriminate. }
  unfold bind at 1, drive at 1.
  destruct (opn infile mode (ext w3)) as [[st4 fh] e4].
  destruct (0 <? st4)%Z.
  { unfold bind at 1. destruct (pmsgs_world
      [cstr "failed to find or open the following file: (ffopen)"; url]
      (with_ext w3 e4)) as [e ->]. discriminate. }
  destruct (d_size en2) as [sz |]; [| discriminate].
  unfold bind at 1, drive at 1. cbn [ext with_ext].
  destruct (sz fh e4) as [[st5 fsize] e5].
  destruct (0 <? st5)%Z.
  { unfold bind at 1.
    destruct (driver_close d2 fh _) as [[rc w4] |]; [| discriminate].
    unfold bind at 1. destruct (pmsgs_world
      [cstr "failed get the size of the following file: (ffopen)"; url] w4)
      as [e ->]. discriminate. }
  unfold bind at 1.
  destruct (allocate K X d2 fh url _ _ _ _)
    as [[[st6 | [h6 a6]] w6] |] eqn:Halloc; [discriminate | | discriminate].
  destruct (allocate_done _ _ _ _ _ _ _ _ _ _ Halloc) as (Hh6 & Ha6).
  unfold bind at 1, store_file at 1.
  unfold bind at 1, call at 1.
  set (f7 := {| filehandle := fh; driver := d2; filename := Some url;
                filesize := fsize; logfilesize := fsize; writemode := mode;
                datastart := DATA_UNDEFINED K; curbuf := -1;
                open_count := 1; validcode := VALIDSTRUC K |}).
  set (w7 := with_files w6 _).
  destruct (ffldrc X h6 0 (REPORT_EOF K) st5 w7) as [st8 w8] eqn:Hld.
  unfold bind at 1, call at 1.
  destruct (ffrhdu X h6 st8 w8) as [st9 w9] eqn:Hrh.
  destruct (0 <? st9)%Z.
  { unfold bind at 1. destruct (pmsgs_world
      [cstr "ffopen could not interpret primary array header of file: (ffopen)";
       url] w9) as [e ->].
    unfold bind at 1.
    match goal with
    | |- match ?m ?ww with _ => _ end = _ -> _ =>
        destruct (m ww) as [[u w10] |]; [| discriminate]
    end.
    unfold bind at 1.
    destruct (ffclos K X (Some h6) st9 w10) as [[st11 w11] |]; discriminate. }
  intros [= <- <-].
  assert (Ha7 : file_at w7 a6 = Some (alive f7)).
  { unfold file_at, w7. cbn. apply list_lookup_insert_eq.
    apply (lookup_lt_Some _ _ _ Ha6). }
  destruct (keeps_lookup _ w7 a6 f7 (Hk1 h6 0%Z (REPORT_EOF K) st5) Ha7)
    as (f8 & Ha8 & Hc8 & Hv8 & _).
  destruct (Hk1 h6 0%Z (REPORT_EOF K) st5 w7) as (_ & _ & Hh8 & _).
  rewrite Hld in Ha8, Hh8. cbn [snd] in *.
  destruct (keeps_lookup _ w8 a6 f8 (Hk2 h6 st8) Ha8)
    as (f9 & Ha9 & Hc9 & Hv9 & _).
  destruct (Hk2 h6 st8 w8) as (_ & _ & Hh9 & _).
  rewrite Hrh in Ha9, Hh9. cbn [snd] in *.
  exists a6, f9. split.
  - unfold handle_at in *. rewrite Hh9, Hh8. exact Hh6.
  - split; [exact Ha9 |]. split; [rewrite Hc9, Hc8; reflexivity |].
    rewrite Hv9, Hv8. reflexivity.
Qed.

Lemma ffiurl_step_world w w1 (url : cstring) (o0 o : url_out) (st st1 : Z) :
  ffiurl_step K X url o0 st w = Done ((o, st1), w1) ->
  files w1 = files w /\ handles w1 = handles w /\ closed w1 = closed w.
Proof.
  unfold ffiurl_step. unfold bind at 1.
  destruct ((if (st <=? 0)%Z && negb (bool_decide (length url = 0%nat))
             then next_alloc else ret true) w) as [[ok w0] |] eqn:Hok;
    [| discriminate].
  assert (H0 : files w0 = files w /\ handles w0 = handles w
               /\ closed w0 = closed w).
  { destruct ((st <=? 0)%Z && negb (bool_decide (length url = 0%nat)));
      unfold next_alloc, ret in Hok; inversion Hok; repeat split. }
  destruct (ffiurl K ok url o0 st) as [[[o' st'] msgs] | ?]; [| discriminate].
  unfold bind at 1. destruct (pmsgs_world msgs w0) as [e ->].
  intros [= <- <- <-]. exact H0.
Qed.

(** When ffopen finds the file open already, the new fitsfile points to the
    FITSfile that was found, whose open_count is one more; nothing is
    closed, and no other FITSfile changes. *)
Lemma ffopen_reuse_counts (n : nat) : forall (ii : Z) (url : cstring)
    (o : url_out) (st st' : Z) w w' (h : nat) (extspec : cstring),
  ffopen_reuse K X n ii url o st w = Done (reuse_found h extspec st', w') ->
  exists a f,
    file_at w a = Some (alive f)
    /\ handle_at w' h = Some (alive {| HDUposition := 0; Fptr := Some a |})
    /\ file_at w' a = Some (alive (set_open_count f (open_count f + 1)))
    /\ closed w' = closed w
    /\ (forall a', a' <> a -> file_at w' a' = file_at w a').
Proof.
  induction n as [| n IH]; intros ii url o st st' w w' h extspec;
    cbn [ffopen_reuse]; [discriminate |].
  unfold bind at 1, look at 1.
  destruct (ffcurbuf X ii w) as [a |]; [| apply IH].
  unfold bind at 1, load_file at 1.
  destruct (files w !! a) as [[l f] |] eqn:Ha; [| discriminate].
  destruct l; [| discriminate]. cbn [live content].
  destruct (filename f) as [oldname |]; [| unfold crash; discriminate].
  unfold bind at 1.
  destruct (ffiurl_step K X oldname all_buffers st w) as [[[old st1] w1] |]
    eqn:Hstep; [| discriminate].
  destruct (ffiurl_step_world _ _ _ _ _ _ _ Hstep) as (Hf1 & Hh1 & Hc1).
  assert (Hback : forall P : Prop,
    (exists a0 f0,
       file_at w1 a0 = Some (alive f0)
       /\ handle_at w' h = Some (alive {| HDUposition := 0; Fptr := Some a0 |})
       /\ file_at w' a0 = Some (alive (set_open_count f0 (open_count f0 + 1)))
       /\ closed w' = closed w1
       /\ (forall a', a' <> a0 -> file_at w' a' = file_at w1 a')) ->
    exists a0 f0,
       file_at w a0 = Some (alive f0)
       /\ handle_at w' h = Some (alive {| HDUposition := 0; Fptr := Some a0 |})
       /\ file_at w' a0 = Some (alive (set_open_count f0 (open_count f0 + 1)))
       /\ closed w' = closed w
       /\ (forall a', a' <> a0 -> file_at w' a' = file_at w a')).
  { intros _ (a0 & f0 & H1 & H2 & H3 & H4 & H5). exists a0, f0.
    unfold file_at in *. rewrite Hf1 in H1, H5. rewrite Hc1 in H4. auto. }
  destruct (0 <? st1)%Z.
  { unfold bind at 1. destruct (pmsgs_world
      [cstr "could not parse the previously opened filename: (ffopen)"; oldname]
      w1) as [e ->]. discriminate. }
  match goal with
  | |- (if ?c then _ else _) w1 = _ -> _ => destruct c
  end; [| intros Hrest; apply (Hback True); eapply IH; exact Hrest].
  match goal with
  | |- (if ?c then _ else _) w1 = _ -> _ => destruct c
  end; [| intros Hrest; apply (Hback True); eapply IH; exact Hrest].
  unfold bind at 1, calloc_fitsfile, bind at 1, next_alloc.
  destruct (hd true (alloc w1)).
  2:{ unfold ret at 1. unfold bind at 1. destruct (pmsgs_world
        [cstr "failed to allocate structure for following file: (ffopen)"; url]
        (with_alloc w1 (tail (alloc w1)))) as [e ->]. discriminate. }
  unfold bind at 1, store_handle at 1.
  cbn [handles with_handles with_alloc].
  set (hn := length (handles w1)).
  set (w2 := with_handles _ _).
  assert (Hh2 : handle_at w2 hn
                = Some (alive {| HDUposition := 0; Fptr := Some a |})).
  { unfold handle_at, w2. cbn. apply list_lookup_insert_eq.
    rewrite length_app. cbn. subst hn. lia. }
  assert (Ha2 : file_at w2 a = Some (alive f)).
  { unfold file_at, w2. cbn. rewrite Hf1. exact Ha. }
  unfold bind at 1. rewrite (file_of_live w2 hn a f 0 Hh2 Ha2).
  unfold bind at 1, store_file at 1. intros [= <- _ _ <-].
  exists a, f. split; [exact Ha |]. split; [exact Hh2 |]. split.
  { unfold file_at. cbn. apply list_lookup_insert_eq. rewrite Hf1.
    apply (lookup_lt_Some _ _ _ Ha). }
  split; [cbn; exact Hc1 |].
  intros a' Hne. unfold file_at. cbn. rewrite Hf1.
  apply list_lookup_insert_ne. congruence.
Qed.

End Counting.

(** * Further properties of the code *)

(** ** The registry: bounds and long prefixes *)

Section RegistryBounds.

Context {E : Type}.
Variable K : fitsio_h.

Implicit Types (w : world E) (d : fitsdriver E) (p : cstring).

(** A scan does not see the entries at or behind its starting point. *)
Lemma scan_insert_ge (table : list (fitsdriver E)) urltype (e : fitsdriver E)
    (n m : nat) :
  (n <= m)%nat ->
  urltype2driver_scan (<[m := e]> table) urltype n
  = urltype2driver_scan table urltype n.
Proof.
  intros Hnm. induction n as [| n IH]; cbn [urltype2driver_scan]; [reflexivity |].
  rewrite list_lookup_insert_ne by lia. rewrite IH by lia. reflexivity.
Qed.

(** X1.  While the number of drivers is between 0 and 14 and the table has
    its 15 entries, a call of fits_register_driver returns: it never indexes
    the table outside its bounds.  Afterwards the number is the same or one
    more and still at most 14, the table still has 15 entries, the entries in
    front of the old number are what they were, and neither the files nor the
    record of closes have changed.  The number grows exactly when the entry
    at the old number has been written. *)
Theorem register_driver_keeps_bounds w (q : option cstring) d :
  (0 <= no_of_drivers w <= 14)%Z ->
  length (driverTable w) = Z.to_nat MAX_DRIVERS ->
  exists st w',
    register_as K q d w = Done (st, w')
    /\ (0 <= no_of_drivers w' <= 14)%Z
    /\ length (driverTable w') = Z.to_nat MAX_DRIVERS
    /\ (forall j, (j < Z.to_nat (no_of_drivers w))%nat ->
          driverTable w' !! j = driverTable w !! j)
    /\ files w' = files w /\ handles w' = handles w /\ closed w' = closed w
    /\ ((no_of_drivers w' = no_of_drivers w /\ driverTable w' = driverTable w)
        \/ (st = 0%Z /\ no_of_drivers w' = (no_of_drivers w + 1)%Z
            /\ exists p, q = Some p
               /\ driverTable w' !! Z.to_nat (no_of_drivers w)
                  = Some (entry_of p d))).
Proof.
  intros Hn Hlen.
  destruct (decide (no_of_drivers w = 14%Z)) as [H14 | H14].
  { exists (TOO_MANY_DRIVERS K), w. rewrite register_as_full by exact H14.
    repeat split; try lia; try reflexivity. left. split; reflexivity. }
  unfold register_as, fits_register_driver, bind, look, ret, entry_of.
  destruct (Z.eqb_spec (no_of_drivers w + 1) MAX_DRIVERS) as [Heq | _].
  { unfold MAX_DRIVERS in Heq. lia. }
  destruct q as [p |].
  2:{ exists (BAD_URL_PREFIX K), w.
      repeat split; try lia; try reflexivity. left. split; reflexivity. }
  assert (Hroom : forall w0 : world E, no_of_drivers w0 = no_of_drivers w ->
            (0 <=? no_of_drivers w)%Z && (no_of_drivers w <? MAX_DRIVERS)%Z = true).
  { intros _ _. apply andb_true_intro. unfold MAX_DRIVERS.
    split; [apply Z.leb_le | apply Z.ltb_lt]; lia. }
  destruct (d_init d) as [f |]; unfold drive.
  - destruct (f (ext w)) as [st e].
    destruct (Z.eqb_spec st 0) as [-> | Hst]; cbn [negb].
    + rewrite (Hroom w eq_refl). eexists _, _. split; [reflexivity |].
      cbn. rewrite length_insert.
      repeat split; try lia.
      * intros j Hj. apply list_lookup_insert_ne. lia.
      * right. repeat split. exists p. split; [reflexivity |].
        apply list_lookup_insert_eq. unfold MAX_DRIVERS in Hlen. lia.
    + eexists _, _. split; [reflexivity |]. cbn.
      repeat split; try lia. left. split; reflexivity.
  - cbn [negb Z.eqb]. rewrite (Hroom w eq_refl).
    eexists _, _. split; [reflexivity |].
    cbn. rewrite length_insert.
    repeat split; try lia.
    + intros j Hj. apply list_lookup_insert_ne. lia.
    + right. repeat split. exists p. split; [reflexivity |].
      apply list_lookup_insert_eq. unfold MAX_DRIVERS in Hlen. lia.
Qed.

(** X2.  The table keeps the first 19 characters of a prefix.  After a
    registration that succeeded, the lookup of those 19 characters gives the
    new entry; the lookup of a prefix of 20 characters or more gives what it
    gave before the registration, so that a driver registered under such a
    prefix cannot be reached by it. *)
Theorem long_prefix_is_cut w w' p d (driver0 : Z) :
  (0 <= no_of_drivers w < 14)%Z ->
  length (driverTable w) = Z.to_nat MAX_DRIVERS ->
  register_as K (Some p) d w = Done (0%Z, w') ->
  urltype2driver K (take (MAX_PREFIX_LEN - 1) p) driver0 w'
  = (0%Z, no_of_drivers w)
  /\ ((MAX_PREFIX_LEN <= length p)%nat ->
      urltype2driver K p driver0 w' = urltype2driver K p driver0 w).
Proof.
  intros Hn Hlen Hreg.
  destruct (register_as_done K w w' p d Hn Hreg) as (Hn' & Ht' & _).
  assert (Hlt : (Z.to_nat (no_of_drivers w) < length (driverTable w))%nat).
  { unfold MAX_DRIVERS in Hlen. lia. }
  unfold urltype2driver. rewrite Hn', Ht'.
  replace (Z.to_nat (no_of_drivers w + 1)) with (S (Z.to_nat (no_of_drivers w)))
    by lia.
  split.
  - rewrite scan_last.
    + f_equal. lia.
    + rewrite list_lookup_insert_eq by exact Hlt. reflexivity.
  - intros Hlong. cbn [urltype2driver_scan].
    rewrite list_lookup_insert_eq by exact Hlt. cbn [fmap option_fmap option_map default from_option entry_of d_prefix].
    unfold strcmp0. rewrite bool_decide_eq_false_2.
    + rewrite scan_insert_ge by lia. reflexivity.
    + intros Heq. apply (f_equal length) in Heq. cbn in Heq. rewrite length_take in Heq.
      unfold MAX_PREFIX_LEN in *. lia.
Qed.

End RegistryBounds.

Lemma register_driver_keeps_bounds_witness :
  exists st w',
    register_as released_h (Some (cstr "x://")) sample_driver sample_ready
    = Done (st, w')
    /\ (0 <= no_of_drivers w' <= 14)%Z.
Proof.
  destruct (register_driver_keeps_bounds released_h sample_ready
              (Some (cstr "x://")) sample_driver) as (st & w' & H & Hb & _).
  - vm_compute. split; discriminate.
  - reflexivity.
  - exists st, w'. split; [exact H | exact Hb].
Defined.

Lemma long_prefix_is_cut_witness :
  let p := cstr "averyveryverylongprefix://" in
  let w' := final (register_as released_h (Some p) sample_driver sample_ready)
              sample_ready in
  urltype2driver released_h (cstr "averyveryverylongpr") 0 w' = (0%Z, 2%Z)
  /\ urltype2driver released_h p 0 w' = (124%Z, 0%Z).
Proof.
  intros p w'.
  destruct (long_prefix_is_cut released_h sample_ready w' p sample_driver 0)
    as (H1 & H2).
  - vm_compute. split; [discriminate | reflexivity].
  - reflexivity.
  - reflexivity.
  - split; [exact H1 |]. rewrite H2; [reflexivity | vm_compute; lia].
Defined.

(** ** The root of a name and the parser of input names *)

(** What the search for the filters leaves alone. *)
Lemma ffiurl_filters_keeps (K : fitsio_h) (o o' : url_out) (rf : cstring)
    (st st' : Z) (msgs : list cstring) :
  ffiurl_filters K o rf st = Done (o', st', msgs) ->
  o_urltype o' = o_urltype o /\ o_infile o' = o_infile o
  /\ o_outfile o' = o_outfile o /\ o_extspec o' = o_extspec o.
Proof.
  unfold ffiurl_filters. intros H.
  repeat case_match; simplify_eq; cbn; auto.
Qed.

(** The first half of ffiurl: the type and the input name that it hands
    back, whatever follows the name. *)
Lemma ffiurl_front (K : fitsio_h) (url : cstring) (o0 o : url_out)
    (st st' : Z) (msgs : list cstring) :
  (st <= 0)%Z -> url <> [] ->
  ffiurl K true url o0 st = Done (o, st', msgs) ->
  o_urltype o = put (o_urltype o0) (fst (ffiurl_urltype url))
  /\ match ffiurl_names (snd (ffiurl_urltype url)) with
     | None => st' = URL_PARSE_ERROR K /\ o_infile o = put (o_infile o0) []
     | Some (infile, _) =>
         exists pe ds inf,
           ffiurl_plus (strip_blanks infile) = Some (pe, ds, inf)
           /\ o_infile o = put (o_infile o0) inf
     end.
Proof.
  intros Hst Hurl. unfold ffiurl.
  replace (0 <? st)%Z with false by (symmetry; apply Z.ltb_ge; lia).
  rewrite bool_decide_eq_false_2
    by (intros Hl; apply Hurl; destruct url; [reflexivity | discriminate]).
  cbn [negb]. destruct (ffiurl_urltype url) as [ut ptr1]. cbn [fst snd].
  destruct (ffiurl_names ptr1) as [[infile out] |].
  2:{ intros [= <- <- <-]. cbn. destruct o0 as [a b c d e f g].
      cbn. destruct a, b; auto. }
  destruct (ffiurl_plus (strip_blanks infile)) as [[[pe digits] infile'] |];
    [| discriminate].
  assert (Hput : forall (p : option cstring) (s t : cstring),
            put (put p s) t = put p t) by (intros [x |] s t; reflexivity).
  destruct (strchr ptr1 (chr "[")) as [p3 |].
  2:{ intros [= <- <- <-]. destruct o0 as [a b c d e f g], pe; cbn;
      rewrite !Hput; (split; [reflexivity |]);
      eexists _, digits, infile'; split; reflexivity. }
  intros H.
  repeat case_match; simplify_eq;
    try (apply ffiurl_filters_keeps in H; destruct H as (-> & -> & _));
    destruct o0 as [a b c d e f g]; cbn; rewrite ?Hput;
    (split; [reflexivity |]);
      eexists _, digits, infile'; split; reflexivity.
Qed.





(** X4.  A name that is nothing but a run of fewer than four digits, the
    empty name among them, makes ffrtnm store a NUL in front of its local
    array [infile]: no '+' is found, the index is -1, and the test that
    should limit the extension number lets it through. *)
Theorem ffrtnm_short_number (K : fitsio_h) (s r : cstring) (st : Z) :
  (st <= 0)%Z -> forallb isdigit s = true -> (length s < 4)%nat ->
  ffrtnm K s r st = Crash stray_store.
Proof.
  intros Hst Hdig Hlen. unfold ffrtnm.
  replace (0 <? st)%Z with false by (symmetry; apply Z.ltb_ge; lia).
  assert (Hno : forall c, isdigit c = false -> c ∉ s).
  { intros c Hc Hin. rewrite forallb_forall in Hdig.
    apply list_elem_of_In in Hin. rewrite (Hdig c Hin) in Hc. discriminate. }
  assert (Htype : ffrtnm_urltype s = ([], s)).
  { unfold ffrtnm_urltype.
    rewrite bool_decide_eq_false_2.
    2:{ destruct s as [| c s']; [discriminate |]. cbn. intros ->.
        cbn in Hdig. discriminate. }
    rewrite (strstr_None s (cstr "://") (chr ":")).
    2:{ vm_compute. apply list_elem_of_here. }
    2:{ apply Hno. reflexivity. }
    assert (Hpre : forall lit n, chr ":" ∈ take n lit -> strncmp0 s lit n = false).
    { intros lit n Hin. destruct (strncmp0 s lit n) eqn:Hc; [| reflexivity].
      exfalso. apply (Hno (chr ":")); [reflexivity |].
      apply (strncmp0_elem s lit n); assumption. }
    rewrite !Hpre; [reflexivity | | | | |]; vm_compute;
      repeat (first [apply list_elem_of_here | apply list_elem_of_further]). }
  rewrite Htype.
  rewrite ffiurl_names_plain by (apply Hno; reflexivity).
  assert (Hstrip : strip_blanks s = s).
  { apply strip_blanks_id. intros Hl.
    apply (Hno SP); [reflexivity |].
    apply list_elem_of_In. apply last_Some in Hl. destruct Hl as (l' & ->).
    apply in_or_app. right. left. reflexivity. }
  rewrite Hstrip. unfold ffrtnm_plus, scan_back.
  rewrite (proj2 (last_index_None s (chr "+"))) by (apply Hno; reflexivity).
  cbn [Z.eqb negb andb].
  replace (Z.of_nat (length s) - -1 <? 5)%Z with true
    by (symmetry; apply Z.ltb_lt; lia).
  cbn. change (Z.to_nat (-1 + 1)) with 0%nat. rewrite drop_0, Hdig. reflexivity.
Qed.

Lemma ffrtnm_short_number_witness :
  ffrtnm released_h [] (cstr "old") 0 = Crash stray_store
  /\ ffrtnm released_h (cstr "123") (cstr "old") 0 = Crash stray_store.
Proof.
  split.
  - apply (ffrtnm_short_number released_h [] (cstr "old") 0);
      [lia | reflexivity | vm_compute; lia].
  - apply (ffrtnm_short_number released_h (cstr "123") (cstr "old") 0);
      [lia | reflexivity | vm_compute; lia].
Defined.

(** ** What the parsers hand back *)

Lemma starts_with_take (pat s : cstring) :
  starts_with pat s = true -> take (length pat) s = pat.
Proof.
  revert s. induction pat as [| p pat IH]; intros s; [reflexivity |].
  destruct s as [| x s]; cbn [starts_with]; [discriminate |].
  intros H. apply andb_true_iff in H as [Hx Hrest].
  apply bool_decide_eq_true in Hx. subst x. cbn [length take].
  rewrite (IH s Hrest). reflexivity.
Qed.

Lemma strstr_Some (s pat : cstring) : forall k,
  strstr s pat = Some k -> take (k + length pat) s = take k s ++ pat.
Proof.
  induction s as [| x s IH]; intros k; cbn [strstr].
  - destruct (starts_with pat []) eqn:Hs; [| discriminate].
    intros [= <-]. cbn [Nat.add take app]. apply (starts_with_take _ _ Hs).
  - destruct (starts_with pat (x :: s)) eqn:Hs.
    + intros [= <-]. cbn [Nat.add]. rewrite (starts_with_take _ _ Hs).
      reflexivity.
    + destruct (strstr s pat) as [j |] eqn:Hj; [| discriminate].
      cbn. intros [= <-]. cbn [Nat.add take]. rewrite (IH j eq_refl).
      reflexivity.
Qed.

Lemma ffiurl_urltype_ends (url : cstring) :
  exists t, fst (ffiurl_urltype url) = t ++ cstr "://".
Proof.
  unfold ffiurl_urltype.
  destruct (bool_decide (peek url = chr "-")); [exists (cstr "stdin"); reflexivity |].
  destruct (strstr url (cstr "://")) as [k |] eqn:Hk.
  - exists (take k url). cbn [fst]. apply (strstr_Some _ _ _ Hk).
  - repeat case_match; cbn [fst];
      first [ exists (cstr "ftp"); reflexivity | exists (cstr "http"); reflexivity
            | exists (cstr "mem"); reflexivity | exists (cstr "shmem"); reflexivity
            | exists (cstr "file"); reflexivity ].
Qed.

(** X5.  The type that ffiurl and ffourl find in a name always ends in
    "://", whatever the name: it is a type written out in the name up to and
    with its "://", or one of the types the parsers supply.  A driver whose
    prefix does not end in "://" is therefore never the one a name selects. *)
Theorem parsed_type_ends_in_slashes (K : fitsio_h) (url : cstring)
    (st : Z) :
  (st <= 0)%Z ->
  (forall o st' msgs,
     url <> [] -> ffiurl K true url all_buffers st = Done (o, st', msgs) ->
     exists t, o_urltype o = Some (t ++ cstr "://"))
  /\ (forall ut0 out0, exists t,
        fst (fst (ffourl url ut0 out0 st)) = t ++ cstr "://").
Proof.
  intros Hst. split.
  - intros o st' msgs Hurl Hparse.
    destruct (ffiurl_front K url all_buffers o st st' msgs Hst Hurl Hparse)
      as (Htype & _).
    destruct (ffiurl_urltype_ends url) as (t & Ht).
    exists t. rewrite Htype, Ht. reflexivity.
  - intros ut0 out0. unfold ffourl.
    replace (0 <? st)%Z with false by (symmetry; apply Z.ltb_ge; lia).
    destruct (bool_decide (peek url = chr "-")); [exists (cstr "stdout"); reflexivity |].
    destruct (strstr url (cstr "://")) as [k |] eqn:Hk.
    + exists (take k url). cbn [fst]. apply (strstr_Some _ _ _ Hk).
    + exists (cstr "file"). reflexivity.
Qed.

Lemma parsed_type_ends_in_slashes_witness :
  exists t,
    fst (fst (ffourl (cstr "shmem://h7") [] [] 0)) = t ++ cstr "://".
Proof.
  destruct (parsed_type_ends_in_slashes released_h (cstr "shmem://h7") 0
              ltac:(lia)) as (_ & H).
  exact (H [] []).
Defined.

(** X6.  ffourl splits an output name without loss.  A name that starts
    with '-' is the standard output and the rest of it is dropped; a name
    with "://" in it is cut behind the first "://"; any other name, the short
    forms such as "ftp:" among them, is the name of a disk file as it
    stands. *)
Theorem ffourl_splits (url ut0 out0 : cstring) (st : Z) :
  (st <= 0)%Z ->
  exists ut out,
    ffourl url ut0 out0 st = (ut, out, st)
    /\ ((peek url = chr "-" /\ ut = cstr "stdout://" /\ out = [])
        \/ (peek url <> chr "-"
            /\ ((exists k, strstr url (cstr "://") = Some k
                   /\ ut = take k url ++ cstr "://" /\ ut ++ out = url)
                \/ (strstr url (cstr "://") = None
                    /\ ut = cstr "file://" /\ out = url)))).
Proof.
  intros Hst. unfold ffourl.
  replace (0 <? st)%Z with false by (symmetry; apply Z.ltb_ge; lia).
  case_bool_decide as Hdash.
  - eexists _, _. split; [reflexivity |]. left. auto.
  - destruct (strstr url (cstr "://")) as [k |] eqn:Hk.
    + eexists _, _. split; [reflexivity |]. right. split; [exact Hdash |].
      left. exists k. split; [reflexivity |].
      split; [apply (strstr_Some _ _ _ Hk) | apply take_drop].
    + eexists _, _. split; [reflexivity |]. right. split; [exact Hdash |].
      right. auto.
Qed.

Lemma ffourl_splits_witness :
  ffourl (cstr "ftp:host/x.fits") [] [] 0
  = (cstr "file://", cstr "ftp:host/x.fits", 0%Z)
  /\ ffourl (cstr "-x.fits") [] [] 0 = (cstr "stdout://", [], 0%Z).
Proof.
  split.
  - destruct (ffourl_splits (cstr "ftp:host/x.fits") [] [] 0 ltac:(lia))
      as (ut & out & H & _). reflexivity.
  - reflexivity.
Defined.

(** ** Filters, extension specifiers and tokens *)







(** *** ffexts *)

Lemma strcspn_take (s set : cstring) (c : ascii) :
  c ∈ take (strcspn s set) s -> c ∉ set.
Proof.
  induction s as [| x s IH]; cbn [strcspn]; [intros H; inversion H |].
  unfold in_set. case_bool_decide as Hx; cbn [take]; [intros H; inversion H |].
  intros H. apply elem_of_cons in H as [-> | H]; [exact Hx | exact (IH H)].
Qed.

(** X8.  Whatever the specifier and the status, ffexts hands back an
    extension number between 0 and 9999; with a number that is not 0 the
    name is empty, the version is 0 and the type is ANY_HDU; the name holds no
    blank, comma or colon; the type is one of the four codes; and the status
    is the one that came in or URL_PARSE_ERROR. *)
Theorem ffexts_result_shape (K : fitsio_h) (extspec : cstring) (st : Z) :
  let '((extnum, extname, extvers, hdutype), st', msgs) :=
    ffexts K extspec st in
  (0 <= extnum <= 9999)%Z
  /\ (extnum <> 0%Z -> extname = [] /\ extvers = 0%Z /\ hdutype = ANY_HDU K)
  /\ (forall c, c ∈ extname -> c ∉ cstr " ,:")
  /\ hdutype ∈ [ANY_HDU K; BINARY_TBL K; ASCII_TBL K; IMAGE_HDU K]
  /\ (st' = st \/ st' = URL_PARSE_ERROR K).
Proof.
  unfold ffexts.
  assert (Hany : ANY_HDU K ∈ [ANY_HDU K; BINARY_TBL K; ASCII_TBL K; IMAGE_HDU K])
    by apply list_elem_of_here.
  assert (Hnil : forall c : ascii, c ∈ [] -> c ∉ cstr " ,:")
    by (intros c H; inversion H).
  destruct (0 <? st)%Z.
  { repeat split; auto; lia. }
  destruct (isdigit (peek (skip_blanks extspec))).
  - destruct ((default 0%Z (sscanf_d (skip_blanks extspec)) <? 0)%Z
              || (9999 <? default 0%Z (sscanf_d (skip_blanks extspec)))%Z)
      eqn:Hrange.
    + repeat split; auto; lia.
    + apply orb_false_iff in Hrange as [Hlo Hhi].
      apply Z.ltb_ge in Hlo. apply Z.ltb_ge in Hhi.
      repeat split; auto; lia.
  - set (ptr1 := skip_blanks extspec).
    assert (Hname : forall c, c ∈ take (strcspn ptr1 (cstr " ,:")) ptr1 ->
                      c ∉ cstr " ,:") by (intros c; apply strcspn_take).
    repeat case_match; simplify_eq;
      repeat split; auto; try lia; try contradiction;
      repeat (first [apply list_elem_of_here | apply list_elem_of_further]).
Qed.




Lemma digits_val_all (ds : cstring) : forall acc,
  forallb isdigit ds = true ->
  forall rest, isdigit (peek rest) = false ->
  digits_val acc (ds ++ rest) = digits_val acc ds.
Proof.
  induction ds as [| d ds IH]; intros acc Hds rest Hrest; cbn [app digits_val].
  - destruct rest as [| r rest]; [reflexivity |]. cbn [digits_val].
    cbn [peek hd] in Hrest. rewrite Hrest. reflexivity.
  - cbn [forallb] in Hds. apply andb_true_iff in Hds as [Hd Hds].
    rewrite Hd. apply IH; assumption.
Qed.



(** ** Tokens and the binning specifier *)

Lemma strcspn_le (s set : cstring) : (strcspn s set <= length s)%nat.
Proof.
  induction s as [| x s IH]; cbn [strcspn length]; [lia |].
  destruct (in_set x set); lia.
Qed.

Lemma strcspn_stop (s set : cstring) :
  drop (strcspn s set) s <> [] -> peek (drop (strcspn s set) s) ∈ set.
Proof.
  induction s as [| x s IH]; cbn [strcspn]; [intros H; contradiction |].
  unfold in_set. case_bool_decide as Hx; cbn [drop peek hd]; [intros _; exact Hx |].
  exact IH.
Qed.

(** X10.  fits_get_token cuts the text behind the leading blanks in two
    without loss: the token, which holds no delimiter, and the rest, which is
    empty or starts with a delimiter.  An empty token leaves [isanumber] as it
    was, which is how ffbinr comes to read a variable it never set; a token
    counts as a number exactly when it is made of digits, '.' and '-'
    only. *)
Theorem fits_get_token_splits (ptr delimiter : cstring) (isanumber : Z) :
  let '(rest, token, isnum, slen) := fits_get_token ptr delimiter isanumber in
  token ++ rest = skip_blanks ptr
  /\ slen = length token
  /\ (forall c, c ∈ token -> c ∉ delimiter)
  /\ (rest <> [] -> peek rest ∈ delimiter)
  /\ (token = [] -> isnum = isanumber)
  /\ (token <> [] ->
      (isnum = 1%Z \/ isnum = 0%Z)
      /\ (isnum = 1%Z <->
          forall c, c ∈ token ->
            isdigit c = true \/ c = chr "." \/ c = chr "-")).
Proof.
  unfold fits_get_token. set (p := skip_blanks ptr).
  pose proof (strcspn_le p delimiter) as Hle.
  case_bool_decide as Hz.
  - pose proof (strcspn_stop p delimiter) as Hs. rewrite Hz in Hs.
    split; [reflexivity |]. split; [exact Hz |].
    split; [intros c Hc; inversion Hc |]. split; [exact Hs |].
    split; [reflexivity |]. intros Hne. contradiction.
  - repeat split.
    + apply take_drop.
    + rewrite length_take. lia.
    + intros c. apply strcspn_take.
    + apply strcspn_stop.
    + intros Hnil. apply (f_equal length) in Hnil.
      rewrite length_take in Hnil. cbn in Hnil. lia.
    + destruct (forallb _ _); auto.
    + destruct (forallb _ _) eqn:Hall; [| discriminate].
      intros _ c Hc. rewrite forallb_forall in Hall.
      apply list_elem_of_In in Hc. specialize (Hall c Hc).
      apply orb_true_iff in Hall as [Hall | Hall];
        [apply orb_true_iff in Hall as [Hall | Hall] |].
      * left. exact Hall.
      * right. left. apply bool_decide_eq_true in Hall. exact Hall.
      * right. right. apply bool_decide_eq_true in Hall. exact Hall.
    + intros Hall. destruct (forallb _ _) eqn:Hf; [reflexivity |].
      exfalso. apply not_true_iff_false in Hf. apply Hf.
      apply forallb_forall. intros c Hc. apply list_elem_of_In in Hc.
      destruct (Hall c Hc) as [Hdg | [-> | ->]].
      * rewrite Hdg. reflexivity.
      * reflexivity.
      * reflexivity.
Qed.

Section BinOutcome.

Variables (K : fitsio_h) (F : c_double) (junk : Z).


Lemma set_axis_keeps (b : bin_out F) (ii : nat) (name : bool) (r : range F) :
  haxis F (set_axis F b ii name r) = haxis F b
  /\ recip F (set_axis F b ii name r) = recip F b.
Proof. split; reflexivity. Qed.





End BinOutcome.


(** ** Closing twice, reopening without memory, deleting *)

Section Deleting.

Context {F : c_double} {E : Type}.
Variables (K : fitsio_h) (X : collaborators F E).

Implicit Types (w : world E) (f : FITSfile) (b : block FITSfile).

Lemma driver_entry_run w (d : Z) (e : fitsdriver E) :
  (0 <= d < MAX_DRIVERS)%Z -> driverTable w !! Z.to_nat d = Some e ->
  driver_entry d w = Done (e, w).
Proof.
  intros Hd He. unfold driver_entry.
  replace ((0 <=? d)%Z && (d <? MAX_DRIVERS)%Z) with true
    by (symmetry; apply andb_true_intro;
        split; [apply Z.leb_le | apply Z.ltb_lt]; lia).
  rewrite He. reflexivity.
Qed.

Lemma driver_close_run w (d fh : Z) (e : fitsdriver E) (cl : Z -> E -> Z * E) :
  (0 <= d < MAX_DRIVERS)%Z -> driverTable w !! Z.to_nat d = Some e ->
  d_close e = Some cl ->
  driver_close d fh w
  = Done (fst (cl fh (ext w)),
          with_closed (with_ext w (snd (cl fh (ext w)))) ((d, fh) :: closed w)).
Proof.
  intros Hd He Hc. unfold driver_close, bind.
  rewrite (driver_entry_run w d e Hd He), Hc. unfold drive.
  destruct (cl fh (ext w)) as [rc e']. reflexivity.
Qed.

(** A handle whose fitsfile or FITSfile has been freed. *)
Lemma file_of_freed w (h a : nat) (hp : Z) (c : FITSfile) :
  handle_at w h = Some (alive {| HDUposition := hp; Fptr := Some a |}) ->
  file_at w a = Some {| live := false; content := c |} ->
  file_of h w = Crash dangling.
Proof.
  unfold handle_at, file_at, file_of, bind, load_handle, load_file.
  intros ->. cbn. intros ->. reflexivity.
Qed.

Lemma handle_freed w (h : nat) (c : fitsfile) :
  handle_at w h = Some {| live := false; content := c |} ->
  file_of h w = Crash dangling.
Proof.
  unfold handle_at, file_of, bind, load_handle. intros ->. reflexivity.
Qed.

(** X12.  ffreopen uses the result of calloc without a test: when the
    allocation of the new fitsfile fails, the store of the pointer to the
    FITSfile goes through a null pointer. *)
Theorem ffreopen_without_memory w (h0 a : nat) f (hp : Z) (nf : option nat)
    (st : Z) :
  (st <= 0)%Z -> hd true (alloc w) = false ->
  handle_at w h0 = Some (alive {| HDUposition := hp; Fptr := Some a |}) ->
  file_at w a = Some (alive f) ->
  validcode f = VALIDSTRUC K ->
  ffreopen K (Some h0) nf st w = Crash null_store.
Proof.
  intros Hst Halloc Hh Ha Hv. unfold ffreopen.
  replace (0 <? st)%Z with false by (symmetry; apply Z.ltb_ge; lia).
  unfold bind at 1. rewrite (file_of_live w h0 a f hp Hh Ha).
  rewrite Hv, Z.eqb_refl. cbn [negb].
  unfold bind at 1, calloc_fitsfile, bind at 1, next_alloc.
  rewrite Halloc. reflexivity.
Qed.

(** X13.  Once the last user has closed a file, the fitsfile and the
    FITSfile are freed blocks: a second ffclos on the same pointer, or an
    ffreopen or ffdelt of it, reads freed memory before it can look at
    validcode, which ffclos has reset for this very case. *)
Theorem close_twice_reads_freed_memory w (h a : nat) f (hp st : Z)
    (e : fitsdriver E) (cl : Z -> E -> Z * E) :
  keeps_files (ffchdu X h st) ->
  (forall st1, keeps_files (ffflsh X h 1 st1)) ->
  handle_at w h = Some (alive {| HDUposition := hp; Fptr := Some a |}) ->
  file_at w a = Some (alive f) ->
  validcode f = VALIDSTRUC K ->
  open_count f = 1%Z ->
  (0 <= driver f < MAX_DRIVERS)%Z ->
  driverTable w !! Z.to_nat (driver f) = Some e ->
  d_close e = Some cl ->
  exists st' w',
    ffclos K X (Some h) st w = Done (st', w')
    /\ forall (st2 : Z) (nf : option nat) (garbage : cstring),
         ffclos K X (Some h) st2 w' = Crash dangling
         /\ ffdelt K X garbage (Some h) st2 w' = Crash dangling
         /\ ((st2 <= 0)%Z -> ffreopen K (Some h) nf st2 w' = Crash dangling).
Proof.
  intros Hk1 Hk2 Hh Ha Hv Hc Hd He Hcl.
  destruct (ffclos_last K X w h a f hp st e cl Hk1 Hk2 Hh Ha Hv Hc Hd He Hcl)
    as (st' & w' & f' & Hrun & _ & _ & _ & _ & _ & Hdead).
  exists st', w'. split; [exact Hrun |].
  assert (Hfree : file_of h w' = Crash dangling).
  { unfold handle_at in Hdead.
    destruct (handles w' !! h) as [[l c] |] eqn:Hl; [| discriminate Hdead].
    cbn in Hdead. injection Hdead as ->.
    apply (handle_freed w' h c). exact Hl. }
  intros st2 nf garbage. split; [| split].
  - unfold ffclos, bind. rewrite Hfree. reflexivity.
  - unfold ffdelt, bind. rewrite Hfree. reflexivity.
  - intros Hst2. unfold ffreopen.
    replace (0 <? st2)%Z with false by (symmetry; apply Z.ltb_ge; lia).
    unfold bind. rewrite Hfree. reflexivity.
Qed.

(** The state in which ffdelt closes and removes the file. *)
Lemma ffdelt_front w (h a : nat) f (hp st : Z) (garbage : cstring) :
  keeps_files (ffchdu X h st) ->
  (forall st1, keeps_files (ffflsh X h 1 st1)) ->
  handle_at w h = Some (alive {| HDUposition := hp; Fptr := Some a |}) ->
  file_at w a = Some (alive f) ->
  validcode f = VALIDSTRUC K ->
  let r1 := ffchdu X h st w in
  let r2 := ffflsh X h 1 (fst r1) (snd r1) in
  exists f2,
    file_at (snd r2) a = Some (alive f2)
    /\ open_count f2 = open_count f /\ validcode f2 = validcode f
    /\ driver f2 = driver f /\ filehandle f2 = filehandle f
    /\ filename f2 = filename f
    /\ driverTable (snd r2) = driverTable w /\ closed (snd r2) = closed w
    /\ handles (snd r2) = handles w
    /\ ffdelt K X garbage (Some h) st w
       = ffdelt_finish K X garbage h a f2 (fst r2) (snd r2).
Proof.
  intros Hk1 Hk2 Hh Ha Hvalid r1 r2. subst r1 r2.
  destruct (ffchdu X h st w) as [st1 w1] eqn:Hc1. cbn [fst snd].
  destruct (ffflsh X h 1 st1 w1) as [st2 w2] eqn:Hc2. cbn [fst snd].
  destruct (keeps_lookup _ w a f Hk1 Ha) as (f1 & Ha1 & Hc & Hv & Hd & Hf & Hn).
  destruct (Hk1 w) as (Ht1 & Hcl1 & Hh1 & _).
  rewrite Hc1 in Ha1, Ht1, Hcl1, Hh1. cbn [snd] in *.
  destruct (keeps_lookup _ w1 a f1 (Hk2 st1) Ha1)
    as (f2 & Ha2 & Hc' & Hv' & Hd' & Hf' & Hn').
  destruct (Hk2 st1 w1) as (Ht2 & Hcl2 & Hh2 & _).
  rewrite Hc2 in Ha2, Ht2, Hcl2, Hh2. cbn [snd] in *.
  exists f2. repeat split; try congruence.
  unfold ffdelt. unfold bind at 1.
  rewrite (file_of_live w h a f hp Hh Ha), Hvalid, Z.eqb_refl. cbn [negb].
  unfold bind at 1, call at 1. rewrite Hc1.
  unfold bind at 1, call at 1. rewrite Hc2.
  assert (Hh' : handle_at w2 h
                = Some (alive {| HDUposition := hp; Fptr := Some a |})).
  { unfold handle_at in *. congruence. }
  unfold bind at 1. rewrite (file_of_live w2 h a f2 hp Hh' Ha2). reflexivity.
Qed.

(** The three steps that give the structures up. *)
Lemma give_up_run w (h a : nat) f (hb : block fitsfile) (st : Z) :
  (a < length (files w))%nat -> handles w !! h = Some hb ->
  bind (store_file a (poison f))
    (fun _ => bind (free_file a)
                (fun _ => bind (free_handle h) (fun _ => ret st))) w
  = Done (st, with_handles
                (with_files w (<[a := {| live := false; content := poison f |}]>
                                 (files w)))
                (<[h := {| live := false; content := content hb |}]> (handles w))).
Proof.
  intros Ha Hh. unfold bind at 1, store_file at 1.
  unfold bind at 1, free_file at 1. cbn [files with_files].
  rewrite list_lookup_insert_eq by exact Ha.
  unfold bind at 1, free_handle at 1. cbn [handles with_files content].
  rewrite Hh. unfold ret. rewrite list_insert_insert_eq. reflexivity.
Qed.

(** The status after the close of the driver. *)
Lemma close_status_run w (rc st : Z) (name : cstring) (msg : cstring) :
  exists st1 e1,
    (if negb (rc =? 0)%Z && (st <=? 0)%Z then
       bind (pmsg X msg)
         (fun _ => bind (pmsg X name) (fun _ => ret (FILE_NOT_CLOSED K)))
     else ret st) w = Done (st1, with_ext w e1)
    /\ ((0 < st)%Z -> st1 = st /\ e1 = ext w).
Proof.
  destruct (negb (rc =? 0)%Z && (st <=? 0)%Z) eqn:Hc.
  - eexists _, _. split; [reflexivity |]. intros Hpos.
    apply andb_true_iff in Hc as [_ Hle]. apply Z.leb_le in Hle. lia.
  - exists st, (ext w). split; [destruct w; reflexivity |]. auto.
Qed.

(** X14.  ffdelt does not look at the number of users.  On a valid handle
    it calls the driver's close once, resets validcode and the name and frees
    both structures, whatever open_count is and whatever the status on
    entry (here for a driver without a remove function).  Every other
    fitsfile that shares the FITSfile is left pointing to the freed block: a
    later ffclos on it reads freed memory. *)
Theorem ffdelt_frees_shared_file w (h a : nat) f (hp st : Z)
    (garbage : cstring) (e : fitsdriver E) (cl : Z -> E -> Z * E) :
  keeps_files (ffchdu X h st) ->
  (forall st1, keeps_files (ffflsh X h 1 st1)) ->
  handle_at w h = Some (alive {| HDUposition := hp; Fptr := Some a |}) ->
  file_at w a = Some (alive f) ->
  validcode f = VALIDSTRUC K ->
  (0 <= driver f < MAX_DRIVERS)%Z ->
  driverTable w !! Z.to_nat (driver f) = Some e ->
  d_close e = Some cl -> d_remove e = None ->
  exists st' w' f',
    ffdelt K X garbage (Some h) st w = Done (st', w')
    /\ closed w' = (driver f, filehandle f) :: closed w
    /\ file_at w' a = Some {| live := false; content := f' |}
    /\ open_count f' = open_count f /\ validcode f' = 0%Z
    /\ filename f' = None
    /\ live <$> handle_at w' h = Some false
    /\ forall (h2 : nat) (hp2 st2 : Z),
         h2 <> h ->
         handle_at w h2 = Some (alive {| HDUposition := hp2; Fptr := Some a |}) ->
         ffclos K X (Some h2) st2 w' = Crash dangling.
Proof.
  intros Hk1 Hk2 Hh Ha Hv Hd He Hcl Hrm.
  destruct (ffdelt_front w h a f hp st garbage Hk1 Hk2 Hh Ha Hv)
    as (f2 & Ha2 & Hc2 & Hv2 & Hd2 & Hf2 & Hn2 & Ht2 & Hcl2 & Hh2 & Hrun).
  rewrite Hrun. clear Hrun.
  set (st2 := fst (ffflsh X h 1 _ _)) in *.
  set (w2 := snd (ffflsh X h 1 _ _)) in *.
  unfold ffdelt_finish. rewrite Hd2, Hf2.
  unfold bind at 1.
  rewrite (driver_close_run w2 (driver f) (filehandle f) e cl Hd)
    by (try rewrite Ht2; assumption).
  set (rc := fst (cl (filehandle f) (ext w2))).
  set (w3 := with_closed _ _).
  destruct (close_status_run w3 rc st2 (buf (filename f2))
              (cstr "failed to close the following file: (ffdelt)"))
    as (st3 & e3 & Hs & _).
  unfold bind at 1. rewrite Hs.
  set (w4 := with_ext w3 e3).
  unfold bind at 1.
  rewrite (driver_entry_run w4 (driver f) e Hd)
    by (cbn; rewrite Ht2; exact He).
  unfold bind at 1, ffdelt_remove. rewrite Hrm. unfold ret at 1.
  assert (Hlen : (a < length (files w4))%nat).
  { cbn. apply (lookup_lt_Some _ _ _ Ha2). }
  assert (Hhb : handles w4 !! h
                = Some (alive {| HDUposition := hp; Fptr := Some a |})).
  { cbn. rewrite Hh2. exact Hh. }
  rewrite (give_up_run w4 h a f2 _ st3 Hlen Hhb).
  eexists _, _, (poison f2). split; [reflexivity |].
  cbn [closed with_handles with_files w4 with_ext w3 with_closed].
  split; [rewrite Hcl2; reflexivity |].
  split; [unfold file_at; cbn; apply list_lookup_insert_eq; exact Hlen |].
  cbn [poison open_count validcode filename].
  split; [exact Hc2 |]. split; [reflexivity |]. split; [reflexivity |].
  split.
  { unfold handle_at. cbn. rewrite list_lookup_insert_eq; [reflexivity |].
    rewrite Hh2. apply (lookup_lt_Some _ _ _ Hh). }
  intros h2 hp2 s2 Hne Hother. unfold ffclos, bind.
  rewrite (file_of_freed _ h2 a hp2 (poison f2)); [reflexivity | |].
  - unfold handle_at. cbn. rewrite list_lookup_insert_ne by congruence.
    rewrite Hh2. exact Hother.
  - unfold file_at. cbn. apply list_lookup_insert_eq. exact Hlen.
Qed.

(** X15.  When ffdelt is entered with a positive status, and the
    collaborators hand a positive status back as they got it, ffiurl returns
    at once and writes nothing into the block allocated for the base name:
    the driver's remove function is called on whatever that block held, not
    on the name of the file.  The structures are freed all the same. *)
Theorem ffdelt_removes_garbage w (h a : nat) f (hp st : Z)
    (garbage name : cstring) (e : fitsdriver E) (cl : Z -> E -> Z * E)
    (rm : cstring -> E -> Z * E) :
  keeps_files (ffchdu X h st) ->
  (forall st1, keeps_files (ffflsh X h 1 st1)) ->
  (forall s w0, (0 < s)%Z -> (0 < fst (ffchdu X h s w0))%Z) ->
  (forall s w0, (0 < s)%Z -> (0 < fst (ffflsh X h 1 s w0))%Z) ->
  (forall s w0, alloc (snd (ffchdu X h s w0)) = alloc w0) ->
  (forall s w0, alloc (snd (ffflsh X h 1 s w0)) = alloc w0) ->
  handle_at w h = Some (alive {| HDUposition := hp; Fptr := Some a |}) ->
  file_at w a = Some (alive f) ->
  validcode f = VALIDSTRUC K ->
  (0 <= driver f < MAX_DRIVERS)%Z ->
  driverTable w !! Z.to_nat (driver f) = Some e ->
  d_close e = Some cl -> d_remove e = Some rm ->
  filename f = Some name ->
  hd true (alloc w) = true ->
  (0 < st)%Z ->
  exists st' w' e3 f',
    ffdelt K X garbage (Some h) st w = Done (st', w')
    /\ (0 < st')%Z
    /\ ext w'
       = (if (fst (rm garbage e3) =? 0)%Z then snd (rm garbage e3)
          else ffpmsg X name
                 (ffpmsg X (cstr "failed to delete the following file: (ffdelt)")
                    (snd (rm garbage e3))))
    /\ file_at w' a = Some {| live := false; content := f' |}
    /\ live <$> handle_at w' h = Some false.
Proof.
  intros Hk1 Hk2 Hp1 Hp2 Ha1 Ha2 Hh Ha Hv Hd He Hcl Hrm Hname Halloc Hst.
  destruct (ffdelt_front w h a f hp st garbage Hk1 Hk2 Hh Ha Hv)
    as (f2 & Hfa2 & Hc2 & Hv2 & Hd2 & Hf2 & Hn2 & Ht2 & Hcl2 & Hh2 & Hrun).
  rewrite Hrun. clear Hrun.
  assert (Hpos : (0 < fst (ffflsh X h 1 (fst (ffchdu X h st w))
                             (snd (ffchdu X h st w))))%Z).
  { apply Hp2, Hp1, Hst. }
  assert (Hal : alloc (snd (ffflsh X h 1 (fst (ffchdu X h st w))
                              (snd (ffchdu X h st w)))) = alloc w).
  { rewrite Ha2, Ha1. reflexivity. }
  set (st2 := fst (ffflsh X h 1 _ _)) in *.
  set (w2 := snd (ffflsh X h 1 _ _)) in *.
  unfold ffdelt_finish. rewrite Hd2, Hf2.
  unfold bind at 1.
  rewrite (driver_close_run w2 (driver f) (filehandle f) e cl Hd)
    by (try rewrite Ht2; assumption).
  set (rc := fst (cl (filehandle f) (ext w2))).
  set (w3 := with_closed _ _).
  destruct (close_status_run w3 rc st2 (buf (filename f2))
              (cstr "failed to close the following file: (ffdelt)"))
    as (st3 & e3 & Hs & Hsame).
  destruct (Hsame Hpos) as (-> & ->).
  unfold bind at 1. rewrite Hs.
  replace (with_ext w3 (ext w3)) with w3 by (destruct w3; reflexivity).
  unfold bind at 1.
  rewrite (driver_entry_run w3 (driver f) e Hd)
    by (cbn; rewrite Ht2; exact He).
  unfold bind at 1, ffdelt_remove. rewrite Hrm, Hn2, Hname.
  unfold bind at 1, next_alloc.
  change (alloc w3) with (alloc w2). rewrite Hal, Halloc. cbn [negb].
  set (w5 := with_alloc w3 _).
  unfold bind at 1, ffiurl_step, bind at 1.
  replace (st2 <=? 0)%Z with false by (symmetry; apply Z.leb_gt; lia).
  cbn [andb]. unfold ret at 1. unfold ffiurl.
  replace (0 <? st2)%Z with true by (symmetry; apply Z.ltb_lt; lia).
  unfold bind at 1. cbn [pmsgs]. unfold ret at 1, ret at 1.
  cbn [infile_only o_infile buf default from_option]. unfold id.
  unfold bind at 1, drive.
  destruct (rm garbage (ext w5)) as [rc5 e5] eqn:Hrm5.
  set (w6 := with_ext w5 e5).
  assert (Hlen : forall e', (a < length (files (with_ext w6 e')))%nat).
  { intros e'. cbn. apply (lookup_lt_Some _ _ _ Hfa2). }
  assert (Hhb : forall e', handles (with_ext w6 e') !! h
                = Some (alive {| HDUposition := hp; Fptr := Some a |})).
  { intros e'. cbn. rewrite Hh2. exact Hh. }
  destruct (Z.eqb_spec rc5 0) as [-> | Hrc]; cbn [negb].
  - unfold ret at 1.
    replace w6 with (with_ext w6 e5) by reflexivity.
    rewrite (give_up_run (with_ext w6 e5) h a f2 _ st2 (Hlen e5) (Hhb e5)).
    eexists _, _, (ext w5), (poison f2). split; [reflexivity |].
    split; [exact Hpos |]. rewrite Hrm5. cbn [fst snd Z.eqb].
    split; [reflexivity |].
    split; [unfold file_at; cbn; apply list_lookup_insert_eq;
            apply (lookup_lt_Some _ _ _ Hfa2) |].
    unfold handle_at. cbn. rewrite list_lookup_insert_eq; [reflexivity |].
    rewrite Hh2. apply (lookup_lt_Some _ _ _ Hh).
  - unfold bind at 1, pmsg at 1. unfold bind at 1, pmsg at 1. unfold ret at 1.
    set (e7 := ffpmsg X name _).
    replace (with_ext (with_ext w6 _) e7) with (with_ext w6 e7) by reflexivity.
    replace (st2 =? 0)%Z with false by (symmetry; apply Z.eqb_neq; lia).
    rewrite (give_up_run (with_ext w6 e7) h a f2 _ st2 (Hlen e7) (Hhb e7)).
    eexists _, _, (ext w5), (poison f2). split; [reflexivity |].
    split; [exact Hpos |]. rewrite Hrm5. cbn [fst snd].
    replace (rc5 =? 0)%Z with false by (symmetry; apply Z.eqb_neq; exact Hrc).
    split; [reflexivity |].
    split; [unfold file_at; cbn; apply list_lookup_insert_eq;
            apply (lookup_lt_Some _ _ _ Hfa2) |].
    unfold handle_at. cbn. rewrite list_lookup_insert_eq; [reflexivity |].
    rewrite Hh2. apply (lookup_lt_Some _ _ _ Hh).
Qed.

(** X16.  When the allocation of the block for the base name fails, ffdelt
    returns MEMORY_ALLOCATION after the driver has closed the file and before
    anything is given up: the two structures stay allocated and validcode
    still marks the FITSfile as valid.  If the file had one user, an ffclos
    that follows calls the driver's close on the same handle again. *)
Theorem ffdelt_without_memory w (h a : nat) f (hp st : Z)
    (garbage name : cstring) (e : fitsdriver E) (cl : Z -> E -> Z * E)
    (rm : cstring -> E -> Z * E) :
  (forall s, keeps_files (ffchdu X h s)) ->
  (forall s, keeps_files (ffflsh X h 1 s)) ->
  (forall s w0, alloc (snd (ffchdu X h s w0)) = alloc w0) ->
  (forall s w0, alloc (snd (ffflsh X h 1 s w0)) = alloc w0) ->
  handle_at w h = Some (alive {| HDUposition := hp; Fptr := Some a |}) ->
  file_at w a = Some (alive f) ->
  validcode f = VALIDSTRUC K ->
  (0 <= driver f < MAX_DRIVERS)%Z ->
  driverTable w !! Z.to_nat (driver f) = Some e ->
  d_close e = Some cl -> d_remove e = Some rm ->
  filename f = Some name ->
  hd true (alloc w) = false ->
  exists w' f',
    ffdelt K X garbage (Some h) st w = Done (MEMORY_ALLOCATION K, w')
    /\ closed w' = (driver f, filehandle f) :: closed w
    /\ file_at w' a = Some (alive f')
    /\ validcode f' = VALIDSTRUC K /\ open_count f' = open_count f
    /\ handle_at w' h = handle_at w h
    /\ (open_count f = 1%Z ->
        forall st2, exists st3 w3,
          ffclos K X (Some h) st2 w' = Done (st3, w3)
          /\ closed w3
             = (driver f, filehandle f) :: (driver f, filehandle f) :: closed w).
Proof.
  intros Hk1 Hk2 Ha1 Ha2 Hh Ha Hv Hd He Hcl Hrm Hname Halloc.
  destruct (ffdelt_front w h a f hp st garbage (Hk1 st) Hk2 Hh Ha Hv)
    as (f2 & Hfa2 & Hc2 & Hv2 & Hd2 & Hf2 & Hn2 & Ht2 & Hcl2 & Hh2 & Hrun).
  rewrite Hrun. clear Hrun.
  assert (Hal : alloc (snd (ffflsh X h 1 (fst (ffchdu X h st w))
                              (snd (ffchdu X h st w)))) = alloc w).
  { rewrite Ha2, Ha1. reflexivity. }
  set (st2 := fst (ffflsh X h 1 _ _)) in *.
  set (w2 := snd (ffflsh X h 1 _ _)) in *.
  unfold ffdelt_finish. rewrite Hd2, Hf2.
  unfold bind at 1.
  rewrite (driver_close_run w2 (driver f) (filehandle f) e cl Hd)
    by (try rewrite Ht2; assumption).
  set (rc := fst (cl (filehandle f) (ext w2))).
  set (w3 := with_closed _ _).
  destruct (close_status_run w3 rc st2 (buf (filename f2))
              (cstr "failed to close the following file: (ffdelt)"))
    as (st3 & e3 & Hs & _).
  unfold bind at 1. rewrite Hs.
  set (w4 := with_ext w3 e3).
  unfold bind at 1.
  rewrite (driver_entry_run w4 (driver f) e Hd)
    by (cbn; rewrite Ht2; exact He).
  unfold bind at 1, ffdelt_remove. rewrite Hrm, Hn2, Hname.
  unfold bind at 1, next_alloc.
  change (alloc w4) with (alloc w2). rewrite Hal, Halloc. cbn [negb].
  unfold ret.
  set (w5 := with_alloc w4 _).
  assert (Hfile5 : file_at w5 a = Some (alive f2)) by exact Hfa2.
  assert (Hhandle5 : handle_at w5 h = handle_at w h).
  { unfold handle_at. cbn. rewrite Hh2. reflexivity. }
  exists w5, f2. split; [reflexivity |].
  split; [cbn; rewrite Hcl2; reflexivity |].
  split; [exact Hfile5 |]. split; [congruence |]. split; [exact Hc2 |].
  split; [exact Hhandle5 |].
  intros Hone st4.
  destruct (ffclos_last K X w5 h a f2 hp st4 e cl (Hk1 st4) Hk2)
    as (st5 & w6 & f6 & Hrun & Hclosed & _); try congruence.
  - rewrite Hd2. cbn. rewrite Ht2. exact He.
  - exists st5, w6. split; [exact Hrun |].
    rewrite Hclosed, Hd2, Hf2. cbn. rewrite Hcl2. reflexivity.
Qed.

End Deleting.

(** The collaborators of the sample environment leave the files alone. *)
Lemma sample_keeps_files (A : c_double) :
  (forall h s, keeps_files (ffchdu (sample_X A) h s))
  /\ (forall h m s, keeps_files (ffflsh (sample_X A) h m s))
  /\ (forall h r m s, keeps_files (ffldrc (sample_X A) h r m s))
  /\ (forall h s, keeps_files (ffrhdu (sample_X A) h s)).
Proof.
  repeat split; reflexivity.
Qed.

Lemma ffreopen_without_memory_witness :
  ffreopen released_h (Some 0%nat) None 0 (failing sample_opened [false])
  = Crash null_store.
Proof.
  eapply (ffreopen_without_memory released_h (failing sample_opened [false])
            0 0 _ 0 None 0);
    [lia | reflexivity | reflexivity | reflexivity | reflexivity].
Defined.

Lemma close_twice_reads_freed_memory_witness :
  exists st' w',
    ffclos released_h (sample_X sample_double) (Some 0%nat) 0 sample_opened
    = Done (st', w')
    /\ ffclos released_h (sample_X sample_double) (Some 0%nat) 0 w'
       = Crash dangling.
Proof.
  destruct (sample_keeps_files sample_double) as (H1 & H2 & _).
  destruct (close_twice_reads_freed_memory released_h (sample_X sample_double)
              sample_opened 0 0 (sample_file (cstr "t.fits") 0 1) 0 0
              (entry_of (cstr "file://") sample_driver) (fun _ e => (0%Z, e))
              (H1 _ _) (H2 _ _) eq_refl eq_refl eq_refl eq_refl)
    as (st' & w' & Hrun & Hafter).
  - vm_compute. split; [discriminate | reflexivity].
  - reflexivity.
  - reflexivity.
  - exists st', w'. split; [exact Hrun |].
    exact (proj1 (Hafter 0%Z None [])).
Defined.

Lemma ffdelt_frees_shared_file_witness :
  exists st' w',
    ffdelt released_h (sample_X sample_double) [] (Some 0%nat) 0 sample_shared
    = Done (st', w')
    /\ file_at sample_shared 0
       = Some (alive (sample_file (cstr "t.fits") 0 2))
    /\ closed w' = [(0%Z, 7%Z)]
    /\ ffclos released_h (sample_X sample_double) (Some 1%nat) 0 w'
       = Crash dangling.
Proof.
  destruct (sample_keeps_files sample_double) as (H1 & H2 & _).
  destruct (ffdelt_frees_shared_file released_h (sample_X sample_double)
              sample_shared 0 0 (sample_file (cstr "t.fits") 0 2) 0 0 []
              (entry_of (cstr "file://") sample_driver) (fun _ e => (0%Z, e))
              (H1 _ _) (H2 _ _) eq_refl eq_refl eq_refl)
    as (st' & w' & f' & Hrun & Hclosed & _ & _ & _ & _ & _ & Hother).
  - vm_compute. split; [discriminate | reflexivity].
  - reflexivity.
  - reflexivity.
  - reflexivity.
  - exists st', w'. split; [exact Hrun |]. split; [reflexivity |].
    split; [exact Hclosed |].
    apply (Hother 1%nat 0%Z 0%Z); [discriminate | reflexivity].
Defined.

Lemma ffdelt_removes_garbage_witness :
  exists st' w',
    ffdelt released_h (sample_X sample_double) (cstr "?#!") (Some 0%nat) 104
      sample_opened_rm = Done (st', w')
    /\ ext sample_opened_rm = []
    /\ ext w' = [cstr "removed: ?#!"]
    /\ ext (final (ffdelt released_h (sample_X sample_double) (cstr "?#!")
                     (Some 0%nat) 0 sample_opened_rm) sample_opened_rm)
       = [cstr "removed: t.fits"].
Proof.
  destruct (sample_keeps_files sample_double) as (H1 & H2 & _).
  destruct (ffdelt_removes_garbage released_h (sample_X sample_double)
              sample_opened_rm 0 0 (sample_file (cstr "rm://t.fits") 2 1) 0 104
              (cstr "?#!") (cstr "rm://t.fits")
              (entry_of (cstr "rm://") sample_removing) (fun _ e => (0%Z, e))
              (fun name e => (0%Z, (cstr "removed: " ++ name) :: e))
              (H1 _ _) (H2 _ _))
    as (st' & w' & e3 & f' & Hrun & _ & Hext & _).
  - intros s w0 Hs. exact Hs.
  - intros s w0 Hs. exact Hs.
  - reflexivity.
  - reflexivity.
  - reflexivity.
  - reflexivity.
  - reflexivity.
  - vm_compute. split; [discriminate | reflexivity].
  - reflexivity.
  - reflexivity.
  - reflexivity.
  - reflexivity.
  - reflexivity.
  - lia.
  - exists st', w'. split; [exact Hrun |]. split; [reflexivity |].
    split; [| reflexivity].
    injection Hrun as _ <-. reflexivity.
Defined.

Lemma ffdelt_without_memory_witness :
  exists w',
    ffdelt released_h (sample_X sample_double) [] (Some 0%nat) 0
      (failing sample_opened_rm [false])
    = Done (MEMORY_ALLOCATION released_h, w')
    /\ closed w' = [(2%Z, 7%Z)]
    /\ exists st3 w3,
         ffclos released_h (sample_X sample_double) (Some 0%nat) 0 w'
         = Done (st3, w3)
         /\ closed w3 = [(2%Z, 7%Z); (2%Z, 7%Z)].
Proof.
  destruct (sample_keeps_files sample_double) as (H1 & H2 & _).
  destruct (ffdelt_without_memory released_h (sample_X sample_double)
              (failing sample_opened_rm [false]) 0 0
              (sample_file (cstr "rm://t.fits") 2 1) 0 0 [] (cstr "rm://t.fits")
              (entry_of (cstr "rm://") sample_removing) (fun _ e => (0%Z, e))
              (fun name e => (0%Z, (cstr "removed: " ++ name) :: e))
              (fun s => H1 _ s) (fun s => H2 _ _ s))
    as (w' & f' & Hrun & Hclosed & _ & _ & _ & _ & Hagain).
  - reflexivity.
  - reflexivity.
  - reflexivity.
  - reflexivity.
  - reflexivity.
  - vm_compute. split; [discriminate | reflexivity].
  - reflexivity.
  - reflexivity.
  - reflexivity.
  - reflexivity.
  - reflexivity.
  - exists w'. split; [exact Hrun |]. split; [exact Hclosed |].
    apply (Hagain eq_refl 0%Z).
Defined.

(** ** Files in memory *)

Section Memory.

Context {F : c_double} {E B : Type}.
Variables (K : fitsio_h) (X : collaborators F E)
  (mem_openmem : B -> E -> Z * Z * E).

Implicit Types (w : world E) (f : FITSfile).



End Memory.


(** ** The drivers that fits_init_cfitsio registers *)

Section Builtin.

Context {F : c_double} {E : Type}.
Variables (K : fitsio_h) (X : collaborators F E) (C : build) (D : builtin E).

Implicit Types (w : world E).

(** One registration of fits_init_cfitsio whose init function returns 0, in
    a table with room. *)
Lemma registered_room (msg p : cstring) (init : E -> Z * E)
    sh so go gv ck op cr tr cl rm sz fl sk rd wr (k : Z -> M E Z)
    (ni : Z) (n : nat) tb fs hs al cs (ex : E) :
  (n < 14)%nat ->
  (forall e, fst (init e) = 0%Z) ->
  Init.registered X msg
    (fits_register_driver K (Some p) (Some init) sh so go gv ck op cr tr cl rm
       sz fl sk rd wr) k
    {| need_to_initialize := ni; no_of_drivers := Z.of_nat n;
       driverTable := tb; files := fs; handles := hs; alloc := al;
       closed := cs; ext := ex |}
  = k 0%Z
      {| need_to_initialize := ni; no_of_drivers := Z.of_nat (S n);
         driverTable :=
           <[n := {| d_prefix := take (MAX_PREFIX_LEN - 1) p;
                     d_init := Some init; d_shutdown := sh;
                     d_setoptions := so; d_getoptions := go;
                     d_getversion := gv; d_checkfile := ck; d_open := op;
                     d_create := cr; d_truncate := tr; d_close := cl;
                     d_remove := rm; d_size := sz; d_flush := fl;
                     d_seek := sk; d_read := rd; d_write := wr |}]> tb;
         files := fs; handles := hs; alloc := al; closed := cs;
         ext := snd (init ex) |}.
Proof.
  intros Hn Hinit. unfold Init.registered, fits_register_driver.
  unfold bind at 1, bind at 1, look at 1. cbn [no_of_drivers].
  destruct (Z.eqb_spec (Z.of_nat n + 1) MAX_DRIVERS) as [Heq | _].
  { unfold MAX_DRIVERS in Heq. lia. }
  unfold bind at 1, drive. specialize (Hinit ex). cbn [ext].
  destruct (init ex) as [st e']. cbn [fst snd] in *. subst st.
  cbn [Z.eqb negb].
  replace ((0 <=? Z.of_nat n)%Z && (Z.of_nat n <? MAX_DRIVERS)%Z)
    with true
    by (symmetry; apply andb_true_intro; unfold MAX_DRIVERS;
        split; [apply Z.leb_le | apply Z.ltb_lt]; lia).
  unfold with_registry, with_ext. cbn.
  rewrite Nat2Z.id. repeat f_equal. lia.
Qed.

(** The prefixes and the capabilities of the drivers of a build, in the
    order of their registration. *)
Lemma init_run (e : E) :
  (forall e0, fst (file_init E D e0) = 0%Z) ->
  (forall e0, fst (mem_init E D e0) = 0%Z) ->
  (forall e0, fst (root_init E D e0) = 0%Z) ->
  (forall e0, fst (smem_init E D e0) = 0%Z) ->
  BYTESWAPPED C = low_byte_first C ->
  let t := HAVE_FTRUNCATE C in
  let standard :=
    [(cstr "file://", [true; true; true; t; true; true; true; true; true; true; true]);
     (cstr "mem://", [false; false; true; true; true; false; true; false; true; true; true]);
     (cstr "memkeep://", [false; false; false; true; true; false; true; false; true; true; true]);
     (cstr "stdin://", [false; true; false; true; true; false; true; false; true; true; true]);
     (cstr "stdout://", [false; false; true; true; true; false; true; false; true; true; true]);
     (cstr "compress://", [false; true; false; true; true; false; true; false; true; true; true])] in
  let net :=
    [(cstr "root://", [false; true; true; false; true; false; true; true; true; true; true]);
     (cstr "http://", [true; true; false; true; true; false; true; false; true; true; true]);
     (cstr "httpfile://", [false; true; true; t; true; true; true; true; true; true; true]);
     (cstr "httpcompress://", [false; true; false; true; true; false; true; false; true; true; true]);
     (cstr "ftp://", [true; true; false; true; true; false; true; false; true; true; true]);
     (cstr "ftpfile://", [false; true; true; t; true; true; true; true; true; true; true]);
     (cstr "ftpcompress://", [false; true; false; true; true; false; true; false; true; true; true])] in
  let shmem :=
    [(cstr "shmem://", [false; true; true; false; true; true; true; true; true; true; true])] in
  let table := standard ++ (if HAVE_NET_SERVICES C then net else [])
               ++ (if HAVE_SHMEM_SERVICES C then shmem else []) in
  exists w',
    Init.fits_init_cfitsio K X C D (start e) = Done (0%Z, w')
    /\ need_to_initialize w' = 0%Z
    /\ no_of_drivers w' = Z.of_nat (length table)
    /\ length (driverTable w') = Z.to_nat MAX_DRIVERS
    /\ files w' = [] /\ handles w' = [] /\ closed w' = [] /\ alloc w' = []
    /\ (fun d => (d_prefix d, capabilities d))
         <$> take (length table) (driverTable w') = table.
Proof.
  intros Hfile Hmem Hroot Hsmem Hbyte t standard net shmem table.
  subst table standard net shmem t.
  destruct C as [bs ft nt sh lbf]. cbn in Hbyte. subst lbf.
  unfold Init.fits_init_cfitsio. unfold bind at 1.
  cbn [BYTESWAPPED low_byte_first HAVE_FTRUNCATE HAVE_NET_SERVICES
       HAVE_SHMEM_SERVICES].
  replace ((bs && negb ((if bs then 1 else 0) =? 1)%Z)
           || (negb bs && negb ((if bs then 0 else 1) =? 1)%Z))
    with false by (destruct bs; reflexivity).
  unfold Init.standard_drivers, Init.net_drivers, Init.shmem_driver,
    Init.truncate_of_file, start, with_need_to_initialize.
  cbn [HAVE_FTRUNCATE HAVE_NET_SERVICES HAVE_SHMEM_SERVICES
       need_to_initialize no_of_drivers driverTable files handles alloc
       closed ext].
  change 0%Z with (Z.of_nat 0) at 2.
  destruct ft, nt, sh; cbn [negb];
    repeat (rewrite registered_room;
            [| lia | first [exact Hfile | exact Hmem | exact Hroot
                           | exact Hsmem]]);
    (eexists; split; [reflexivity |]);
    repeat split; reflexivity.
Qed.

(** A lookup sees the prefixes of the entries in front of the count
    only. *)
Lemma scan_prefixes (t1 t2 : list (fitsdriver E)) (u : cstring) (n : nat) :
  d_prefix <$> take n t1 = d_prefix <$> take n t2 ->
  urltype2driver_scan t1 u n = urltype2driver_scan t2 u n.
Proof.
  revert t1 t2. induction n as [| n IH]; intros t1 t2 Heq; [reflexivity |].
  cbn [urltype2driver_scan].
  assert (Hn : d_prefix <$> t1 !! n = d_prefix <$> t2 !! n).
  { apply (f_equal (fun l => l !! n)) in Heq.
    rewrite !list_lookup_fmap, !lookup_take_lt in Heq by lia. exact Heq. }
  rewrite Hn. rewrite (IH t1 t2); [reflexivity |].
  apply (f_equal (take n)) in Heq.
  rewrite <- !fmap_take, !take_take in Heq.
  replace (n `min` S n)%nat with n in Heq by lia. exact Heq.
Qed.

(** The prefixes of a build, in the order of registration. *)
Lemma init_lookups (e : E) (driver0 : Z) :
  (forall e0, fst (file_init E D e0) = 0%Z) ->
  (forall e0, fst (mem_init E D e0) = 0%Z) ->
  (forall e0, fst (root_init E D e0) = 0%Z) ->
  (forall e0, fst (smem_init E D e0) = 0%Z) ->
  BYTESWAPPED C = low_byte_first C ->
  let prefixes :=
    [cstr "file://"; cstr "mem://"; cstr "memkeep://"; cstr "stdin://";
     cstr "stdout://"; cstr "compress://"]
    ++ (if HAVE_NET_SERVICES C
        then [cstr "root://"; cstr "http://"; cstr "httpfile://";
              cstr "httpcompress://"; cstr "ftp://"; cstr "ftpfile://";
              cstr "ftpcompress://"]
        else [])
    ++ (if HAVE_SHMEM_SERVICES C then [cstr "shmem://"] else []) in
  exists w',
    Init.fits_init_cfitsio K X C D (start e) = Done (0%Z, w')
    /\ need_to_initialize w' = 0%Z
    /\ no_of_drivers w' = Z.of_nat (length prefixes)
    /\ length (driverTable w') = Z.to_nat MAX_DRIVERS
    /\ files w' = [] /\ handles w' = [] /\ closed w' = [] /\ alloc w' = []
    /\ d_prefix <$> take (length prefixes) (driverTable w') = prefixes
    /\ forall (i : nat) (p : cstring),
         prefixes !! i = Some p ->
         urltype2driver K p driver0 w' = (0%Z, Z.of_nat i).
Proof.
  intros Hfile Hmem Hroot Hsmem Hbyte prefixes.
  destruct (init_run e Hfile Hmem Hroot Hsmem Hbyte)
    as (w' & Hrun & Hneed & Hn & Hlen & Hfs & Hhs & Hcs & Hal & Htable).
  exists w'. split; [exact Hrun |]. split; [exact Hneed |].
  assert (Hpre : d_prefix <$> take (length prefixes) (driverTable w')
                 = prefixes
                 /\ no_of_drivers w' = Z.of_nat (length prefixes)).
  { apply (f_equal (fmap fst)) in Htable.
    rewrite <- list_fmap_compose in Htable.
    subst prefixes. destruct (HAVE_NET_SERVICES C), (HAVE_SHMEM_SERVICES C);
      split; first [exact Htable | exact Hn]. }
  destruct Hpre as (Hpre & Hn').
  repeat (split; [assumption |]).
  intros i p Hi. unfold urltype2driver. rewrite Hn', Nat2Z.id.
  rewrite (scan_prefixes (driverTable w')
             ((fun q => entry_of q zero_driver) <$> prefixes)).
  - subst prefixes.
    destruct (HAVE_NET_SERVICES C), (HAVE_SHMEM_SERVICES C); cbn in Hi;
      repeat (destruct i as [| i];
              [injection Hi as <-; vm_compute; reflexivity |]);
      discriminate Hi.
  - rewrite Hpre. subst prefixes.
    destruct (HAVE_NET_SERVICES C), (HAVE_SHMEM_SERVICES C); reflexivity.
Qed.

(** X18.  When the byte order is the one the library was built for and the
    init functions of the drivers return 0, fits_init_cfitsio, run on the
    program as it starts, returns 0 with need_to_initialize cleared and has
    registered six drivers, seven more with HAVE_NET_SERVICES and one more
    with HAVE_SHMEM_SERVICES.  A lookup of each of their prefixes gives the
    place in the order of registration: file:// is 0, mem:// 1, memkeep:// 2,
    stdin:// 3, stdout:// 4, compress:// 5, and so on. *)
Theorem init_registers_the_builtin_drivers (e : E) (driver0 : Z) :
  (forall e0, fst (file_init E D e0) = 0%Z) ->
  (forall e0, fst (mem_init E D e0) = 0%Z) ->
  (forall e0, fst (root_init E D e0) = 0%Z) ->
  (forall e0, fst (smem_init E D e0) = 0%Z) ->
  BYTESWAPPED C = low_byte_first C ->
  let prefixes :=
    [cstr "file://"; cstr "mem://"; cstr "memkeep://"; cstr "stdin://";
     cstr "stdout://"; cstr "compress://"]
    ++ (if HAVE_NET_SERVICES C
        then [cstr "root://"; cstr "http://"; cstr "httpfile://";
              cstr "httpcompress://"; cstr "ftp://"; cstr "ftpfile://";
              cstr "ftpcompress://"]
        else [])
    ++ (if HAVE_SHMEM_SERVICES C then [cstr "shmem://"] else []) in
  exists w',
    Init.fits_init_cfitsio K X C D (start e) = Done (0%Z, w')
    /\ need_to_initialize w' = 0%Z
    /\ no_of_drivers w' = Z.of_nat (length prefixes)
    /\ forall (i : nat) (p : cstring),
         prefixes !! i = Some p ->
         urltype2driver K p driver0 w' = (0%Z, Z.of_nat i).
Proof.
  intros Hfile Hmem Hroot Hsmem Hbyte prefixes.
  destruct (init_lookups e driver0 Hfile Hmem Hroot Hsmem Hbyte)
    as (w' & Hrun & Hneed & Hn & _ & _ & _ & _ & _ & _ & Hlook).
  exists w'. auto.
Qed.

(** X19.  With the drivers of the network and of shared memory compiled
    in, fits_init_cfitsio registers 14 drivers, which is all the test in
    fits_register_driver lets in: every later registration, by a program that
    brings a driver of its own, is refused with TOO_MANY_DRIVERS. *)
Theorem init_leaves_no_room (e : E) (q : option cstring)
    (d : fitsdriver E) :
  (forall e0, fst (file_init E D e0) = 0%Z) ->
  (forall e0, fst (mem_init E D e0) = 0%Z) ->
  (forall e0, fst (root_init E D e0) = 0%Z) ->
  (forall e0, fst (smem_init E D e0) = 0%Z) ->
  BYTESWAPPED C = low_byte_first C ->
  HAVE_NET_SERVICES C = true -> HAVE_SHMEM_SERVICES C = true ->
  exists w',
    Init.fits_init_cfitsio K X C D (start e) = Done (0%Z, w')
    /\ no_of_drivers w' = 14%Z
    /\ register_as K q d w' = Done (TOO_MANY_DRIVERS K, w').
Proof.
  intros Hfile Hmem Hroot Hsmem Hbyte Hnet Hsh.
  destruct (init_lookups e 0 Hfile Hmem Hroot Hsmem Hbyte)
    as (w' & Hrun & _ & Hn & _).
  rewrite Hnet, Hsh in Hn. cbn in Hn.
  exists w'. split; [exact Hrun |]. split; [exact Hn |].
  apply register_as_full. exact Hn.
Qed.

(** X20.  What each built-in driver can do: for every driver that
    fits_init_cfitsio registers, which of checkfile, open, create, truncate,
    close, remove, size, flush, seek, read and write it has.  Every one of
    them has close, size, seek, read and write, the five functions that
    cfileio.c calls without a test of the pointer. *)
Theorem builtin_capabilities (e : E) :
  (forall e0, fst (file_init E D e0) = 0%Z) ->
  (forall e0, fst (mem_init E D e0) = 0%Z) ->
  (forall e0, fst (root_init E D e0) = 0%Z) ->
  (forall e0, fst (smem_init E D e0) = 0%Z) ->
  BYTESWAPPED C = low_byte_first C ->
  let t := HAVE_FTRUNCATE C in
  let table :=
    [(cstr "file://", [true; true; true; t; true; true; true; true; true; true; true]);
     (cstr "mem://", [false; false; true; true; true; false; true; false; true; true; true]);
     (cstr "memkeep://", [false; false; false; true; true; false; true; false; true; true; true]);
     (cstr "stdin://", [false; true; false; true; true; false; true; false; true; true; true]);
     (cstr "stdout://", [false; false; true; true; true; false; true; false; true; true; true]);
     (cstr "compress://", [false; true; false; true; true; false; true; false; true; true; true])]
    ++ (if HAVE_NET_SERVICES C then
          [(cstr "root://", [false; true; true; false; true; false; true; true; true; true; true]);
           (cstr "http://", [true; true; false; true; true; false; true; false; true; true; true]);
           (cstr "httpfile://", [false; true; true; t; true; true; true; true; true; true; true]);
           (cstr "httpcompress://", [false; true; false; true; true; false; true; false; true; true; true]);
           (cstr "ftp://", [true; true; false; true; true; false; true; false; true; true; true]);
           (cstr "ftpfile://", [false; true; true; t; true; true; true; true; true; true; true]);
           (cstr "ftpcompress://", [false; true; false; true; true; false; true; false; true; true; true])]
        else [])
    ++ (if HAVE_SHMEM_SERVICES C then
          [(cstr "shmem://", [false; true; true; false; true; true; true; true; true; true; true])]
        else []) in
  exists w',
    Init.fits_init_cfitsio K X C D (start e) = Done (0%Z, w')
    /\ (fun d => (d_prefix d, capabilities d))
         <$> take (Z.to_nat (no_of_drivers w')) (driverTable w') = table
    /\ Forall (fun d => has (d_close d) && has (d_size d) && has (d_seek d)
                        && has (d_read d) && has (d_write d) = true)
         (take (Z.to_nat (no_of_drivers w')) (driverTable w')).
Proof.
  intros Hfile Hmem Hroot Hsmem Hbyte t table.
  destruct (init_run e Hfile Hmem Hroot Hsmem Hbyte)
    as (w' & Hrun & _ & Hn & _ & _ & _ & _ & _ & Htable).
  exists w'. split; [exact Hrun |]. rewrite Hn, Nat2Z.id.
  split; [exact Htable |].
  apply Forall_forall. intros d Hd.
  assert (Hin : (d_prefix d, capabilities d) ∈ table).
  { subst table t. rewrite <- Htable. apply list_elem_of_fmap.
    exists d. split; [reflexivity | exact Hd]. }
  subst table t. destruct (HAVE_FTRUNCATE C), (HAVE_NET_SERVICES C),
    (HAVE_SHMEM_SERVICES C); cbn in Hin;
    repeat (apply elem_of_cons in Hin as [Hin | Hin];
            [injection Hin as _ _ _ _ _ Hcl _ Hsz _ Hsk Hrd Hwr;
             rewrite Hcl, Hsz, Hsk, Hrd, Hwr; reflexivity |]);
    inversion Hin.
Qed.

End Builtin.

Section BuiltinUse.

Context {F : c_double} {E : Type}.
Variables (K : fitsio_h) (X : collaborators F E) (C : build) (D : builtin E).




End BuiltinUse.

Lemma sample_inits_succeed :
  (forall e0, fst (file_init sample_E sample_builtin e0) = 0%Z)
  /\ (forall e0, fst (mem_init sample_E sample_builtin e0) = 0%Z)
  /\ (forall e0, fst (root_init sample_E sample_builtin e0) = 0%Z)
  /\ (forall e0, fst (smem_init sample_E sample_builtin e0) = 0%Z).
Proof. repeat split. Qed.

Lemma init_registers_the_builtin_drivers_witness :
  exists w',
    Init.fits_init_cfitsio released_h (sample_X sample_double) sample_build
      sample_builtin sample_start = Done (0%Z, w')
    /\ no_of_drivers w' = 14%Z
    /\ urltype2driver released_h (cstr "shmem://") 0 w' = (0%Z, 13%Z)
    /\ urltype2driver released_h (cstr "memkeep://") 0 w' = (0%Z, 2%Z).
Proof.
  destruct sample_inits_succeed as (H1 & H2 & H3 & H4).
  destruct (init_registers_the_builtin_drivers released_h
              (sample_X sample_double) sample_build sample_builtin [] 0
              H1 H2 H3 H4 eq_refl)
    as (w' & Hrun & _ & Hn & Hlook).
  exists w'. split; [exact Hrun |]. split; [exact Hn |].
  split; [apply (Hlook 13%nat) | apply (Hlook 2%nat)]; reflexivity.
Defined.

Lemma init_leaves_no_room_witness :
  exists w',
    Init.fits_init_cfitsio released_h (sample_X sample_double) sample_build
      sample_builtin sample_start = Done (0%Z, w')
    /\ register_as released_h (Some (cstr "mine://")) sample_driver w'
       = Done (122%Z, w').
Proof.
  destruct sample_inits_succeed as (H1 & H2 & H3 & H4).
  destruct (init_leaves_no_room released_h (sample_X sample_double)
              sample_build sample_builtin [] (Some (cstr "mine://"))
              sample_driver H1 H2 H3 H4 eq_refl eq_refl eq_refl)
    as (w' & Hrun & _ & Hfull).
  exists w'. split; [exact Hrun | exact Hfull].
Defined.

Lemma builtin_capabilities_witness :
  exists w',
    Init.fits_init_cfitsio released_h (sample_X sample_double) sample_build
      sample_builtin sample_start = Done (0%Z, w')
    /\ (capabilities <$> driverTable w' !! 1%nat)
       = Some [false; false; true; true; true; false; true; false; true;
               true; true].
Proof.
  destruct sample_inits_succeed as (H1 & H2 & H3 & H4).
  destruct (builtin_capabilities released_h (sample_X sample_double)
              sample_build sample_builtin [] H1 H2 H3 H4 eq_refl)
    as (w' & Hrun & Htable & _).
  exists w'. split; [exact Hrun |].
  vm_compute in Hrun. injection Hrun as <-. vm_compute. reflexivity.
Defined.


